(** * code_analysis.py: line statistics per author, extension and directory

    A shallow embedding of [src/code_analysis.py]: the porcelain parser of
    [get_git_blame_info] with the subprocess call in front of it (decoding,
    line ends, return code), the aggregation loop of [main], the tree built by
    [build_directory_tree] and the renderer [print_directory_tree], followed
    by the properties of the specification that they satisfy or break; then
    [get_git_tracked_files], [print_table_row] and [main] from its first
    line, with further properties of the whole.

    Python integers are [Z]; Python strings are [string] (the UTF-8 bytes of
    the text: every character the code inspects is ASCII); a [dict] is an
    association list in insertion order, which is the iteration order of a
    Python dictionary; an exception is a [Raise] in the [result] type. *)

From Stdlib Require Import ZArith List String Ascii Bool Lia Permutation Sorted.
From Stdlib Require Import DecimalString.
From Stdlib Require DecimalPos DecimalFacts.
Import ListNotations.
Open Scope Z_scope.
Open Scope list_scope.

(* ================================================================== *)
(** * Part I: the program *)
(* ================================================================== *)

(** ** Exceptions *)

Inductive exn : Type :=
| ZeroDivisionError
| TypeError
| KeyError
| IndexError
| CalledProcessError
| UnicodeDecodeError
| OSError.

Inductive result (A : Type) : Type :=
| Ok (a : A)
| Raise (e : exn).

Arguments Ok {A} a.
Arguments Raise {A} e.

Definition bind {A B : Type} (r : result A) (k : A -> result B) : result B :=
  match r with
  | Ok a => k a
  | Raise e => Raise e
  end.

Notation "x <- r ;; k" := (bind r (fun x => k))
  (at level 61, r at next level, right associativity).

(** ** Python strings *)

Module Str.

(** [s.startswith(pre)] *)
Definition startswith (s pre : string) : bool := String.prefix pre s.

(** [s[n:]] *)
Fixpoint drop (n : nat) (s : string) : string :=
  match n, s with
  | O, _ => s
  | S n', String _ s' => drop n' s'
  | S _, EmptyString => EmptyString
  end.

(** [s.replace(old, new, 1)] for a non-empty [old]: the leftmost
    occurrence of [old] is replaced. *)
Fixpoint replace_first (old new s : string) : string :=
  if String.prefix old s then String.append new (drop (String.length old) s)
  else match s with
       | EmptyString => EmptyString
       | String c s' => String c (replace_first old new s')
       end.

(** [s.split(sep)] for a one-character separator. *)
Fixpoint split (sep : ascii) (s : string) : list string :=
  match s with
  | EmptyString => [EmptyString]
  | String c s' =>
      if Ascii.eqb c sep then EmptyString :: split sep s'
      else match split sep s' with
           | [] => [String c EmptyString]
           | w :: ws => String c w :: ws
           end
  end.

(** The character class [[0-9a-f]]. *)
Definition is_hex (c : ascii) : bool :=
  let n := nat_of_ascii c in
  ((48 <=? n)%nat && (n <=? 57)%nat) || ((97 <=? n)%nat && (n <=? 102)%nat).

(** [re.match(r'^[0-9a-f]{n}', s)] *)
Fixpoint match_hex (n : nat) (s : string) : bool :=
  match n with
  | O => true
  | S n' => match s with
            | EmptyString => false
            | String c s' => is_hex c && match_hex n' s'
            end
  end.

(** White space as [str.split()] sees it, among the ASCII characters. *)
Definition is_space (c : ascii) : bool :=
  let n := nat_of_ascii c in
  ((9 <=? n)%nat && (n <=? 13)%nat) || ((28 <=? n)%nat && (n <=? 32)%nat).

Fixpoint lstrip (s : string) : string :=
  match s with
  | String c s' => if is_space c then lstrip s' else s
  | EmptyString => EmptyString
  end.

Fixpoint until_space (s : string) : string :=
  match s with
  | String c s' => if is_space c then EmptyString else String c (until_space s')
  | EmptyString => EmptyString
  end.

(** [s.split()[0]]; a string of white space only has no first field and
    Python raises IndexError, here [None]. *)
Definition first_field (s : string) : option string :=
  match lstrip s with
  | EmptyString => None
  | t => Some (until_space t)
  end.

(** Truth value of a string: non-empty. *)
Definition truthy (s : string) : bool :=
  match s with
  | EmptyString => false
  | String _ _ => true
  end.

(** [c in s] *)
Fixpoint mem (c : ascii) (s : string) : bool :=
  match s with
  | EmptyString => false
  | String a s' => Ascii.eqb a c || mem c s'
  end.

End Str.

Definition LF : ascii := ascii_of_nat 10.
Definition TAB : ascii := ascii_of_nat 9.
Definition CR : ascii := ascii_of_nat 13.

(** ** subprocess.run(..., capture_output=True, text=True, check=True) *)

(** What the child process did: it ran and ended with a return code, having
    written bytes to its output and to its error output, or it could not be
    started (no [git] to execute). *)
Inductive process : Type :=
| Exited (returncode : Z) (stdout stderr : string)
| NotStarted.

Definition in_range (lo hi : nat) (c : ascii) : bool :=
  let n := nat_of_ascii c in (lo <=? n)%nat && (n <=? hi)%nat.

(** [bytes.decode('utf-8')] succeeds: the bytes are well-formed UTF-8 (no
    stray or missing continuation byte, no overlong form, no surrogate,
    nothing above U+10FFFF).  A string of the model is the UTF-8 bytes of
    its text, so that decoding changes nothing when it succeeds. *)
Fixpoint utf8_valid (s : string) : bool :=
  match s with
  | EmptyString => true
  | String c s1 =>
      let n := nat_of_ascii c in
      if (n <=? 127)%nat then utf8_valid s1
      else if in_range 194 223 c then
        match s1 with
        | String c1 s2 => in_range 128 191 c1 && utf8_valid s2
        | EmptyString => false
        end
      else if in_range 224 239 c then
        match s1 with
        | String c1 (String c2 s3) =>
            in_range (if (n =? 224)%nat then 160 else 128)
                     (if (n =? 237)%nat then 159 else 191) c1
            && in_range 128 191 c2 && utf8_valid s3
        | _ => false
        end
      else if in_range 240 244 c then
        match s1 with
        | String c1 (String c2 (String c3 s4)) =>
            in_range (if (n =? 240)%nat then 144 else 128)
                     (if (n =? 244)%nat then 143 else 191) c1
            && in_range 128 191 c2 && in_range 128 191 c3 && utf8_valid s4
        | _ => false
        end
      else false
  end.

(** [data.replace("\r\n", "\n").replace("\r", "\n")]: what text mode
    does to the decoded output. *)
Fixpoint universal_newlines (s : string) : string :=
  match s with
  | EmptyString => EmptyString
  | String c s1 =>
      if Ascii.eqb c CR then
        match s1 with
        | String c1 s2 =>
            if Ascii.eqb c1 LF then String LF (universal_newlines s2)
            else String LF (universal_newlines s1)
        | EmptyString => String LF EmptyString
        end
      else String c (universal_newlines s1)
  end.

(** The call, in a UTF-8 locale: [communicate] decodes the output and the
    error output (strictly, so that bytes that are not UTF-8 raise
    UnicodeDecodeError) and translates the line ends; then [check=True]
    raises CalledProcessError on a return code that is not zero; otherwise
    the text is [result.stdout]. *)
Definition subprocess_run (git : process) : result string :=
  match git with
  | NotStarted => Raise OSError
  | Exited returncode stdout stderr =>
      if utf8_valid stdout && utf8_valid stderr then
        if returncode =? 0 then Ok (universal_newlines stdout)
        else Raise CalledProcessError
      else Raise UnicodeDecodeError
  end.

(** ** Python dictionaries, in insertion order *)

Abbreviation dict V := (list (string * V)).

Fixpoint dict_get {V : Type} (k : string) (d : dict V) : option V :=
  match d with
  | [] => None
  | (k', v) :: d' => if String.eqb k' k then Some v else dict_get k d'
  end.

(** Store under [k] the value [f] computes from what was there: an entry
    that exists keeps its place, a new key goes last.  With a constant [f]
    this is [d[k] = v]; with a default for [None] it is the read-and-write
    of a [defaultdict], as in [d[k] += c]. *)
Fixpoint dict_upd {V : Type} (k : string) (f : option V -> V) (d : dict V) : dict V :=
  match d with
  | [] => [(k, f None)]
  | (k', v) :: d' =>
      if String.eqb k' k then (k', f (Some v)) :: d'
      else (k', v) :: dict_upd k f d'
  end.

Definition dict_set {V : Type} (k : string) (v : V) (d : dict V) : dict V :=
  dict_upd k (fun _ => v) d.

Definition or_default {V : Type} (dflt : V) (o : option V) : V :=
  match o with
  | Some v => v
  | None => dflt
  end.

(** [d[k] += c] on a [defaultdict(int)], and on a plain dictionary after
    [if k not in d: d[k] = 0]. *)
Definition dict_incr (k : string) (c : Z) (d : dict Z) : dict Z :=
  dict_upd k (fun o => or_default 0 o + c) d.

(** [sum(m(v) for v in d.values())] *)
Definition dict_sum {V : Type} (m : V -> Z) (d : dict V) : Z :=
  fold_right (fun kv acc => m (snd kv) + acc) 0 d.

(** [sum(d.values())] *)
Definition sum_values (d : dict Z) : Z := dict_sum (fun v => v) d.

(** [k in d] *)
Definition in_dict {V : Type} (k : string) (d : dict V) : bool :=
  match dict_get k d with
  | Some _ => true
  | None => false
  end.

(** Reading a [defaultdict(int)] without storing: [d.get(k, 0)]. *)
Definition count_of (k : string) (d : dict Z) : Z := or_default 0 (dict_get k d).

(** ** get_git_blame_info *)

(** The state of the scan: [commit_counts] and [current_commit]. *)
Definition blame_state : Type := (dict Z * option string)%type.

Definition commit_seen (current_commit : option string) : bool :=
  match current_commit with
  | Some c => Str.truthy c
  | None => false
  end.

(** One turn of [for line in lines] (lines 44 to 52). *)
Definition blame_line (st : blame_state) (line : string) : result blame_state :=
  let '(commit_counts, current_commit) := st in
  if Str.startswith line "author " then
    let author := Str.replace_first "author " "" line in
    if commit_seen current_commit && Str.truthy author
    then Ok (dict_incr author 1 commit_counts, current_commit)
    else Ok st
  else if Str.match_hex 40 line then
    match Str.first_field line with
    | Some commit => Ok (commit_counts, Some commit)
    | None => Raise IndexError
    end
  else Ok st.

Fixpoint blame_lines (lines : list string) (st : blame_state) : result blame_state :=
  match lines with
  | [] => Ok st
  | line :: rest => st' <- blame_line st line ;; blame_lines rest st'
  end.

(** Lines 40 to 54: [stdout] is [result.stdout], the decoded text of what
    [git blame --line-porcelain] wrote, with its line ends translated. *)
Definition parse_blame (stdout : string) : result (dict Z) :=
  st <- blame_lines (Str.split LF stdout) ([], None) ;; Ok (fst st).

(** [get_git_blame_info] (lines 32 to 57), given what [git blame] did for
    the file: the handler turns CalledProcessError into [{}], and nothing
    else that line 35 raises is caught. *)
Definition get_git_blame_info (git : process) : result (dict Z) :=
  match subprocess_run git with
  | Ok stdout => parse_blame stdout
  | Raise CalledProcessError => Ok []
  | Raise e => Raise e
  end.

(** ** Paths *)

(** [os.path.splitext] and [pathlib.Path.parts], as POSIX defines them. *)
Module Path.

Definition SLASH : ascii := "/"%char.
Definition DOT : ascii := "."%char.

(** [s.rfind(c)]: the index of the last [c], or -1. *)
Fixpoint rfind (c : ascii) (s : string) : Z :=
  match s with
  | EmptyString => -1
  | String a s' =>
      let r := rfind c s' in
      if 0 <=? r then r + 1 else if Ascii.eqb a c then 0 else -1
  end.

(** Some character of [s] is not [c]. *)
Fixpoint has_other (c : ascii) (s : string) : bool :=
  match s with
  | EmptyString => false
  | String a s' => negb (Ascii.eqb a c) || has_other c s'
  end.

(** [os.path.splitext(p)[1]] ([genericpath._splitext] with [sep = '/'],
    no [altsep], [extsep = '.']): the last dot must come after the last
    slash, and the loop over [filenameIndex] returns the extension at the
    first character of [p[sepIndex+1:dotIndex]] that is not a dot; when the
    loop runs out the extension is empty. *)
Definition splitext_ext (p : string) : string :=
  let sepIndex := rfind SLASH p in
  let dotIndex := rfind DOT p in
  if sepIndex <? dotIndex then
    let filenameIndex := sepIndex + 1 in
    if has_other DOT (String.substring (Z.to_nat filenameIndex)
                                       (Z.to_nat (dotIndex - filenameIndex)) p)
    then Str.drop (Z.to_nat dotIndex) p
    else EmptyString
  else EmptyString.

(** The root of a POSIX path: two leading slashes exactly are kept, any
    other number of them is one. *)
Definition root_of (p : string) : string :=
  if Str.startswith p "//" && negb (Str.startswith p "///") then "//"
  else if Str.startswith p "/" then "/"
  else EmptyString.

Definition is_segment (seg : string) : bool :=
  Str.truthy seg && negb (String.eqb seg ".").

(** [Path(p).parts] *)
Definition parts (p : string) : list string :=
  (if Str.truthy (root_of p) then [root_of p] else [])
    ++ filter is_segment (Str.split SLASH p).

(** [Path(p).parts[:-1]] *)
Definition dir_parts (p : string) : list string := removelast (parts p).

End Path.

(** ** The aggregation loop of main (lines 133 to 157) *)

Record ext_stat : Type := mkExt { ext_files : Z; ext_lines : Z }.

Record stats : Type := mkStats {
  author_ext_stats : dict (dict Z);
  extension_stats : dict ext_stat;
  author_stats : dict Z;
  blame_data : dict (dict Z);
  total_lines : Z
}.

Definition no_stats : stats := mkStats [] [] [] [] 0.

(** [extension_stats[ext]['files'] += 1; extension_stats[ext]['lines'] += file_lines] *)
Definition count_file (file_lines : Z) (o : option ext_stat) : ext_stat :=
  let s := or_default (mkExt 0 0) o in
  mkExt (ext_files s + 1) (ext_lines s + file_lines).

(** One turn of [for author, count in blame_info.items()] on
    ([author_stats], [author_ext_stats]). *)
Definition count_author (ext : string) (acc : dict Z * dict (dict Z))
    (item : string * Z) : dict Z * dict (dict Z) :=
  let '(author, count) := item in
  (dict_incr author count (fst acc),
   dict_upd author (fun o => dict_incr ext count (or_default [] o)) (snd acc)).

(** One turn of [for file_path in tracked_files], where [blame_info] is what
    [get_git_blame_info(file_path)] returned. *)
Definition collect_file (st : stats) (file : string * dict Z) : stats :=
  let '(file_path, blame_info) := file in
  let file_lines := sum_values blame_info in
  let ext := Path.splitext_ext file_path in
  let per_author :=
    fold_left (count_author ext) blame_info (author_stats st, author_ext_stats st) in
  mkStats (snd per_author)
          (dict_upd ext (count_file file_lines) (extension_stats st))
          (fst per_author)
          (dict_set file_path blame_info (blame_data st))
          (total_lines st + file_lines).

Definition collect_from (st : stats) (files : list (string * dict Z)) : stats :=
  fold_left collect_file files st.

Definition collect (files : list (string * dict Z)) : stats :=
  collect_from no_stats files.

(** ** build_directory_tree *)

(** A directory dictionary [{'files': f, 'lines': l, 'subdirs': {...}}]. *)
Unset Elimination Schemes.
Inductive dir_node : Type :=
| mkDir (dir_files dir_lines : Z) (dir_subdirs : list (string * dir_node)).
Set Elimination Schemes.

Definition dir_files (n : dir_node) : Z := let '(mkDir f _ _) := n in f.
Definition dir_lines (n : dir_node) : Z := let '(mkDir _ l _) := n in l.
Definition dir_subdirs (n : dir_node) : dict dir_node := let '(mkDir _ _ s) := n in s.

Definition new_dir : dir_node := mkDir 0 0 [].

(** Induction on a directory with the property at hand for its children. *)
Fixpoint dir_node_children_ind (P : dir_node -> Prop)
    (step : forall f l (subdirs : dict dir_node),
        Forall (fun item => P (snd item)) subdirs -> P (mkDir f l subdirs))
    (n : dir_node) {struct n} : P n :=
  match n with
  | mkDir f l subdirs =>
      step f l subdirs
        ((fix children (s : dict dir_node) : Forall (fun item => P (snd item)) s :=
            match s with
            | [] => Forall_nil _
            | item :: s' =>
                Forall_cons item
                  (match item as i return P (snd i) with
                   | (_, child) => dir_node_children_ind P step child
                   end)
                  (children s')
            end) subdirs)
  end.

(** The root [tree] is a [defaultdict] in which the loop stores one key
    only, ['subdirs'], and not before a file with a directory segment comes:
    [None] is the root without that key. *)
Definition root : Type := option (dict dir_node).

(** What the root holds under a key when it is read: a key that is missing
    is filled by the factory
    [lambda: {'files': 0, 'lines': 0, 'subdirs': defaultdict(dict)}]. *)
Inductive root_item : Type :=
| SubdirsMap (subdirs : dict dir_node)
| FactoryDict (n : dir_node).

Definition root_getitem (tree : root) (key : string) : root_item :=
  match tree with
  | Some subdirs => if String.eqb key "subdirs" then SubdirsMap subdirs
                    else FactoryDict new_dir
  | None => FactoryDict new_dir
  end.

(** The walk of lines 83 to 91 below [current['subdirs']]: the child for
    [part] is made if absent, counted, and becomes [current]. *)
Fixpoint walk (dirs : list string) (file_lines : Z) (subdirs : dict dir_node)
  : dict dir_node :=
  match dirs with
  | [] => subdirs
  | part :: rest =>
      dict_upd part
        (fun o => let n := or_default new_dir o in
                  mkDir (dir_files n + 1) (dir_lines n + file_lines)
                        (walk rest file_lines (dir_subdirs n)))
        subdirs
  end.

(** One file: with no directory segment the loop body does not run and the
    root is left as it is, without ['subdirs'] if it had none. *)
Definition add_to_tree (tree : root) (dirs : list string) (file_lines : Z) : root :=
  match dirs with
  | [] => tree
  | _ :: _ => Some (walk dirs file_lines (or_default [] tree))
  end.

Fixpoint build_from (tree : root) (tracked_files : list string)
    (blame_data : dict (dict Z)) : result root :=
  match tracked_files with
  | [] => Ok tree
  | file_path :: rest =>
      match dict_get file_path blame_data with
      | None => Raise KeyError
      | Some blame_info =>
          build_from (add_to_tree tree (Path.dir_parts file_path)
                                  (sum_values blame_info))
                     rest blame_data
      end
  end.

Definition build_directory_tree (tracked_files : list string)
    (blame_data : dict (dict Z)) : result root :=
  build_from None tracked_files blame_data.

(** ** sorted(..., key=..., reverse=True) *)

Section Sorted.

Context {A : Type}.
Variable key : A -> Z.

(** [x] comes from further left in the input than every element of [l]:
    it goes in front of the first element whose key is not larger. *)
Fixpoint insert_desc (x : A) (l : list A) : list A :=
  match l with
  | [] => [x]
  | y :: l' => if key y <=? key x then x :: l else y :: insert_desc x l'
  end.

(** The stable sort by descending key: elements with equal keys keep the
    order of the input, as [sorted] guarantees, also with [reverse=True]. *)
Fixpoint sorted_desc (l : list A) : list A :=
  match l with
  | [] => []
  | x :: l' => insert_desc x (sorted_desc l')
  end.

End Sorted.

(** ** format_percentage and the threshold of print_directory_tree *)

(** The text [format_percentage] returns: the literal ["0.0%"], or
    [f"{(part / whole) * 100:5.1f}%"], kept as the two numbers it formats. *)
Inductive percentage : Type :=
| ZeroPercent
| PercentOf (part whole : Z).

(** Lines 59 to 63.  (The quotient [part / whole] raises OverflowError when
    it is too large for binary64; every call divides a part of a sum of
    counts by that sum, and that case is left out.) *)
Definition format_percentage (part whole : Z) : percentage :=
  if whole =? 0 then ZeroPercent else PercentOf part whole.

(** The binary64 number that the literal [0.01] denotes is
    [one_percent_mantissa * 2^-59]. *)
Definition one_percent_mantissa : Z := 5764607523034235.

(** [lines / total_lines > 0.01] (line 104).  The quotient of two integers
    is the binary64 number nearest to the exact quotient, ties to the even
    mantissa.  It exceeds the binary64 [0.01], whose mantissa is odd, exactly
    when the exact quotient reaches the midpoint
    [(2 * one_percent_mantissa + 1) * 2^-60] between [0.01] and the next
    binary64 number above it.  A zero divisor raises.  (A quotient too
    large for binary64 raises OverflowError; a directory never has more
    lines than the grand total, and that case is left out.) *)
Definition above_threshold (lines total_lines : Z) : result bool :=
  if total_lines =? 0 then Raise ZeroDivisionError
  else
    let n := if total_lines <? 0 then - lines else lines in
    let d := Z.abs total_lines in
    Ok ((2 * one_percent_mantissa + 1) * d <=? n * 2 ^ 60).

(** ** print_directory_tree *)

(** What a call prints: the directory line and the line of its totals. *)
Inductive out_line : Type :=
| DirName (text : string)
| DirTotals (next_prefix : string) (lines : Z) (share : percentage) (files : Z).

Definition printer : Type := string -> bool -> Z -> result (list out_line).

Definition entry_lines (e : string * dir_node * printer) : Z :=
  dir_lines (snd (fst e)).

(** [current_prefix] and [next_prefix] (lines 98 and 99). *)
Definition current_prefix_of (prefix : string) (is_last : bool) : string :=
  String.append prefix (if is_last then "└── " else "├── ").
Definition next_prefix_of (prefix : string) (is_last : bool) : string :=
  String.append prefix (if is_last then "    " else "│   ").

(** The loop over the sorted items (lines 97 to 110); every item carries
    the recursive call on its own dictionary. *)
Fixpoint print_items (items : list (string * dir_node * printer))
    (prefix : string) (is_last : bool) (total_lines : Z)
  : result (list out_line) :=
  match items with
  | [] => Ok []
  | (dir_name, data, recurse) :: rest =>
      let current_prefix := current_prefix_of prefix is_last in
      let next_prefix := next_prefix_of prefix is_last in
      let lines := dir_lines data in
      let percentage := format_percentage lines total_lines in
      above <- above_threshold lines total_lines ;;
      shown <- (if above : bool then
                  below <- (match dir_subdirs data with
                            | [] => Ok []
                            | _ :: _ => recurse next_prefix is_last total_lines
                            end) ;;
                  Ok (DirName (String.append current_prefix (String.append dir_name "/"))
                        :: DirTotals next_prefix lines percentage (dir_files data)
                        :: below)
                else Ok []) ;;
      others <- print_items rest prefix is_last total_lines ;;
      Ok (shown ++ others)
  end.

(** [print_directory_tree(data, prefix, is_last, total_lines)] on a
    directory dictionary. *)
Fixpoint print_node (data : dir_node) : printer :=
  fun prefix is_last total_lines =>
    let '(mkDir _ _ subdirs) := data in
    print_items
      (sorted_desc entry_lines
         (map (fun item : string * dir_node =>
                 let '(dir_name, child) := item in
                 (dir_name, child, print_node child))
              subdirs))
      prefix is_last total_lines.

(** The items of a ['subdirs'] mapping, each with its recursive call. *)
Definition with_printers (subdirs : dict dir_node)
  : list (string * dir_node * printer) :=
  map (fun item : string * dir_node => (fst item, snd item, print_node (snd item)))
      subdirs.

(** [print_directory_tree(tree, prefix, is_last, total_lines)] on the root.
    When the root has no ['subdirs'], [tree['subdirs']] is the factory's
    dictionary, its items are [('files', 0)], [('lines', 0)] and
    [('subdirs', ...)], and the sort key [x[1]['lines']] subscripts the
    integer [0]. *)
Definition print_directory_tree (tree : root) (prefix : string)
    (is_last : bool) (total_lines : Z) : result (list out_line) :=
  match root_getitem tree "subdirs" with
  | SubdirsMap subdirs =>
      print_items (sorted_desc entry_lines (with_printers subdirs))
                  prefix is_last total_lines
  | FactoryDict _ => Raise TypeError
  end.

(** ** The report of main (lines 129 to 225) *)

(** The sorted listings of lines 171, 180 and 190. *)
Definition extension_listing (st : stats) : list (string * ext_stat) :=
  sorted_desc (fun x => ext_lines (snd x)) (extension_stats st).

Definition author_listing (st : stats) : list (string * Z) :=
  sorted_desc (fun x => snd x) (author_stats st).

(** Lines 201 to 205: [author_ext_stats[author]] sorted. *)
Definition author_extensions (st : stats) (author : string) : list (string * Z) :=
  sorted_desc (fun x => snd x) (or_default [] (dict_get author (author_ext_stats st))).

(** One line of the contributor breakdown: the extension, its lines, and
    [perc_author] and [perc_ext]. *)
Definition contributor_line (st : stats) (total_lines_ : Z) (item : string * Z)
  : string * Z * percentage * percentage :=
  let '(ext, lines) := item in
  let ext_total := ext_lines (or_default (mkExt 0 0) (dict_get ext (extension_stats st))) in
  (ext, lines, format_percentage lines total_lines_, format_percentage lines ext_total).

Record report : Type := mkReport {
  shown_total_lines : Z;
  files_analyzed : Z;
  extension_rows : list (string * ext_stat);
  author_rows : list (string * Z * percentage);
  contributor_rows : list (string * list (string * Z * percentage * percentage));
  directory_rows : list out_line
}.

Inductive outcome : Type :=
| NoTrackedFiles
| Printed (r : report).

(** [main] from line 127 on: [files] pairs every tracked file with what
    [get_git_blame_info] returned for it. *)
Definition main (files : list (string * dict Z)) : result outcome :=
  match files with
  | [] => Ok NoTrackedFiles
  | _ :: _ =>
      let tracked_files := map fst files in
      let st := collect files in
      dir_tree <- build_directory_tree tracked_files (blame_data st) ;;
      rows <- print_directory_tree dir_tree EmptyString true (total_lines st) ;;
      Ok (Printed
            (mkReport
               (total_lines st)
               (Z.of_nat (List.length tracked_files))
               (extension_listing st)
               (map (fun x => (fst x, snd x, format_percentage (snd x) (total_lines st)))
                    (author_listing st))
               (map (fun x => (fst x, map (contributor_line st (snd x))
                                          (author_extensions st (fst x))))
                    (author_listing st))
               rows))
  end.

(** The calls of [get_git_blame_info] in the loop of [main], one per tracked
    file, each with what the subprocess did for that file. *)
Fixpoint blame_all (tracked : list (string * process))
  : result (list (string * dict Z)) :=
  match tracked with
  | [] => Ok []
  | (file_path, git) :: rest =>
      blame_info <- get_git_blame_info git ;;
      others <- blame_all rest ;;
      Ok ((file_path, blame_info) :: others)
  end.

Definition run (tracked : list (string * process)) : result outcome :=
  files <- blame_all tracked ;; main files.

(** ** Vocabulary of the claims *)

(** *** Porcelain text *)

(** A line that names the author: the literal prefix, then the name. *)
Definition is_author_line (line : string) : bool := Str.startswith line "author ".

(** A content line: a TAB, then the line of the file. *)
Definition is_content_line (line : string) : bool :=
  match line with
  | String c _ => Ascii.eqb c TAB
  | EmptyString => false
  end.


(** A line that neither branch of the scan recognises. *)
Definition unrecognised (line : string) : bool :=
  negb (is_author_line line) && negb (Str.match_hex 40 line).

Definition count_lines (f : string -> bool) (lines : list string) : Z :=
  Z.of_nat (List.length (filter f lines)).






(** The lines of a block that name [author]. *)
Definition names_author (author : string) (line : string) : bool :=
  String.eqb line (String.append "author " author).

(** *** Files and what the tables hold for them *)

Definition file_lines (file : string * dict Z) : Z := sum_values (snd file).
Definition ext_of (file : string * dict Z) : string := Path.splitext_ext (fst file).
Definition dirs_of (file : string * dict Z) : list string := Path.dir_parts (fst file).

(** [extension_stats[e]], read without storing. *)
Definition ext_entry (e : string) (st : stats) : ext_stat :=
  or_default (mkExt 0 0) (dict_get e (extension_stats st)).

(** [author_ext_stats[a]], read without storing. *)
Definition author_exts (a : string) (st : stats) : dict Z :=
  or_default [] (dict_get a (author_ext_stats st)).

(** [sum(m(x) for x in l if f(x))] *)
Definition total_where {X : Type} (f : X -> bool) (m : X -> Z) (l : list X) : Z :=
  fold_right (fun x acc => (if f x then m x else 0) + acc) 0 l.

(** The lines of the files that satisfy [f]. *)
Definition lines_where (f : string * dict Z -> bool) (files : list (string * dict Z)) : Z :=
  total_where f file_lines files.

(** The number of files that satisfy [f]. *)
Definition files_where (f : string * dict Z -> bool) (files : list (string * dict Z)) : Z :=
  total_where f (fun _ => 1) files.

(** An item of a mapping that belongs to author [a]. *)
Definition named (a : string) (item : string * Z) : bool := String.eqb (fst item) a.

(** The lines that the mapping of [file] gives to [a], and whether it
    has an entry for [a] at all. *)
Definition author_lines (a : string) (file : string * dict Z) : Z :=
  total_where (named a) snd (snd file).
Definition has_author (a : string) (file : string * dict Z) : bool :=
  existsb (named a) (snd file).

Definition has_ext (e : string) (file : string * dict Z) : bool :=
  String.eqb (ext_of file) e.

(** The keys that the root holds when the tree is built. *)
Definition root_keys (tree : root) : list string :=
  match tree with
  | Some _ => ["subdirs"%string]
  | None => []
  end.

(** What holds of the tables after every turn of the loop over the files. *)
Definition consistent (st : stats) : Prop :=
  dict_sum ext_lines (extension_stats st) = total_lines st /\
  sum_values (author_stats st) = total_lines st /\
  (forall a, sum_values (author_exts a st) = count_of a (author_stats st)) /\
  (forall e, dict_sum (count_of e) (author_ext_stats st) = ext_lines (ext_entry e st)).

(** *** Directories of the tree *)

(** The directory dictionary at a path of names below a ['subdirs'] mapping. *)
Fixpoint node_at (path : list string) (subdirs : dict dir_node) : option dir_node :=
  match path with
  | [] => None
  | name :: rest =>
      match dict_get name subdirs with
      | None => None
      | Some n => match rest with
                  | [] => Some n
                  | _ :: _ => node_at rest (dir_subdirs n)
                  end
      end
  end.

Definition root_subdirs (tree : root) : dict dir_node := or_default [] tree.

(** [path] is a prefix of [dirs]. *)
Fixpoint leads_to (path dirs : list string) : bool :=
  match path, dirs with
  | [], _ => true
  | _ :: _, [] => false
  | a :: path', b :: dirs' => String.eqb a b && leads_to path' dirs'
  end.

Fixpoint same_path (p q : list string) : bool :=
  match p, q with
  | [], [] => true
  | a :: p', b :: q' => String.eqb a b && same_path p' q'
  | _, _ => false
  end.

(** A file directly in the directory [path], and one anywhere below it. *)
Definition directly_in (path : list string) (file : string * dict Z) : bool :=
  same_path path (dirs_of file).

(** [file_count] and [line_count] of the directory at [path]; a directory
    that the tree does not have counts nothing. *)
Definition counts_at (path : list string) (subdirs : dict dir_node) : Z * Z :=
  match node_at path subdirs with
  | Some n => (dir_files n, dir_lines n)
  | None => (0, 0)
  end.

Definition has_dir (path : list string) (subdirs : dict dir_node) : bool :=
  match node_at path subdirs with
  | Some _ => true
  | None => false
  end.

Definition on_path (path dirs : list string) : bool :=
  match path with
  | [] => false
  | _ :: _ => leads_to path dirs
  end.

(** A file anywhere below the directory [path]. *)
Definition beneath (path : list string) (file : string * dict Z) : bool :=
  on_path path (dirs_of file).

(** A file with no directory segment. *)
Definition at_root (file : string * dict Z) : bool :=
  match dirs_of file with
  | [] => true
  | _ :: _ => false
  end.

(** The root has its ['subdirs']. *)
Definition has_subdirs (tree : root) : bool :=
  match tree with
  | Some _ => true
  | None => false
  end.

(** The mapping that [blame_data] ends up with for the path [p]: the one of
    the last file with that path. *)
Definition last_record (p : string) (files : list (string * dict Z))
    (o : option (dict Z)) : option (dict Z) :=
  fold_left (fun o file => if String.eqb (fst file) p then Some (snd file) else o)
            files o.

(** Every path comes with one mapping, however often it is listed. *)
Definition one_record_per_path (files : list (string * dict Z)) : Prop :=
  forall p r r', In (p, r) files -> In (p, r') files -> r = r'.

(** The tree that the loop of [build_directory_tree] grows when every file
    comes with its own mapping. *)
Definition plant (tree : root) (files : list (string * dict Z)) : root :=
  fold_left (fun t file => add_to_tree t (dirs_of file) (file_lines file)) files tree.

(** *** The extension, in the words of the specification *)

(** The final segment of a path: what follows its last slash. *)
Fixpoint final_segment (p : string) : string :=
  match p with
  | EmptyString => EmptyString
  | String c p' =>
      if Str.mem Path.SLASH p' then final_segment p'
      else if Ascii.eqb c Path.SLASH then p' else p
  end.

(** From the last dot of a segment to its end, the dot included; nothing
    when the segment has no dot. *)
Fixpoint from_last_dot (seg : string) : string :=
  match seg with
  | EmptyString => EmptyString
  | String c seg' =>
      if Str.mem Path.DOT seg' then from_last_dot seg'
      else if Ascii.eqb c Path.DOT then seg else EmptyString
  end.

(** What comes before the last dot of a segment. *)
Fixpoint before_last_dot (seg : string) : string :=
  match seg with
  | EmptyString => EmptyString
  | String c seg' =>
      if Str.mem Path.DOT seg' then String c (before_last_dot seg') else EmptyString
  end.

(** *** Listings *)

(** [listing] is [table] sorted by descending key, entries with equal keys
    in the order of [table]. *)
Definition stable_descending {A : Type} (key : A -> Z) (table listing : list A) : Prop :=
  Permutation table listing /\
  StronglySorted (fun x y => key y <= key x) listing /\
  forall v, filter (fun x => key x =? v) listing = filter (fun x => key x =? v) table.

(** The distinct keys of a sequence, each at its first occurrence. *)
Fixpoint first_seen (l : list string) : list string :=
  match l with
  | [] => []
  | k :: l' => k :: filter (fun k' => negb (String.eqb k' k)) (first_seen l')
  end.

(** The keys of a dictionary after a key is stored in it. *)
Definition add_key (k : string) (keys : list string) : list string :=
  if existsb (String.eqb k) keys then keys else keys ++ [k].

(** The keys after storing under every key of [seq], in order. *)
Definition add_keys (seq keys : list string) : list string :=
  fold_left (fun ks k => add_key k ks) seq keys.

(** The ['subdirs'] mapping of the directory at [path]; of the root for the
    empty path. *)
Definition children_at (path : list string) (subdirs : dict dir_node) : dict dir_node :=
  match path with
  | [] => subdirs
  | _ :: _ => match node_at path subdirs with
              | Some n => dir_subdirs n
              | None => []
              end
  end.

(** The directory of [dirs] that comes right below [path], if any. *)
Definition next_segment (path dirs : list string) : list string :=
  if leads_to path dirs then firstn 1 (skipn (List.length path) dirs) else [].

(** *** What the renderer shows *)

(** The lines for the sorted children [items] of one directory: a child
    with at most one hundredth of [total_lines] is left out with all that is
    below it; any other child gives its two lines, then the lines of its own
    children, sorted, under the same [total_lines]. *)
Inductive shows (total_lines : Z) (is_last : bool)
  : string -> dict dir_node -> list out_line -> Prop :=
| shows_none (prefix : string) : shows total_lines is_last prefix [] []
| shows_pruned (prefix dir_name : string) (data : dir_node)
               (rest : dict dir_node) (out : list out_line) :
    100 * dir_lines data <= total_lines ->
    shows total_lines is_last prefix rest out ->
    shows total_lines is_last prefix ((dir_name, data) :: rest) out
| shows_printed (prefix dir_name : string) (data : dir_node)
                (rest : dict dir_node) (below out : list out_line) :
    total_lines < 100 * dir_lines data ->
    shows total_lines is_last (next_prefix_of prefix is_last)
          (sorted_desc (fun item => dir_lines (snd item)) (dir_subdirs data)) below ->
    shows total_lines is_last prefix rest out ->
    shows total_lines is_last prefix ((dir_name, data) :: rest)
          (DirName (String.append (current_prefix_of prefix is_last)
                                  (String.append dir_name "/"))
             :: DirTotals (next_prefix_of prefix is_last) (dir_lines data)
                          (format_percentage (dir_lines data) total_lines)
                          (dir_files data)
             :: below ++ out).

(** The lines for the children of one directory, walked in the order of
    [listing]: a child that fails the comparison of line 104 is passed
    over with all that is below it; any other child gives its two lines,
    then the lines of its own children, walked by descending line count
    with ties in the order of its ['subdirs'], then come the lines of the
    children that follow it in [listing]. *)
Inductive renders (total_lines : Z) (is_last : bool)
  : string -> dict dir_node -> list out_line -> Prop :=
| renders_none (prefix : string) : renders total_lines is_last prefix [] []
| renders_passed (prefix dir_name : string) (data : dir_node)
                 (rest : dict dir_node) (out : list out_line) :
    above_threshold (dir_lines data) total_lines = Ok false ->
    renders total_lines is_last prefix rest out ->
    renders total_lines is_last prefix ((dir_name, data) :: rest) out
| renders_printed (prefix dir_name : string) (data : dir_node)
                  (rest listing : dict dir_node) (below out : list out_line) :
    above_threshold (dir_lines data) total_lines = Ok true ->
    stable_descending (fun item => dir_lines (snd item)) (dir_subdirs data) listing ->
    renders total_lines is_last (next_prefix_of prefix is_last) listing below ->
    renders total_lines is_last prefix rest out ->
    renders total_lines is_last prefix ((dir_name, data) :: rest)
            (DirName (String.append (current_prefix_of prefix is_last)
                                    (String.append dir_name "/"))
               :: DirTotals (next_prefix_of prefix is_last) (dir_lines data)
                            (format_percentage (dir_lines data) total_lines)
                            (dir_files data)
               :: below ++ out).

(** *** Sample inputs *)

(** Lines joined into a text, each ended by a line feed. *)
Fixpoint text_of_lines (ls : list string) : string :=
  match ls with
  | [] => EmptyString
  | l :: ls' => String.append l (String LF (text_of_lines ls'))
  end.

Definition sha_a : string := "0123456789abcdef0123456789abcdef01234567".

(** Two lines of one file, both by Alice. *)
Definition two_line_blame : string :=
  text_of_lines
    [ String.append sha_a " 1 1 2"; "author Alice"%string; "summary x"%string;
      String TAB "line one";
      String.append sha_a " 2 2"; "author Alice"%string;
      String TAB "line two" ].

(** The two files of the end-to-end scenario. *)
Definition demo_files : list (string * dict Z) :=
  [ ("a.py"%string, [("Alice"%string, 10)]);
    ("sub/b.py"%string, [("Bob"%string, 5)]) ].

(** One content line whose block names two authors. *)
Definition two_author_block : list string :=
  [ String.append sha_a " 1 1 1"; "author Alice"%string; "author Bob"%string ].


(** One line by Alice that holds a carriage return and, after it, the
    words of an author line. *)
Definition carriage_return_blame : string :=
  text_of_lines
    [ String.append sha_a " 1 1 1"; "author Alice"%string;
      String TAB (String.append "x" (String CR "author Mallory")) ].


(** Alice and Bob with a hundred lines each and Carol with fifty, met in
    that order, and met as Carol, Alice, Bob. *)
Definition tied_authors : list (string * dict Z) :=
  [ ("src/x.py"%string,
     [("Alice"%string, 100); ("Bob"%string, 100); ("Carol"%string, 50)]) ].

Definition tied_authors_late : list (string * dict Z) :=
  [ ("src/x.py"%string, [("Carol"%string, 50); ("Alice"%string, 100)]);
    ("src/y.py"%string, [("Bob"%string, 100)]) ].

(** Directories [c] with fifty lines, [a] and [b] with a hundred each, met
    in that order. *)
Definition tied_directories : list (string * dict Z) :=
  [ ("c/z.py"%string, [("Carol"%string, 50)]);
    ("a/x.py"%string, [("Alice"%string, 100)]);
    ("b/y.py"%string, [("Bob"%string, 100)]) ].

(** ** The rest of the program *)

(** *** More of Python's strings *)

Module Text.

(** A byte that continues a UTF-8 character. *)
Definition is_continuation (c : ascii) : bool :=
  let n := nat_of_ascii c in (128 <=? n)%nat && (n <=? 191)%nat.

(** [len(s)]: the characters of the text, one per byte that does not
    continue a character. *)
Fixpoint len (s : string) : nat :=
  match s with
  | EmptyString => O
  | String c s' => ((if is_continuation c then 0 else 1) + len s')%nat
  end.

(** [s.endswith(suffix)]: some tail of [s] is [suffix]. *)
Fixpoint endswith (s suffix : string) : bool :=
  String.eqb s suffix ||
  match s with
  | EmptyString => false
  | String _ s' => endswith s' suffix
  end.

Fixpoint spaces (n : nat) : string :=
  match n with
  | O => EmptyString
  | S n' => String " " (spaces n')
  end.

(** [f"{s:{width}}"] and [f"{s:<{width}}"] on a string: padded on the
    right, never cut. *)
Definition ljust (width : nat) (s : string) : string :=
  String.append s (spaces (width - len s)).

(** [f"{s:>{width}}"], and the default for a number. *)
Definition rjust (width : nat) (s : string) : string :=
  String.append (spaces (width - len s)) s.

(** The one-byte line boundaries of [str.splitlines]: LF, VT, FF, CR, FS,
    GS and RS. *)
Definition is_break (c : ascii) : bool :=
  let n := nat_of_ascii c in
  ((10 <=? n)%nat && (n <=? 13)%nat) || ((28 <=? n)%nat && (n <=? 30)%nat).

Definition CR : ascii := ascii_of_nat 13.

(** The text cut at every line boundary: the one-byte ones, CR LF as one,
    and NEL, LS and PS in their UTF-8 bytes ([C2 85], [E2 80 A8],
    [E2 80 A9]). *)
Fixpoint pieces (s : string) : list string :=
  match s with
  | EmptyString => [EmptyString]
  | String c s1 =>
      let grown := match pieces s1 with
                   | [] => [String c EmptyString]
                   | w :: ws => String c w :: ws
                   end in
      if is_break c then
        match s1 with
        | String c2 s2 =>
            if Ascii.eqb c CR && Ascii.eqb c2 LF then EmptyString :: pieces s2
            else EmptyString :: pieces s1
        | EmptyString => EmptyString :: pieces s1
        end
      else if Ascii.eqb c (ascii_of_nat 194) then
        match s1 with
        | String c2 s2 =>
            if Ascii.eqb c2 (ascii_of_nat 133) then EmptyString :: pieces s2
            else grown
        | EmptyString => grown
        end
      else if Ascii.eqb c (ascii_of_nat 226) then
        match s1 with
        | String c2 (String c3 s3) =>
            if Ascii.eqb c2 (ascii_of_nat 128)
               && (Ascii.eqb c3 (ascii_of_nat 168) || Ascii.eqb c3 (ascii_of_nat 169))
            then EmptyString :: pieces s3
            else grown
        | _ => grown
        end
      else grown
  end.

(** [s.splitlines()]: the pieces, without the empty one that a final
    boundary leaves. *)
Definition splitlines (s : string) : list string :=
  match rev (pieces s) with
  | EmptyString :: before => rev before
  | _ => pieces s
  end.

End Text.

(** *** Numbers in the report *)

(** [str(n)] *)
Definition decimal (n : Z) : string := DecimalString.NilZero.string_of_int (Z.to_int n).

(** [f"{n:{width}d}"] *)
Definition format_d (width : nat) (n : Z) : string := Text.rjust width (decimal n).

(** A comma before every group of three digits that is not the first. *)
Fixpoint with_commas (digits : string) : string :=
  match digits with
  | EmptyString => EmptyString
  | String c rest =>
      String c (if (0 <? String.length rest)%nat && (String.length rest mod 3 =? 0)%nat
                then String "," (with_commas rest)
                else with_commas rest)
  end.

(** [f"{n:,}"] *)
Definition format_comma (n : Z) : string :=
  if n <? 0 then String "-" (with_commas (decimal (- n)))
  else with_commas (decimal n).

(** *** print_table_row *)

(** Lines 65 to 70, for values that are strings already, as at every call:
    [zip] stops at the shortest of the three lists. *)
Fixpoint print_table_row (values : list string) (widths : list nat)
    (separators : list string) : string :=
  match values, widths, separators with
  | value :: values', width :: widths', sep :: separators' =>
      String.append (Text.ljust width value)
                    (String.append sep (print_table_row values' widths' separators'))
  | _, _, _ => EmptyString
  end.

(** The row of lines 172 to 176 for one extension. *)
Definition extension_row (item : string * ext_stat) : string :=
  print_table_row
    [ fst item;
      String.append (format_d 6 (ext_lines (snd item))) " lines in";
      String.append (format_d 4 (ext_files (snd item))) " files" ]
    [8; 17; 10]%nat
    [":"%string; EmptyString; EmptyString].

(** Lines 165 to 167. *)
Definition summary (total_lines n_files : Z) : list string :=
  [ String LF "Repository Analysis";
    String.append "├── Total Lines: " (format_comma total_lines);
    String.append "└── Files Analyzed: " (format_comma n_files) ].

(** *** get_git_tracked_files *)

(** What [git ls-files] did: its output, a non-zero exit status
    ([CalledProcessError]), or any other exception (no [git] at all). *)
Inductive ls_files : Type :=
| LsOutput (stdout : string)
| LsCalledProcessError
| LsOtherError.

(** [any(f.endswith(ext) for ext in extensions)] *)
Definition tracked_by (extensions : list string) (f : string) : bool :=
  existsb (Text.endswith f) extensions.

(** Lines 8 to 30, with the working directory of the process before and
    after.  [can_enter]: [os.getcwd()] and [os.chdir(directory)] succeed;
    [can_return]: [os.chdir(original_dir)] succeeds.  Both handlers return
    the empty list, and neither goes back to [original_dir]. *)
Definition get_git_tracked_files (cwd directory : string)
    (can_enter can_return : bool) (ls : ls_files) (extensions : list string)
  : list string * string :=
  if can_enter then
    match ls with
    | LsOutput stdout =>
        if can_return
        then (filter (tracked_by extensions) (Text.splitlines stdout), cwd)
        else ([], directory)
    | LsCalledProcessError => ([], directory)
    | LsOtherError => ([], directory)
    end
  else ([], cwd).

(** *** main, from its first line *)

(** The default of [--extensions]. *)
Definition default_extensions : list string :=
  [".py"; ".js"; ".java"; ".cpp"; ".c"; ".h"; ".hpp";
   ".cs"; ".php"; ".rb"; ".tsx"; ".jsx"; ".ts"; ".rs"]%string.

(** What the run finds around it; it does not change while the run lasts.
    [git_blame] gives, for a path, what [git blame] does for it. *)
Record run_env : Type := mkEnv {
  directory_exists : bool;
  can_enter : bool;
  can_return : bool;
  git_ls_files : ls_files;
  git_blame : string -> process
}.

Inductive script_outcome : Type :=
| DirectoryMissing
| Ended (o : outcome).

(** [main] (lines 112 to 225) after the arguments are parsed: the outcome,
    and the working directory that the process is left in.  The second
    change of directory (line 142) and the way back (line 162) are reached
    only when the first ones went well.  From line 142 to line 162 the
    process is in [directory]: an exception that escapes
    [get_git_blame_info] (line 146), or one of [build_directory_tree]
    (line 160), ends the run there.  The way back comes before anything is
    printed, so that an exception of the renderer (line 225) finds the
    process where it started. *)
Definition script (env : run_env) (cwd directory : string)
    (extensions : list string) : result script_outcome * string :=
  if directory_exists env then
    let '(tracked_files, cwd') :=
      get_git_tracked_files cwd directory (can_enter env) (can_return env)
                            (git_ls_files env) extensions in
    match tracked_files with
    | [] => (Ok (Ended NoTrackedFiles), cwd')
    | _ :: _ =>
        match blame_all (map (fun p => (p, git_blame env p)) tracked_files) with
        | Raise e => (Raise e, directory)
        | Ok files =>
            match build_directory_tree (map fst files) (blame_data (collect files)) with
            | Raise e => (Raise e, directory)
            | Ok _ => (o <- main files ;; Ok (Ended o), cwd')
            end
        end
    end
  else (Ok DirectoryMissing, cwd).

(** ** Vocabulary of the further properties *)

(** *** The parser *)

(** A commit line, as the scan takes it. *)
Definition is_commit_line (line : string) : bool :=
  negb (is_author_line line) && Str.match_hex 40 line.

(** The lines that follow the first commit line. *)
Fixpoint after_first_commit (lines : list string) : list string :=
  match lines with
  | [] => []
  | line :: rest => if is_commit_line line then rest else after_first_commit rest
  end.

(** The names on the author lines, those that are not empty. *)
Definition author_names (lines : list string) : list string :=
  filter Str.truthy (map (Str.drop 7) (filter is_author_line lines)).

(** The names that the scan of a text counts, one per counted line. *)
Definition counted_names (stdout : string) : list string :=
  author_names (after_first_commit (Str.split LF stdout)).

Definition occurrences (a : string) (names : list string) : Z :=
  Z.of_nat (count_occ string_dec names a).

(** A mapping with one count more for every name, in order. *)
Definition tally (names : list string) (counts : dict Z) : dict Z :=
  fold_left (fun d name => dict_incr name 1 d) names counts.

(** *** The tree and [blame_data] *)

(** A tracked path with the mapping that [blame_data] holds for it. *)
Definition from_blame_data (bd : dict (dict Z)) (p : string) : string * dict Z :=
  (p, or_default [] (dict_get p bd)).

(** Some tracked file lies in a directory. *)
Definition some_in_directory (files : list (string * dict Z)) : bool :=
  existsb (fun file => negb (at_root file)) files.

(** Every count of every mapping is at least zero. *)
Definition counts_not_negative (files : list (string * dict Z)) : Prop :=
  Forall (fun file => Forall (fun item => 0 <= snd item) (snd file)) files.

(** The children of a directory that the renderer prints for a grand total. *)
Definition printed_children (total_lines : Z) (children : dict dir_node) : dict dir_node :=
  filter (fun item => total_lines <? 100 * dir_lines (snd item)) children.

(** *** A run of the script *)

(** The exception that escapes [get_git_blame_info], if one does. *)
Definition escapes (git : process) : option exn :=
  match subprocess_run git with
  | Ok _ => None
  | Raise CalledProcessError => None
  | Raise e => Some e
  end.

(** The first exception that escapes the calls of line 146, in the order of
    the tracked files. *)
Fixpoint first_escape (blame : string -> process) (tracked : list string)
  : option exn :=
  match tracked with
  | [] => None
  | p :: rest =>
      match escapes (blame p) with
      | Some e => Some e
      | None => first_escape blame rest
      end
  end.

(** The mapping that [get_git_blame_info] returns for what [git blame] did;
    none of its own when the call raises. *)
Definition blame_info_of (git : process) : dict Z :=
  match subprocess_run git with
  | Ok stdout => tally (counted_names stdout) []
  | Raise _ => []
  end.

(** The tracked files, each with the mapping of its [git blame]. *)
Definition blamed (blame : string -> process) (tracked : list string)
  : list (string * dict Z) :=
  map (fun p => (p, blame_info_of (blame p))) tracked.

(** Every count of every mapping is at least one. *)
Definition counts_positive (files : list (string * dict Z)) : Prop :=
  Forall (fun file => Forall (fun item => 1 <= snd item) (snd file)) files.

(** A path with a directory segment. *)
Definition in_directory (p : string) : bool :=
  match Path.dir_parts p with
  | [] => false
  | _ :: _ => true
  end.

(** A percentage that was computed, from a whole that is positive: not the
    literal of the zero guard. *)
Definition computed (p : percentage) : Prop :=
  match p with
  | ZeroPercent => False
  | PercentOf _ whole => 0 < whole
  end.

Definition shares (l : out_line) : list percentage :=
  match l with
  | DirName _ => []
  | DirTotals _ _ share _ => [share]
  end.

(** Every percentage that a report shows. *)
Definition percentages (r : report) : list percentage :=
  map snd (author_rows r)
  ++ flat_map (fun c => flat_map (fun line => [snd (fst line); snd line]) (snd c))
              (contributor_rows r)
  ++ flat_map shares (directory_rows r).

(** [git ls-files] gave its output. *)
Definition listed (ls : ls_files) : bool :=
  match ls with
  | LsOutput _ => true
  | _ => false
  end.

(** An extension as the default ones are: a dot, then characters that are
    neither dots nor slashes. *)
Definition plain_extension (ext : string) : bool :=
  match ext with
  | String c e =>
      Ascii.eqb c Path.DOT && negb (Str.mem Path.DOT e) && negb (Str.mem Path.SLASH e)
  | EmptyString => false
  end.

(** *** The listing of git ls-files *)

(** A name in which [splitlines] finds no line boundary. *)
Fixpoint unbroken (s : string) : bool :=
  match s with
  | EmptyString => true
  | String c s1 =>
      negb (Text.is_break c)
      && negb (Ascii.eqb c (ascii_of_nat 194)
               && match s1 with
                  | String c2 _ => Ascii.eqb c2 (ascii_of_nat 133)
                  | EmptyString => false
                  end)
      && negb (Ascii.eqb c (ascii_of_nat 226)
               && match s1 with
                  | String c2 (String c3 _) =>
                      Ascii.eqb c2 (ascii_of_nat 128)
                      && (Ascii.eqb c3 (ascii_of_nat 168)
                          || Ascii.eqb c3 (ascii_of_nat 169))
                  | _ => false
                  end)
      && unbroken s1
  end.

(** A segment of a relative path: not empty, not [.], without a slash. *)
Definition proper_segment (seg : string) : bool :=
  Path.is_segment seg && negb (Str.mem Path.SLASH seg).

(** *** Sums over the rows of a report *)

Definition total_of (l : list Z) : Z := fold_right Z.add 0 l.

(** *** What a run counts *)

(** The author lines that the scan counts in [result.stdout], the decoded
    output of [git blame] with its line ends translated; none when the call
    gives no text. *)
Definition counted_lines (git : process) : Z :=
  match subprocess_run git with
  | Ok stdout => Z.of_nat (List.length (counted_names stdout))
  | Raise _ => 0
  end.

(** A text with its commas taken out. *)
Fixpoint without_commas (s : string) : string :=
  match s with
  | EmptyString => EmptyString
  | String c s' =>
      if Ascii.eqb c ","%char then without_commas s' else String c (without_commas s')
  end.

(** A child that the renderer prints under a grand total: the comparison of
    line 104 holds for it. *)
Definition printed (total_lines : Z) (item : string * dir_node) : bool :=
  match above_threshold (dir_lines (snd item)) total_lines with
  | Ok above => above
  | Raise _ => false
  end.

(** *** Proof steps *)

(** Equations between disjunctions of membership tests. *)
Ltac bool_cases :=
  repeat match goal with
         | |- context [in_dict ?k ?d] => destruct (in_dict k d)
         | |- context [existsb ?f ?l] => destruct (existsb f l)
         | |- context [has_dir ?p ?s] => destruct (has_dir p s)
         end;
  reflexivity.

(* ================================================================== *)
(** * Part II: properties *)
(* ================================================================== *)

(** ** Dictionaries *)

Lemma dict_get_upd {V : Type} (k k' : string) (f : option V -> V) (d : dict V) :
  dict_get k (dict_upd k' f d) =
  if String.eqb k' k then Some (f (dict_get k' d)) else dict_get k d.
Proof.
  induction d as [|[k0 v] d IH]; simpl.
  - destruct (String.eqb_spec k' k); reflexivity.
  - destruct (String.eqb_spec k0 k') as [->|Hne]; simpl.
    + destruct (String.eqb_spec k' k); reflexivity.
    + rewrite IH.
      destruct (String.eqb_spec k0 k) as [->|Hne']; simpl.
      * destruct (String.eqb_spec k' k); [congruence | reflexivity].
      * reflexivity.
Qed.

Lemma dict_sum_upd {V : Type} (m : V -> Z) (k : string) (f : option V -> V)
    (d : dict V) :
  dict_sum m (dict_upd k f d) =
  dict_sum m d - or_default 0 (option_map m (dict_get k d)) + m (f (dict_get k d)).
Proof.
  induction d as [|[k0 v] d IH]; simpl.
  - lia.
  - destruct (String.eqb_spec k0 k) as [->|Hne]; simpl.
    + fold (dict_sum m d). lia.
    + fold (dict_sum m d) (dict_sum m (dict_upd k f d)). rewrite IH. lia.
Qed.

Lemma sum_values_incr (k : string) (c : Z) (d : dict Z) :
  sum_values (dict_incr k c d) = sum_values d + c.
Proof.
  unfold sum_values, dict_incr. rewrite dict_sum_upd.
  destruct (dict_get k d); cbn [or_default option_map]; lia.
Qed.

Lemma count_of_incr (k k' : string) (c : Z) (d : dict Z) :
  count_of k (dict_incr k' c d) =
  if String.eqb k' k then count_of k d + c else count_of k d.
Proof.
  unfold count_of, dict_incr. rewrite dict_get_upd.
  destruct (String.eqb_spec k' k) as [->|]; reflexivity.
Qed.

(** ** Strings *)

Lemma prefix_split (pre s : string) :
  String.prefix pre s = true -> s = String.append pre (Str.drop (String.length pre) s).
Proof.
  revert s. induction pre as [|a pre IH]; intros s H.
  - destruct s; reflexivity.
  - destruct s as [|b s]; simpl in H; [discriminate|].
    destruct (ascii_dec a b) as [->|]; [|discriminate].
    simpl. f_equal. apply IH, H.
Qed.

Lemma prefix_append (pre s : string) : String.prefix pre (String.append pre s) = true.
Proof.
  induction pre as [|a pre IH]; simpl.
  - destruct s; reflexivity.
  - destruct (ascii_dec a a); [exact IH | congruence].
Qed.

Lemma drop_append (pre s : string) : Str.drop (String.length pre) (String.append pre s) = s.
Proof. induction pre; simpl; [destruct s; reflexivity | assumption]. Qed.

Lemma replace_first_prefix (old new s : string) :
  String.prefix old s = true ->
  Str.replace_first old new s = String.append new (Str.drop (String.length old) s).
Proof.
  intros H.
  destruct s; cbn -[String.prefix String.append Str.drop String.length];
    rewrite H; reflexivity.
Qed.

Lemma hex_not_space (c : ascii) : Str.is_hex c = true -> Str.is_space c = false.
Proof.
  unfold Str.is_hex, Str.is_space. generalize (nat_of_ascii c). intros n H.
  apply orb_true_iff in H.
  rewrite !andb_true_iff, !Nat.leb_le in H.
  apply orb_false_iff. rewrite !andb_false_iff, !Nat.leb_gt. lia.
Qed.

Lemma hex_first_field (n : nat) (line : string) :
  Str.match_hex (S n) line = true ->
  exists commit, Str.first_field line = Some commit /\ Str.truthy commit = true.
Proof.
  destruct line as [|c line]; simpl; [discriminate|].
  intros H. apply andb_true_iff in H. destruct H as [Hc _].
  apply hex_not_space in Hc. unfold Str.first_field. simpl. rewrite !Hc.
  eexists. split; reflexivity.
Qed.

Lemma prefix_cons (a b : ascii) (s1 s2 : string) :
  String.prefix (String a s1) (String b s2) = Ascii.eqb a b && String.prefix s1 s2.
Proof.
  change (String.prefix (String a s1) (String b s2))
    with (if ascii_dec a b then String.prefix s1 s2 else false).
  destruct (ascii_dec a b), (Ascii.eqb_spec a b); try congruence; reflexivity.
Qed.



Lemma content_not_hex (line : string) :
  is_content_line line = true -> Str.match_hex 40 line = false.
Proof.
  destruct line as [|c line]; simpl; [reflexivity|]. intros H.
  apply Ascii.eqb_eq in H. subst c. reflexivity.
Qed.

(** ** The porcelain scan *)

(** What one line does to the state: the scan never raises, a commit once
    seen stays seen, and the counters change on an author line only, by one
    for the name that follows the prefix. *)
Lemma blame_line_effect (counts : dict Z) (cur : option string) (line : string) :
  exists counts' cur',
    blame_line (counts, cur) line = Ok (counts', cur') /\
    (commit_seen cur = true -> commit_seen cur' = true) /\
    ((is_author_line line = false /\ counts' = counts) \/
     (is_author_line line = true /\ cur' = cur /\
      line = String.append "author " (Str.drop 7 line) /\
      (counts' = counts \/
       (commit_seen cur = true /\ Str.drop 7 line <> EmptyString /\
        counts' = dict_incr (Str.drop 7 line) 1 counts)))).
Proof.
  unfold blame_line, is_author_line.
  destruct (Str.startswith line "author ") eqn:Ha.
  - unfold Str.startswith in Ha.
    rewrite (replace_first_prefix _ _ _ Ha).
    change (String.length "author ") with 7%nat.
    change (String.append "" (Str.drop 7 line)) with (Str.drop 7 line).
    pose proof (prefix_split _ _ Ha) as Hl.
    change (String.length "author ") with 7%nat in Hl.
    destruct (commit_seen cur && Str.truthy (Str.drop 7 line)) eqn:Hc.
    + apply andb_true_iff in Hc. destruct Hc as [Hc Ht].
      do 2 eexists. split; [reflexivity|]. split; [auto|].
      right. repeat split; auto. right. repeat split; auto.
      intros E. rewrite E in Ht. discriminate.
    + do 2 eexists. split; [reflexivity|]. split; [auto|].
      right. repeat split; auto.
  - destruct (Str.match_hex 40 line) eqn:Hh.
    + destruct (hex_first_field _ _ Hh) as (commit & -> & Ht).
      do 2 eexists. split; [reflexivity|]. split; [intros _; exact Ht|]. left. auto.
    + do 2 eexists. split; [reflexivity|]. split; [auto|]. left. auto.
Qed.


Lemma unrecognised_ignored (st : blame_state) (line : string) :
  unrecognised line = true -> blame_line st line = Ok st.
Proof.
  unfold unrecognised, is_author_line, blame_line. intros H.
  apply andb_true_iff in H. destruct H as [Ha Hh].
  apply negb_true_iff in Ha, Hh. destruct st as [counts cur].
  rewrite Ha, Hh. reflexivity.
Qed.




Lemma count_lines_cons (f : string -> bool) (l : string) (lines : list string) :
  count_lines f (l :: lines) = (if f l then 1 else 0) + count_lines f lines.
Proof.
  unfold count_lines. simpl. destruct (f l); simpl List.length; lia.
Qed.







(** The scan of any lines at all: no exception, and every counter grows by
    at most the number of lines that name its author. *)
Lemma blame_lines_bounded (lines : list string) :
  forall (counts : dict Z) (cur : option string),
  exists counts' cur',
    blame_lines lines (counts, cur) = Ok (counts', cur') /\
    sum_values counts <= sum_values counts'
      <= sum_values counts + count_lines is_author_line lines /\
    (forall author,
        count_of author counts <= count_of author counts'
          <= count_of author counts + count_lines (names_author author) lines).
Proof.
  induction lines as [|l lines IH]; intros counts cur.
  - exists counts, cur. split; [reflexivity|].
    unfold count_lines. simpl. split; [lia | intros; lia].
  - destruct (blame_line_effect counts cur l)
      as (c1 & cur1 & E1 & _ & Hcases).
    destruct (IH c1 cur1) as (c2 & cur2 & E2 & S2 & A2).
    exists c2, cur2. split; [cbn [blame_lines]; rewrite E1; exact E2|].
    rewrite count_lines_cons.
    assert (Hnames : forall author,
               names_author author l = true ->
               is_author_line l = true /\ Str.drop 7 l = author).
    { intros author Hn. apply String.eqb_eq in Hn. subst l. split.
      - apply prefix_append.
      - apply (drop_append "author " author). }
    destruct Hcases as [[Hna ->]|(Ha & _ & Hl & [->|(_ & _ & ->)])].
    + rewrite Hna. split; [lia|]. intros author.
      rewrite count_lines_cons. specialize (A2 author).
      destruct (names_author author l) eqn:Hn; [|lia].
      destruct (Hnames _ Hn). congruence.
    + rewrite Ha. split; [lia|]. intros author.
      rewrite count_lines_cons. specialize (A2 author).
      destruct (names_author author l); lia.
    + rewrite Ha. rewrite sum_values_incr in S2. split; [lia|]. intros author.
      rewrite count_lines_cons. specialize (A2 author).
      rewrite count_of_incr in A2.
      destruct (String.eqb_spec (Str.drop 7 l) author) as [E|NE].
      * assert (Hn : names_author author l = true).
        { unfold names_author. rewrite <- E, <- Hl. apply String.eqb_refl. }
        rewrite Hn. lia.
      * destruct (names_author author l) eqn:Hn; [|lia].
        destruct (Hnames _ Hn). congruence.
Qed.

(** On any text at all the scan returns a mapping. *)
Lemma parse_blame_total (stdout : string) :
  exists counts : dict Z, parse_blame stdout = Ok counts.
Proof.
  unfold parse_blame.
  destruct (blame_lines_bounded (Str.split LF stdout) [] None)
    as (counts & cur & E & _).
  assert (E' : blame_lines (Str.split LF stdout) ([], None) = Ok (counts, cur))
    by exact E.
  exists counts. rewrite E'. reflexivity.
Qed.

(** [get_git_blame_info] by what line 35 did. *)
Lemma get_git_blame_info_text (git : process) (stdout : string) :
  subprocess_run git = Ok stdout -> get_git_blame_info git = parse_blame stdout.
Proof. unfold get_git_blame_info. intros ->. reflexivity. Qed.

Lemma get_git_blame_info_failed (git : process) :
  subprocess_run git = Raise CalledProcessError -> get_git_blame_info git = Ok [].
Proof. unfold get_git_blame_info. intros ->. reflexivity. Qed.


(** ** The aggregation loop *)

Lemma count_of_default (e : string) (o : option (dict Z)) :
  or_default 0 (option_map (count_of e) o) = count_of e (or_default [] o).
Proof. destruct o; reflexivity. Qed.

(** The loop over the items of one mapping. *)
Lemma count_authors_effect (ext : string) (blame_info : dict Z) :
  forall (a_stats : dict Z) (ae_stats : dict (dict Z)),
  let acc := fold_left (count_author ext) blame_info (a_stats, ae_stats) in
  sum_values (fst acc) = sum_values a_stats + sum_values blame_info /\
  (forall a, sum_values (or_default [] (dict_get a (snd acc))) - count_of a (fst acc)
             = sum_values (or_default [] (dict_get a ae_stats)) - count_of a a_stats) /\
  (forall e, dict_sum (count_of e) (snd acc)
             = dict_sum (count_of e) ae_stats
               + (if String.eqb ext e then sum_values blame_info else 0)).
Proof.
  induction blame_info as [|[author count] items IH]; intros a_stats ae_stats.
  - simpl. unfold sum_values at 3. simpl.
    repeat split; intros; try destruct (String.eqb ext e); lia.
  - cbn [fold_left count_author fst snd].
    specialize (IH (dict_incr author count a_stats)
                   (dict_upd author (fun o => dict_incr ext count (or_default [] o))
                             ae_stats)).
    cbv zeta in IH. destruct IH as (I1 & I2 & I3).
    assert (Hsum : sum_values ((author, count) :: items) = count + sum_values items)
      by reflexivity.
    split; [|split].
    + rewrite I1, sum_values_incr, Hsum. lia.
    + intros a. rewrite I2, dict_get_upd, count_of_incr.
      destruct (String.eqb_spec author a) as [->|]; cbn [or_default];
        [rewrite sum_values_incr; lia | reflexivity].
    + intros e. rewrite I3, dict_sum_upd, count_of_default, count_of_incr, Hsum.
      destruct (String.eqb ext e); lia.
Qed.

Lemma collect_file_consistent (st : stats) (file : string * dict Z) :
  consistent st -> consistent (collect_file st file).
Proof.
  destruct file as [file_path blame_info].
  intros (H1 & H2 & H3 & H4).
  destruct (count_authors_effect (Path.splitext_ext file_path) blame_info
              (author_stats st) (author_ext_stats st)) as (I1 & I2 & I3).
  unfold consistent, author_exts, ext_entry in *.
  cbn [collect_file extension_stats total_lines author_stats author_ext_stats].
  split; [|split; [|split]].
  - rewrite dict_sum_upd. unfold count_file.
    destruct (dict_get (Path.splitext_ext file_path) (extension_stats st));
      cbn [or_default option_map ext_lines]; lia.
  - lia.
  - intros a. specialize (I2 a). specialize (H3 a). lia.
  - intros e. rewrite I3, dict_get_upd, H4.
    destruct (String.eqb_spec (Path.splitext_ext file_path) e) as [->|];
      [|cbn [or_default]; lia].
    unfold count_file. cbn [or_default ext_lines]. lia.
Qed.

Lemma collect_from_consistent (files : list (string * dict Z)) (st : stats) :
  consistent st -> consistent (collect_from st files).
Proof.
  revert st. induction files as [|file files IH]; intros st H; [exact H|].
  apply IH, collect_file_consistent, H.
Qed.

Lemma collect_consistent (files : list (string * dict Z)) : consistent (collect files).
Proof.
  apply collect_from_consistent. unfold consistent. repeat split; reflexivity.
Qed.

Lemma lines_where_cons f (file : string * dict Z) (files : list (string * dict Z)) :
  lines_where f (file :: files)
  = (if f file then file_lines file else 0) + lines_where f files.
Proof. reflexivity. Qed.

Lemma files_where_cons f (file : string * dict Z) (files : list (string * dict Z)) :
  files_where f (file :: files) = (if f file then 1 else 0) + files_where f files.
Proof. reflexivity. Qed.

Lemma collect_from_cons (st : stats) (file : string * dict Z)
    (files : list (string * dict Z)) :
  collect_from st (file :: files) = collect_from (collect_file st file) files.
Proof. reflexivity. Qed.

Lemma collect_from_total (files : list (string * dict Z)) (st : stats) :
  total_lines (collect_from st files)
  = total_lines st + lines_where (fun _ => true) files.
Proof.
  revert st. induction files as [|[p r] files IH]; intros st.
  - simpl. lia.
  - rewrite collect_from_cons, IH, lines_where_cons.
    cbn [total_lines collect_file]. unfold file_lines. cbn [snd]. lia.
Qed.

(** ** The directory tree *)

Lemma node_at_nil (path : list string) : node_at path [] = None.
Proof. destruct path; reflexivity. Qed.

Lemma node_at_cons (name : string) (rest : list string) (subdirs : dict dir_node) :
  node_at (name :: rest) subdirs =
  match dict_get name subdirs with
  | None => None
  | Some n => match rest with
              | [] => Some n
              | _ :: _ => node_at rest (dir_subdirs n)
              end
  end.
Proof. reflexivity. Qed.

(** The directory that one walk leaves at [path]: a directory on the way
    of the file is counted once more, made first if it was not there, and
    the walk goes on below it; any other directory is as it was. *)
Lemma node_at_walk (dirs : list string) (file_lines : Z) :
  forall (subdirs : dict dir_node) (path : list string),
  node_at path (walk dirs file_lines subdirs) =
  if on_path path dirs then
    let n := or_default new_dir (node_at path subdirs) in
    Some (mkDir (dir_files n + 1) (dir_lines n + file_lines)
                (walk (skipn (List.length path) dirs) file_lines (dir_subdirs n)))
  else node_at path subdirs.
Proof.
  induction dirs as [|part rest IH]; intros subdirs path.
  - destruct path; reflexivity.
  - destruct path as [|name prest]; [reflexivity|].
    cbn [walk on_path leads_to]. rewrite !node_at_cons, dict_get_upd.
    rewrite String.eqb_sym.
    destruct (String.eqb_spec name part) as [->|Hne]; cbn [andb]; [|reflexivity].
    destruct prest as [|q qs].
    + cbn [leads_to List.length skipn]. cbv zeta.
      destruct (dict_get part subdirs); reflexivity.
    + cbn [dir_subdirs]. rewrite IH. cbn [on_path].
      change (skipn (List.length (part :: q :: qs)) (part :: rest))
        with (skipn (List.length (q :: qs)) rest).
      destruct (dict_get part subdirs) as [m|]; cbn [or_default]; [reflexivity|].
      cbn [new_dir dir_subdirs]. rewrite node_at_nil. reflexivity.
Qed.

Lemma walk_sum_lines (dirs : list string) (file_lines : Z) (subdirs : dict dir_node) :
  dict_sum dir_lines (walk dirs file_lines subdirs) =
  dict_sum dir_lines subdirs + (match dirs with [] => 0 | _ :: _ => file_lines end).
Proof.
  destruct dirs as [|part rest]; cbn [walk]; [lia|].
  rewrite dict_sum_upd.
  destruct (dict_get part subdirs); cbn [or_default option_map dir_lines new_dir]; lia.
Qed.

Lemma walk_sum_files (dirs : list string) (file_lines : Z) (subdirs : dict dir_node) :
  dict_sum dir_files (walk dirs file_lines subdirs) =
  dict_sum dir_files subdirs + (match dirs with [] => 0 | _ :: _ => 1 end).
Proof.
  destruct dirs as [|part rest]; cbn [walk]; [lia|].
  rewrite dict_sum_upd.
  destruct (dict_get part subdirs); cbn [or_default option_map dir_files new_dir]; lia.
Qed.

Lemma counts_at_walk (dirs : list string) (file_lines : Z)
    (subdirs : dict dir_node) (path : list string) :
  counts_at path (walk dirs file_lines subdirs) =
  if on_path path dirs
  then (fst (counts_at path subdirs) + 1, snd (counts_at path subdirs) + file_lines)
  else counts_at path subdirs.
Proof.
  unfold counts_at. rewrite node_at_walk.
  destruct (on_path path dirs); [|reflexivity].
  destruct (node_at path subdirs); reflexivity.
Qed.

Lemma has_dir_walk (dirs : list string) (file_lines : Z)
    (subdirs : dict dir_node) (path : list string) :
  has_dir path (walk dirs file_lines subdirs) = on_path path dirs || has_dir path subdirs.
Proof.
  unfold has_dir. rewrite node_at_walk. destruct (on_path path dirs); reflexivity.
Qed.

Lemma root_subdirs_add (tree : root) (dirs : list string) (file_lines : Z) :
  root_subdirs (add_to_tree tree dirs file_lines)
  = walk dirs file_lines (root_subdirs tree).
Proof. destruct dirs; reflexivity. Qed.

Lemma plant_app (tree : root) (files1 files2 : list (string * dict Z)) :
  plant tree (files1 ++ files2) = plant (plant tree files1) files2.
Proof. apply fold_left_app. Qed.

Lemma plant_snoc (tree : root) (files : list (string * dict Z)) (file : string * dict Z) :
  plant tree (files ++ [file])
  = add_to_tree (plant tree files) (dirs_of file) (file_lines file).
Proof. rewrite plant_app. reflexivity. Qed.

Lemma lines_where_app f (files1 files2 : list (string * dict Z)) :
  lines_where f (files1 ++ files2) = lines_where f files1 + lines_where f files2.
Proof.
  induction files1 as [|file files1 IH]; [reflexivity|].
  cbn [app]. rewrite !lines_where_cons, IH. lia.
Qed.

Lemma files_where_app f (files1 files2 : list (string * dict Z)) :
  files_where f (files1 ++ files2) = files_where f files1 + files_where f files2.
Proof.
  induction files1 as [|file files1 IH]; [reflexivity|].
  cbn [app]. rewrite !files_where_cons, IH. lia.
Qed.

Lemma total_where_ext {X : Type} (f g : X -> bool) (m : X -> Z) (l : list X) :
  (forall x, f x = g x) -> total_where f m l = total_where g m l.
Proof.
  intros H. induction l as [|x l IH]; [reflexivity|].
  cbn [total_where fold_right]. fold (total_where f m l) (total_where g m l).
  rewrite H, IH. reflexivity.
Qed.

Lemma plant_cons (tree : root) (file : string * dict Z) (files : list (string * dict Z)) :
  plant tree (file :: files)
  = plant (add_to_tree tree (dirs_of file) (file_lines file)) files.
Proof. reflexivity. Qed.

(** The counts of a directory are those of the files beneath it. *)
Lemma counts_at_plant (path : list string) (files : list (string * dict Z)) :
  forall tree : root,
  counts_at path (root_subdirs (plant tree files)) =
  (fst (counts_at path (root_subdirs tree)) + files_where (beneath path) files,
   snd (counts_at path (root_subdirs tree)) + lines_where (beneath path) files).
Proof.
  induction files as [|file files IH]; intros tree.
  - cbn [plant fold_left files_where lines_where fold_right].
    rewrite !Z.add_0_r. destruct (counts_at path (root_subdirs tree)); reflexivity.
  - rewrite plant_cons, IH, root_subdirs_add, counts_at_walk.
    rewrite files_where_cons, lines_where_cons.
    change (beneath path file) with (on_path path (dirs_of file)).
    destruct (on_path path (dirs_of file)); cbn [fst snd]; f_equal; lia.
Qed.

Lemma has_dir_plant (path : list string) (files : list (string * dict Z)) :
  forall tree : root,
  has_dir path (root_subdirs (plant tree files)) =
  has_dir path (root_subdirs tree) || existsb (beneath path) files.
Proof.
  induction files as [|file files IH]; intros tree.
  - cbn [plant fold_left existsb]. rewrite orb_false_r. reflexivity.
  - rewrite plant_cons, IH, root_subdirs_add, has_dir_walk. cbn [existsb].
    change (beneath path file) with (on_path path (dirs_of file)).
    destruct (on_path path (dirs_of file)), (has_dir path (root_subdirs tree));
      reflexivity.
Qed.

Lemma same_path_leads_to (path dirs : list string) :
  same_path path dirs = true -> leads_to path dirs = true.
Proof.
  revert dirs. induction path as [|a path IH]; intros [|b dirs] H;
    try reflexivity; try discriminate.
  cbn [same_path leads_to] in *. apply andb_true_iff in H. destruct H as [-> H].
  apply IH, H.
Qed.

Lemma leads_to_rest (path dirs : list string) (x : Z) :
  leads_to path dirs = true ->
  (match skipn (List.length path) dirs with [] => 0 | _ :: _ => x end)
  + (if same_path path dirs then x else 0) = x.
Proof.
  revert dirs. induction path as [|a path IH]; intros [|b dirs] H;
    try reflexivity; try discriminate.
  - cbn [List.length skipn same_path]. lia.
  - cbn [leads_to] in H. apply andb_true_iff in H. destruct H as [Hab H].
    cbn [List.length skipn same_path]. rewrite Hab. cbn [andb]. apply IH, H.
Qed.

Lemma nothing_where (f g : string * dict Z -> bool) (files : list (string * dict Z)) :
  (forall file, f file = true -> g file = true) ->
  existsb g files = false ->
  lines_where f files = 0 /\ files_where f files = 0.
Proof.
  intros Hfg. induction files as [|file files IH]; intros H; [split; reflexivity|].
  cbn [existsb] in H. apply orb_false_iff in H. destruct H as [Hg H].
  rewrite lines_where_cons, files_where_cons.
  destruct (f file) eqn:Hf; [rewrite (Hfg _ Hf) in Hg; discriminate|].
  destruct (IH H). lia.
Qed.

(** Roll-up: a directory counts what its children count and the files
    directly in it. *)
Lemma rollup_plant (files : list (string * dict Z)) :
  forall (path : list string) (n : dir_node),
  node_at path (root_subdirs (plant None files)) = Some n ->
  dir_lines n = dict_sum dir_lines (dir_subdirs n) + lines_where (directly_in path) files /\
  dir_files n = dict_sum dir_files (dir_subdirs n) + files_where (directly_in path) files.
Proof.
  induction files as [|file files IH] using rev_ind; intros path n Hn.
  - cbn in Hn. rewrite node_at_nil in Hn. discriminate.
  - rewrite plant_snoc, root_subdirs_add, node_at_walk in Hn.
    rewrite lines_where_app, files_where_app.
    rewrite (lines_where_cons _ file []), (files_where_cons _ file []).
    change (directly_in path file) with (same_path path (dirs_of file)).
    change (lines_where (directly_in path) []) with 0.
    change (files_where (directly_in path) []) with 0.
    destruct (on_path path (dirs_of file)) eqn:Hon.
    + assert (Hlead : leads_to path (dirs_of file) = true)
        by (destruct path; [discriminate | exact Hon]).
      pose proof (leads_to_rest _ _ (file_lines file) Hlead) as HL.
      pose proof (leads_to_rest _ _ 1 Hlead) as HF.
      cbv zeta in Hn. inversion Hn as [En]. clear Hn.
      cbn [dir_lines dir_files dir_subdirs].
      rewrite walk_sum_lines, walk_sum_files.
      destruct (node_at path (root_subdirs (plant None files))) as [m|] eqn:Hm.
      * destruct (IH path m Hm) as [IHl IHf]. cbn [or_default].
        destruct (same_path path (dirs_of file)); lia.
      * assert (Hnone : existsb (beneath path) files = false).
        { pose proof (has_dir_plant path files None) as Hd.
          unfold has_dir in Hd. rewrite Hm in Hd.
          cbn [root_subdirs or_default] in Hd. rewrite node_at_nil in Hd.
          symmetry. exact Hd. }
        destruct (nothing_where (directly_in path) (beneath path) files) as [Zl Zf];
          [|exact Hnone|].
        { intros f Hf. unfold directly_in in Hf. unfold beneath.
          destruct path; [discriminate Hon|]. apply same_path_leads_to, Hf. }
        cbn [or_default new_dir dir_lines dir_files dir_subdirs dict_sum fold_right].
        destruct (same_path path (dirs_of file)); lia.
    + destruct (IH path n Hn) as [IHl IHf].
      assert (Hsame : same_path path (dirs_of file) = false).
      { destruct (same_path path (dirs_of file)) eqn:Hs; [|reflexivity].
        apply same_path_leads_to in Hs.
        destruct path; [|cbn [on_path] in Hon; congruence].
        cbn in Hn. discriminate. }
      rewrite Hsame. lia.
Qed.

(** The directories of the first level and the files at the root make up
    all the lines. *)
Lemma top_level_plant (files : list (string * dict Z)) :
  forall tree : root,
  dict_sum dir_lines (root_subdirs (plant tree files)) + lines_where at_root files
  = dict_sum dir_lines (root_subdirs tree) + lines_where (fun _ => true) files.
Proof.
  induction files as [|file files IH]; intros tree; [reflexivity|].
  rewrite plant_cons, !lines_where_cons.
  specialize (IH (add_to_tree tree (dirs_of file) (file_lines file))).
  rewrite root_subdirs_add, walk_sum_lines in IH.
  assert (Hroot : at_root file = match dirs_of file with [] => true | _ :: _ => false end)
    by reflexivity.
  rewrite Hroot. destruct (dirs_of file); lia.
Qed.

(** ** blame_data and the tree that is built from it *)

Lemma blame_data_collect (p : string) (files : list (string * dict Z)) :
  forall st : stats,
  dict_get p (blame_data (collect_from st files))
  = last_record p files (dict_get p (blame_data st)).
Proof.
  induction files as [|[q r] files IH]; intros st; [reflexivity|].
  rewrite collect_from_cons, IH. cbn [collect_file blame_data].
  unfold dict_set. rewrite dict_get_upd. reflexivity.
Qed.

Lemma last_record_snoc (p : string) (files : list (string * dict Z))
    (file : string * dict Z) (o : option (dict Z)) :
  last_record p (files ++ [file]) o
  = if String.eqb (fst file) p then Some (snd file) else last_record p files o.
Proof. unfold last_record. rewrite fold_left_app. reflexivity. Qed.

Lemma last_record_unique (p : string) (r : dict Z) (files : list (string * dict Z)) :
  one_record_per_path files -> In (p, r) files ->
  forall o, last_record p files o = Some r.
Proof.
  induction files as [|[q r'] files IH] using rev_ind; intros Hone Hin o;
    [destruct Hin|].
  rewrite last_record_snoc. cbn [fst snd].
  destruct (String.eqb_spec q p) as [->|Hne].
  - f_equal. apply (Hone p); [|exact Hin].
    apply in_or_app. right. left. reflexivity.
  - apply IH.
    + intros p0 r1 r2 H1 H2. apply (Hone p0); apply in_or_app; left; assumption.
    + apply in_app_or in Hin. destruct Hin as [Hin|[E|[]]]; [exact Hin|].
      inversion E. congruence.
Qed.

Lemma distinct_paths_one_record (files : list (string * dict Z)) :
  NoDup (map fst files) -> one_record_per_path files.
Proof.
  induction files as [|[q r0] files IH]; intros Hnd p r r' H1 H2; [destruct H1|].
  cbn [map fst] in Hnd. inversion Hnd as [|? ? Hq Hnd']; subst.
  destruct H1 as [E1|H1], H2 as [E2|H2].
  - congruence.
  - inversion E1; subst. exfalso. apply Hq. apply (in_map fst _ _ H2).
  - inversion E2; subst. exfalso. apply Hq. apply (in_map fst _ _ H1).
  - apply (IH Hnd' p); assumption.
Qed.

Lemma one_record_perm (files files' : list (string * dict Z)) :
  Permutation files files' -> one_record_per_path files -> one_record_per_path files'.
Proof.
  intros Hperm Hone p r r' H1 H2.
  apply (Hone p); eapply Permutation_in; try eassumption;
    apply Permutation_sym, Hperm.
Qed.

Lemma one_record_without (before after : list (string * dict Z))
    (file : string * dict Z) :
  one_record_per_path (before ++ file :: after) -> one_record_per_path (before ++ after).
Proof.
  intros Hone p r r' H1 H2.
  apply (Hone p); apply in_or_app;
    [apply in_app_or in H1; destruct H1 | apply in_app_or in H2; destruct H2];
    try (left; assumption); right; right; assumption.
Qed.

Lemma build_from_plant (bd : dict (dict Z)) (files : list (string * dict Z)) :
  (forall p r, In (p, r) files -> dict_get p bd = Some r) ->
  forall tree : root, build_from tree (map fst files) bd = Ok (plant tree files).
Proof.
  induction files as [|[q r] files IH]; intros H tree; [reflexivity|].
  cbn [map fst build_from]. rewrite (H q r (or_introl eq_refl)).
  rewrite plant_cons. apply IH. intros p r' Hin. apply H. right. exact Hin.
Qed.

(** When every path has one mapping, [blame_data] holds for every file the
    mapping it came with, no lookup fails, and the tree is the one the files
    grow. *)
Lemma build_directory_tree_plant (files : list (string * dict Z)) :
  one_record_per_path files ->
  build_directory_tree (map fst files) (blame_data (collect files))
  = Ok (plant None files).
Proof.
  intros Hnd. apply build_from_plant. intros p r Hin.
  unfold collect. rewrite blame_data_collect.
  apply last_record_unique; assumption.
Qed.

(** ** What the tables hold, in terms of the files *)

Lemma total_where_cons {X : Type} (f : X -> bool) (m : X -> Z) (x : X) (l : list X) :
  total_where f m (x :: l) = (if f x then m x else 0) + total_where f m l.
Proof. reflexivity. Qed.

Lemma total_where_app {X : Type} (f : X -> bool) (m : X -> Z) (l1 l2 : list X) :
  total_where f m (l1 ++ l2) = total_where f m l1 + total_where f m l2.
Proof.
  induction l1 as [|x l1 IH]; [reflexivity|].
  cbn [app]. rewrite !total_where_cons, IH. lia.
Qed.

Lemma total_where_perm {X : Type} (f : X -> bool) (m : X -> Z) (l l' : list X) :
  Permutation l l' -> total_where f m l = total_where f m l'.
Proof.
  induction 1 as [|x l l' _ IH|x y l|l l' l'' _ IH1 _ IH2].
  - reflexivity.
  - rewrite !total_where_cons, IH. reflexivity.
  - rewrite !total_where_cons. lia.
  - congruence.
Qed.

Lemma existsb_perm {X : Type} (f : X -> bool) (l l' : list X) :
  Permutation l l' -> existsb f l = existsb f l'.
Proof.
  induction 1 as [|x l l' _ IH|x y l|l l' l'' _ IH1 _ IH2].
  - reflexivity.
  - cbn [existsb]. rewrite IH. reflexivity.
  - cbn [existsb]. destruct (f x), (f y); reflexivity.
  - congruence.
Qed.

Lemma in_dict_upd {V : Type} (k k' : string) (f : option V -> V) (d : dict V) :
  in_dict k (dict_upd k' f d) = String.eqb k' k || in_dict k d.
Proof.
  unfold in_dict. rewrite dict_get_upd. destruct (String.eqb k' k); reflexivity.
Qed.

Lemma dict_get_in_count (k : string) (d : dict Z) :
  dict_get k d = if in_dict k d then Some (count_of k d) else None.
Proof. unfold in_dict, count_of. destruct (dict_get k d); reflexivity. Qed.

(** One item of a mapping, seen from the author [a] and the extension [e]. *)
Lemma count_author_effect (ext a e : string) (acc : dict Z * dict (dict Z))
    (item : string * Z) :
  let acc' := count_author ext acc item in
  count_of a (fst acc') = count_of a (fst acc) + (if named a item then snd item else 0) /\
  in_dict a (fst acc') = in_dict a (fst acc) || named a item /\
  count_of e (or_default [] (dict_get a (snd acc')))
  = count_of e (or_default [] (dict_get a (snd acc)))
    + (if String.eqb ext e && named a item then snd item else 0) /\
  in_dict a (snd acc') = in_dict a (snd acc) || named a item /\
  in_dict e (or_default [] (dict_get a (snd acc')))
  = in_dict e (or_default [] (dict_get a (snd acc)))
    || (String.eqb ext e && named a item).
Proof.
  destruct item as [author count], acc as [a_stats ae_stats].
  unfold named. cbn [count_author fst snd].
  rewrite count_of_incr, dict_get_upd. unfold dict_incr at 1.
  rewrite !in_dict_upd.
  destruct (String.eqb_spec author a) as [->|Hne]; cbn [or_default].
  - rewrite count_of_incr. unfold dict_incr. rewrite in_dict_upd.
    rewrite !andb_true_r.
    repeat split; try apply orb_comm.
    destruct (String.eqb ext e); lia.
  - rewrite !andb_false_r, !orb_false_r, !Z.add_0_r. repeat split.
Qed.

Lemma count_authors_where (ext a e : string) (items : dict Z) :
  forall acc : dict Z * dict (dict Z),
  let acc' := fold_left (count_author ext) items acc in
  count_of a (fst acc') = count_of a (fst acc) + total_where (named a) snd items /\
  in_dict a (fst acc') = in_dict a (fst acc) || existsb (named a) items /\
  count_of e (or_default [] (dict_get a (snd acc')))
  = count_of e (or_default [] (dict_get a (snd acc)))
    + (if String.eqb ext e then total_where (named a) snd items else 0) /\
  in_dict a (snd acc') = in_dict a (snd acc) || existsb (named a) items /\
  in_dict e (or_default [] (dict_get a (snd acc')))
  = in_dict e (or_default [] (dict_get a (snd acc)))
    || (String.eqb ext e && existsb (named a) items).
Proof.
  induction items as [|item items IH]; intros acc.
  - cbn [fold_left total_where fold_right existsb].
    rewrite andb_false_r, !orb_false_r. destruct (String.eqb ext e); repeat split; lia.
  - cbn [fold_left]. specialize (IH (count_author ext acc item)). cbv zeta in IH.
    destruct IH as (I1 & I2 & I3 & I4 & I5).
    destruct (count_author_effect ext a e acc item) as (J1 & J2 & J3 & J4 & J5).
    cbv zeta. rewrite I1, I2, I3, I4, I5, J1, J2, J3, J4, J5.
    rewrite total_where_cons. cbn [existsb].
    destruct (String.eqb ext e), (named a item); cbn [andb];
      repeat split; try lia; bool_cases.
Qed.

(** One file, seen from the author [a] and the extension [e]. *)
Lemma collect_file_where (a e : string) (st : stats) (file : string * dict Z) :
  let st' := collect_file st file in
  ext_files (ext_entry e st')
  = ext_files (ext_entry e st) + (if has_ext e file then 1 else 0) /\
  ext_lines (ext_entry e st')
  = ext_lines (ext_entry e st) + (if has_ext e file then file_lines file else 0) /\
  in_dict e (extension_stats st') = in_dict e (extension_stats st) || has_ext e file /\
  count_of a (author_stats st') = count_of a (author_stats st) + author_lines a file /\
  in_dict a (author_stats st') = in_dict a (author_stats st) || has_author a file /\
  count_of e (author_exts a st')
  = count_of e (author_exts a st) + (if has_ext e file then author_lines a file else 0) /\
  in_dict a (author_ext_stats st') = in_dict a (author_ext_stats st) || has_author a file /\
  in_dict e (author_exts a st')
  = in_dict e (author_exts a st) || (has_ext e file && has_author a file).
Proof.
  destruct file as [file_path blame_info].
  destruct (count_authors_where (Path.splitext_ext file_path) a e blame_info
              (author_stats st, author_ext_stats st)) as (I1 & I2 & I3 & I4 & I5).
  cbn [fst snd] in I1, I2, I3, I4, I5.
  unfold ext_entry, author_exts, has_ext, ext_of, has_author, author_lines, file_lines.
  cbn [collect_file extension_stats author_stats author_ext_stats fst snd].
  rewrite in_dict_upd, dict_get_upd.
  repeat split; try assumption.
  - destruct (String.eqb_spec (Path.splitext_ext file_path) e) as [->|];
      cbn [or_default]; [|lia].
    unfold count_file. cbn [ext_files]. reflexivity.
  - destruct (String.eqb_spec (Path.splitext_ext file_path) e) as [->|];
      cbn [or_default]; [|lia].
    unfold count_file. cbn [ext_lines]. reflexivity.
  - apply orb_comm.
Qed.

Lemma collect_from_where (a e : string) (files : list (string * dict Z)) :
  forall st : stats,
  let st' := collect_from st files in
  ext_files (ext_entry e st')
  = ext_files (ext_entry e st) + files_where (has_ext e) files /\
  ext_lines (ext_entry e st')
  = ext_lines (ext_entry e st) + lines_where (has_ext e) files /\
  in_dict e (extension_stats st')
  = in_dict e (extension_stats st) || existsb (has_ext e) files /\
  count_of a (author_stats st')
  = count_of a (author_stats st) + total_where (fun _ => true) (author_lines a) files /\
  in_dict a (author_stats st')
  = in_dict a (author_stats st) || existsb (has_author a) files /\
  count_of e (author_exts a st')
  = count_of e (author_exts a st) + total_where (has_ext e) (author_lines a) files /\
  in_dict a (author_ext_stats st')
  = in_dict a (author_ext_stats st) || existsb (has_author a) files /\
  in_dict e (author_exts a st')
  = in_dict e (author_exts a st)
    || existsb (fun file => has_ext e file && has_author a file) files.
Proof.
  induction files as [|file files IH]; intros st.
  - cbn [collect_from fold_left]. unfold files_where, lines_where.
    cbn [total_where fold_right existsb].
    rewrite !orb_false_r, !Z.add_0_r. repeat split.
  - rewrite collect_from_cons. specialize (IH (collect_file st file)).
    cbv zeta in IH. destruct IH as (I1 & I2 & I3 & I4 & I5 & I6 & I7 & I8).
    destruct (collect_file_where a e st file)
      as (J1 & J2 & J3 & J4 & J5 & J6 & J7 & J8).
    cbv zeta. rewrite I1, I2, I3, I4, I5, I6, I7, I8, J1, J2, J3, J4, J5, J6, J7, J8.
    unfold files_where, lines_where. rewrite !total_where_cons. cbn [existsb].
    destruct (has_ext e file), (has_author a file); cbn [andb];
      repeat split; try lia; bool_cases.
Qed.

Lemma ext_stat_eq (x y : ext_stat) :
  ext_files x = ext_files y -> ext_lines x = ext_lines y -> x = y.
Proof. destruct x, y. cbn. intros -> ->. reflexivity. Qed.

Lemma dict_get_ext_entry (e : string) (st : stats) :
  dict_get e (extension_stats st)
  = if in_dict e (extension_stats st) then Some (ext_entry e st) else None.
Proof.
  unfold in_dict, ext_entry. destruct (dict_get e (extension_stats st)); reflexivity.
Qed.

Lemma has_subdirs_plant (files : list (string * dict Z)) :
  forall tree : root,
  has_subdirs (plant tree files)
  = has_subdirs tree || existsb (fun file => negb (at_root file)) files.
Proof.
  induction files as [|file files IH]; intros tree.
  - cbn [plant fold_left existsb]. rewrite orb_false_r. reflexivity.
  - rewrite plant_cons, IH. cbn [existsb]. unfold at_root at 2, add_to_tree.
    destruct (dirs_of file), tree; reflexivity.
Qed.

(** ** The stable descending sort *)

Section SortedFacts.

Context {A : Type}.
Variable key : A -> Z.

Lemma insert_desc_perm (x : A) (l : list A) :
  Permutation (x :: l) (insert_desc key x l).
Proof.
  induction l as [|y l IH]; cbn [insert_desc]; [reflexivity|].
  destruct (key y <=? key x); [reflexivity|].
  rewrite perm_swap. apply perm_skip, IH.
Qed.

Lemma sorted_desc_perm (l : list A) : Permutation l (sorted_desc key l).
Proof.
  induction l as [|x l IH]; cbn [sorted_desc]; [reflexivity|].
  rewrite <- insert_desc_perm. apply perm_skip, IH.
Qed.

Lemma insert_desc_sorted (x : A) (l : list A) :
  StronglySorted (fun a b => key b <= key a) l ->
  StronglySorted (fun a b => key b <= key a) (insert_desc key x l).
Proof.
  induction 1 as [|y l Hl IH Hy]; cbn [insert_desc].
  - repeat constructor.
  - destruct (Z.leb_spec (key y) (key x)) as [Hle|Hgt].
    + constructor; [constructor; assumption|].
      constructor; [exact Hle|].
      eapply Forall_impl; [|exact Hy]. cbn. intros z Hz. lia.
    + constructor; [exact IH|].
      eapply Permutation_Forall; [apply insert_desc_perm|].
      constructor; [lia | exact Hy].
Qed.

Lemma sorted_desc_sorted (l : list A) :
  StronglySorted (fun a b => key b <= key a) (sorted_desc key l).
Proof.
  induction l as [|x l IH]; cbn [sorted_desc]; [constructor|].
  apply insert_desc_sorted, IH.
Qed.

Lemma insert_desc_filter (v : Z) (x : A) (l : list A) :
  filter (fun z => key z =? v) (insert_desc key x l)
  = filter (fun z => key z =? v) (x :: l).
Proof.
  induction l as [|y l IH]; cbn [insert_desc]; [reflexivity|].
  destruct (Z.leb_spec (key y) (key x)) as [Hle|Hgt]; [reflexivity|].
  cbn [filter] in *. rewrite IH.
  destruct (Z.eqb_spec (key x) v), (Z.eqb_spec (key y) v); try reflexivity.
  lia.
Qed.

Lemma sorted_desc_filter (v : Z) (l : list A) :
  filter (fun z => key z =? v) (sorted_desc key l) = filter (fun z => key z =? v) l.
Proof.
  induction l as [|x l IH]; cbn [sorted_desc]; [reflexivity|].
  rewrite insert_desc_filter. cbn [filter]. rewrite IH. reflexivity.
Qed.

Lemma sorted_desc_stable (l : list A) : stable_descending key l (sorted_desc key l).
Proof.
  split; [apply sorted_desc_perm|].
  split; [apply sorted_desc_sorted | intros v; apply sorted_desc_filter].
Qed.

End SortedFacts.

Lemma sorted_desc_map {A B : Type} (key : A -> Z) (key' : B -> Z) (g : A -> B)
    (l : list A) :
  (forall x, key' (g x) = key x) ->
  sorted_desc key' (map g l) = map g (sorted_desc key l).
Proof.
  intros Hkey. induction l as [|x l IH]; [reflexivity|].
  cbn [map sorted_desc]. rewrite IH. generalize (sorted_desc key l). intros s.
  induction s as [|y s IHs]; [reflexivity|].
  cbn [map insert_desc]. rewrite !Hkey.
  destruct (key y <=? key x); [reflexivity|]. cbn [map]. rewrite IHs. reflexivity.
Qed.

(** ** The renderer *)

(** In the range where every integer is a binary64 number, the comparison
    of the rounded quotient with [0.01] decides whether the directory has
    more than one hundredth of the lines. *)
Lemma above_threshold_exact (lines total_lines : Z) :
  0 < total_lines < 2 ^ 53 ->
  above_threshold lines total_lines = Ok (total_lines <? 100 * lines).
Proof.
  intros [Hpos Hlt]. unfold above_threshold, one_percent_mantissa.
  destruct (Z.eqb_spec total_lines 0) as [|_]; [lia|].
  destruct (Z.ltb_spec total_lines 0) as [|_]; [lia|].
  rewrite Z.abs_eq by lia. f_equal.
  change (2 ^ 60) with 1152921504606846976.
  change (2 ^ 53) with 9007199254740992 in Hlt.
  destruct (Z.leb_spec ((2 * 5764607523034235 + 1) * total_lines)
                       (lines * 1152921504606846976)),
           (Z.ltb_spec total_lines (100 * lines)); try reflexivity; lia.
Qed.

Lemma above_threshold_nonzero (lines total_lines : Z) :
  total_lines <> 0 -> exists b, above_threshold lines total_lines = Ok b.
Proof.
  intros H. unfold above_threshold.
  destruct (Z.eqb_spec total_lines 0); [contradiction|]. eexists. reflexivity.
Qed.

Lemma print_node_unfold (data : dir_node) (prefix : string) (is_last : bool)
    (total_lines : Z) :
  print_node data prefix is_last total_lines =
  print_items
    (with_printers (sorted_desc (fun item => dir_lines (snd item)) (dir_subdirs data)))
    prefix is_last total_lines.
Proof.
  destruct data as [f l subdirs]. cbn [print_node dir_subdirs].
  unfold with_printers.
  rewrite <- (sorted_desc_map (fun item => dir_lines (snd item)) entry_lines)
    by reflexivity.
  do 2 f_equal. apply map_ext. intros [name child]. reflexivity.
Qed.

Lemma print_directory_tree_unfold (subdirs : dict dir_node) (prefix : string)
    (is_last : bool) (total_lines : Z) :
  print_directory_tree (Some subdirs) prefix is_last total_lines =
  print_items
    (with_printers (sorted_desc (fun item => dir_lines (snd item)) subdirs))
    prefix is_last total_lines.
Proof.
  unfold print_directory_tree.
  change (root_getitem (Some subdirs) "subdirs") with (SubdirsMap subdirs).
  cbv iota. unfold with_printers.
  rewrite (sorted_desc_map (fun item => dir_lines (snd item)) entry_lines)
    by reflexivity.
  reflexivity.
Qed.

Lemma print_items_shows (total_lines : Z) (is_last : bool) (items : dict dir_node) :
  0 < total_lines < 2 ^ 53 ->
  Forall (fun item =>
            forall prefix, exists out,
              print_node (snd item) prefix is_last total_lines = Ok out /\
              shows total_lines is_last prefix
                    (sorted_desc (fun i => dir_lines (snd i)) (dir_subdirs (snd item)))
                    out) items ->
  forall prefix, exists out,
    print_items (with_printers items) prefix is_last total_lines = Ok out /\
    shows total_lines is_last prefix items out.
Proof.
  intros Hrange. induction 1 as [|[dir_name data] items Hdata _ IH]; intros prefix.
  - exists []. split; [reflexivity | constructor].
  - destruct (IH prefix) as (others & Eothers & Sothers).
    destruct (Hdata (next_prefix_of prefix is_last)) as (below & Ebelow & Sbelow).
    cbn [snd] in Ebelow, Sbelow.
    change (with_printers ((dir_name, data) :: items))
      with ((dir_name, data, print_node data) :: with_printers items).
    cbn [print_items]. rewrite (above_threshold_exact _ _ Hrange). cbn [bind].
    destruct (Z.ltb_spec total_lines (100 * dir_lines data)) as [Habove|Hnot].
    + assert (E : match dir_subdirs data with
                  | [] => Ok []
                  | _ :: _ => print_node data (next_prefix_of prefix is_last)
                                         is_last total_lines
                  end = Ok below).
      { destruct (dir_subdirs data) eqn:Hsub; [|exact Ebelow].
        rewrite print_node_unfold, Hsub in Ebelow. exact Ebelow. }
      rewrite E. cbn [bind]. rewrite Eothers. cbn [bind].
      eexists. split; [reflexivity|].
      apply shows_printed; assumption.
    + cbn [bind]. rewrite Eothers. cbn [bind app].
      exists others. split; [reflexivity|].
      apply shows_pruned; assumption.
Qed.

Lemma print_node_shows (total_lines : Z) (is_last : bool) (data : dir_node) :
  0 < total_lines < 2 ^ 53 ->
  forall prefix, exists out,
    print_node data prefix is_last total_lines = Ok out /\
    shows total_lines is_last prefix
          (sorted_desc (fun i => dir_lines (snd i)) (dir_subdirs data)) out.
Proof.
  intros Hrange. induction data as [f l subdirs IH] using dir_node_children_ind.
  intros prefix. rewrite print_node_unfold. cbn [dir_subdirs].
  apply print_items_shows; [exact Hrange|].
  eapply Permutation_Forall; [apply sorted_desc_perm | exact IH].
Qed.

Lemma shows_functional (total_lines : Z) (is_last : bool) (prefix : string)
    (items : dict dir_node) (out : list out_line) :
  shows total_lines is_last prefix items out ->
  forall out', shows total_lines is_last prefix items out' -> out' = out.
Proof.
  induction 1 as [prefix|prefix dir_name data rest out Hle _ IH
                  |prefix dir_name data rest below out Hlt _ IHb _ IHo];
    intros out' H'; inversion H'; subst; try lia.
  - reflexivity.
  - apply IH. assumption.
  - f_equal. f_equal. f_equal; [apply IHb | apply IHo]; assumption.
Qed.

Lemma sorted_desc_nonempty {A : Type} (key : A -> Z) (x : A) (l : list A) :
  exists y l', sorted_desc key (x :: l) = y :: l'.
Proof.
  cbn [sorted_desc]. destruct (sorted_desc key l) as [|z s]; cbn [insert_desc].
  - eexists _, _. reflexivity.
  - destruct (key z <=? key x); eexists _, _; reflexivity.
Qed.

(** With a grand total of zero the first directory of any level stops the
    renderer. *)
Lemma print_zero_total (item : string * dir_node) (subdirs : dict dir_node)
    (prefix : string) (is_last : bool) :
  print_directory_tree (Some (item :: subdirs)) prefix is_last 0
  = Raise ZeroDivisionError.
Proof.
  rewrite print_directory_tree_unfold.
  destruct (sorted_desc_nonempty (fun i => dir_lines (snd i)) item subdirs)
    as ([name data] & rest & ->).
  reflexivity.
Qed.

(** When [main] raises, and what: all of it is in the renderer. *)

Lemma print_items_ok (total_lines : Z) (is_last : bool) (items : dict dir_node) :
  total_lines <> 0 ->
  Forall (fun item => forall prefix, exists out,
              print_node (snd item) prefix is_last total_lines = Ok out) items ->
  forall prefix, exists out,
    print_items (with_printers items) prefix is_last total_lines = Ok out.
Proof.
  intros Hnz. induction 1 as [|[dir_name data] items Hdata _ IH]; intros prefix.
  - exists []. reflexivity.
  - destruct (IH prefix) as (others & Eothers).
    destruct (Hdata (next_prefix_of prefix is_last)) as (below & Ebelow).
    cbn [snd] in Ebelow.
    destruct (above_threshold_nonzero (dir_lines data) total_lines Hnz) as (b & Eb).
    change (with_printers ((dir_name, data) :: items))
      with ((dir_name, data, print_node data) :: with_printers items).
    cbn [print_items]. rewrite Eb. cbn [bind].
    destruct b.
    + destruct (dir_subdirs data); [|rewrite Ebelow]; cbn [bind];
        rewrite Eothers; cbn [bind]; eexists; reflexivity.
    + cbn [bind]. rewrite Eothers. cbn [bind]. eexists. reflexivity.
Qed.

Lemma print_node_ok (total_lines : Z) (is_last : bool) (data : dir_node) :
  total_lines <> 0 ->
  forall prefix, exists out, print_node data prefix is_last total_lines = Ok out.
Proof.
  intros Hnz. induction data as [f l subdirs IH] using dir_node_children_ind.
  intros prefix. rewrite print_node_unfold. cbn [dir_subdirs].
  apply print_items_ok; [exact Hnz|].
  eapply Permutation_Forall; [apply sorted_desc_perm | exact IH].
Qed.

Lemma plant_subdirs_nonempty (files : list (string * dict Z)) :
  forall tree : root, tree <> Some [] -> plant tree files <> Some [].
Proof.
  induction files as [|file files IH]; intros tree H; [exact H|].
  rewrite plant_cons. apply IH. unfold add_to_tree.
  destruct (dirs_of file) as [|part rest]; [exact H|].
  cbn [walk]. destruct (or_default [] tree) as [|[k v] d]; cbn [dict_upd].
  - discriminate.
  - destruct (String.eqb k part); discriminate.
Qed.

(** [main] ends without an exception exactly when no file is tracked, or
    some tracked file lies in a directory and the grand total is not zero. *)
Lemma main_outcome (files : list (string * dict Z)) :
  one_record_per_path files ->
  match main files with
  | Ok _ =>
      files = [] \/
      (existsb (fun file => negb (at_root file)) files = true /\
       total_lines (collect files) <> 0)
  | Raise e =>
      files <> [] /\
      ((existsb (fun file => negb (at_root file)) files = false /\ e = TypeError) \/
       (existsb (fun file => negb (at_root file)) files = true /\
        total_lines (collect files) = 0 /\ e = ZeroDivisionError))
  end.
Proof.
  intros Hone. unfold main. destruct files as [|file files]; [left; reflexivity|].
  rewrite (build_directory_tree_plant _ Hone). cbn [bind].
  pose proof (has_subdirs_plant (file :: files) None) as Hsub.
  pose proof (plant_subdirs_nonempty (file :: files) None ltac:(discriminate)) as Hne.
  cbn [has_subdirs orb] in Hsub.
  destruct (plant None (file :: files)) as [subdirs|].
  - cbn [has_subdirs] in Hsub.
    destruct (Z.eq_dec (total_lines (collect (file :: files))) 0) as [Hz|Hnz].
    + destruct subdirs as [|item subdirs]; [congruence|].
      rewrite Hz, print_zero_total. cbn [bind].
      split; [discriminate|]. right. auto.
    + rewrite print_directory_tree_unfold.
      destruct (print_items_ok (total_lines (collect (file :: files))) true
                  (sorted_desc (fun i => dir_lines (snd i)) subdirs) Hnz)
        with (prefix := EmptyString) as (out & ->).
      * apply Forall_forall. intros item _ prefix. apply print_node_ok, Hnz.
      * cbn [bind]. right. auto.
  - cbn [has_subdirs] in Hsub.
    change (print_directory_tree None "" true (total_lines (collect (file :: files))))
      with (@Raise (list out_line) TypeError).
    cbn [bind]. split; [discriminate|]. left. auto.
Qed.

(** ** A file whose mapping is empty *)

Lemma author_tables_collect (files : list (string * dict Z)) :
  forall st : stats,
  (author_stats (collect_from st files), author_ext_stats (collect_from st files))
  = fold_left (fun acc file => fold_left (count_author (ext_of file)) (snd file) acc)
              files (author_stats st, author_ext_stats st).
Proof.
  induction files as [|[q r] files IH]; intros st; [reflexivity|].
  rewrite collect_from_cons, IH. cbn [fold_left collect_file author_stats
                                        author_ext_stats ext_of fst snd].
  change (ext_of (q, r)) with (Path.splitext_ext q).
  rewrite <- surjective_pairing. reflexivity.
Qed.

Lemma author_tables_skip (before after : list (string * dict Z)) (p : string) :
  author_stats (collect (before ++ (p, []) :: after))
  = author_stats (collect (before ++ after)) /\
  author_ext_stats (collect (before ++ (p, []) :: after))
  = author_ext_stats (collect (before ++ after)).
Proof.
  pose proof (author_tables_collect (before ++ (p, []) :: after) no_stats) as H1.
  pose proof (author_tables_collect (before ++ after) no_stats) as H2.
  rewrite fold_left_app in H1, H2. cbn [fold_left snd] in H1.
  fold (collect (before ++ (p, []) :: after)) in H1.
  fold (collect (before ++ after)) in H2.
  rewrite <- H2 in H1. inversion H1. split; reflexivity.
Qed.

Lemma main_printed (files : list (string * dict Z)) (r : report) :
  main files = Ok (Printed r) ->
  files_analyzed r = Z.of_nat (List.length files) /\
  shown_total_lines r = total_lines (collect files).
Proof.
  unfold main. destruct files as [|file files]; [discriminate|].
  destruct (build_directory_tree _ _) as [tree|]; [|discriminate]. cbn [bind].
  destruct (print_directory_tree _ _ _ _) as [rows|]; [|discriminate]. cbn [bind].
  intros H. inversion H. cbn [files_analyzed shown_total_lines].
  rewrite length_map. split; reflexivity.
Qed.

(** ** The order of the keys of the tables *)

Lemma keys_upd {V : Type} (k : string) (f : option V -> V) (d : dict V) :
  map fst (dict_upd k f d) = add_key k (map fst d).
Proof.
  unfold add_key. induction d as [|[k' v] d IH]; [reflexivity|].
  cbn [dict_upd map fst existsb]. rewrite (String.eqb_sym k k').
  destruct (String.eqb k' k); cbn [orb map fst]; [reflexivity|].
  rewrite IH. destruct (existsb (String.eqb k) (map fst d)); reflexivity.
Qed.

Lemma add_key_idem (k : string) (keys : list string) :
  add_key k (add_key k keys) = add_key k keys.
Proof.
  unfold add_key. destruct (existsb (String.eqb k) keys) eqn:E; [rewrite E; reflexivity|].
  rewrite existsb_app. cbn [existsb]. rewrite String.eqb_refl, orb_true_r.
  reflexivity.
Qed.

Lemma existsb_filter_other (k x : string) (l : list string) :
  String.eqb k x = false ->
  existsb (String.eqb k) (filter (fun k' => negb (String.eqb k' x)) l)
  = existsb (String.eqb k) l.
Proof.
  intros Hkx. induction l as [|y l IH]; [reflexivity|].
  cbn [filter existsb].
  destruct (String.eqb_spec y x) as [->|]; cbn [negb existsb];
    rewrite IH; [rewrite Hkx|]; reflexivity.
Qed.

Lemma add_key_first_seen (k : string) (l : list string) :
  add_key k (first_seen l) = first_seen (l ++ [k]).
Proof.
  induction l as [|x l IH]; [reflexivity|].
  cbn [app first_seen]. rewrite <- IH. unfold add_key. cbn [existsb].
  destruct (String.eqb_spec k x) as [->|Hne]; cbn [orb].
  - destruct (existsb (String.eqb x) (first_seen l)); [reflexivity|].
    rewrite filter_app. cbn [filter]. rewrite String.eqb_refl. cbn [negb].
    rewrite app_nil_r. reflexivity.
  - assert (Hkx : String.eqb k x = false) by (apply String.eqb_neq, Hne).
    rewrite (existsb_filter_other _ _ _ Hkx).
    destruct (existsb (String.eqb k) (first_seen l)); [reflexivity|].
    rewrite filter_app. cbn [filter app]. rewrite Hkx. reflexivity.
Qed.

Lemma add_keys_first_seen (seq : list string) : add_keys seq [] = first_seen seq.
Proof.
  unfold add_keys. induction seq as [|k seq IH] using rev_ind; [reflexivity|].
  rewrite fold_left_app. cbn [fold_left]. rewrite IH. apply add_key_first_seen.
Qed.

Lemma add_keys_app (seq1 seq2 keys : list string) :
  add_keys (seq1 ++ seq2) keys = add_keys seq2 (add_keys seq1 keys).
Proof. apply fold_left_app. Qed.

(** The keys that the items of one mapping add. *)
Lemma count_authors_keys (ext a : string) (items : dict Z) :
  forall acc : dict Z * dict (dict Z),
  let acc' := fold_left (count_author ext) items acc in
  map fst (fst acc') = add_keys (map fst items) (map fst (fst acc)) /\
  map fst (snd acc') = add_keys (map fst items) (map fst (snd acc)) /\
  map fst (or_default [] (dict_get a (snd acc')))
  = if existsb (named a) items
    then add_key ext (map fst (or_default [] (dict_get a (snd acc))))
    else map fst (or_default [] (dict_get a (snd acc))).
Proof.
  induction items as [|[author count] items IH]; intros acc; [repeat split|].
  cbn [fold_left]. specialize (IH (count_author ext acc (author, count))).
  cbv zeta in IH. destruct IH as (I1 & I1' & I2). cbv zeta. rewrite I1, I1', I2.
  destruct acc as [a_stats ae_stats].
  cbn [count_author fst snd map existsb]. unfold named at 2. cbn [fst].
  unfold dict_incr at 1. rewrite !keys_upd, dict_get_upd.
  split; [reflexivity|]. split; [reflexivity|].
  destruct (String.eqb_spec author a) as [->|]; cbn [or_default orb].
  - unfold dict_incr. rewrite keys_upd.
    destruct (existsb (named a) items); [apply add_key_idem | reflexivity].
  - reflexivity.
Qed.

Lemma collect_from_keys (a : string) (files : list (string * dict Z)) :
  forall st : stats,
  let st' := collect_from st files in
  map fst (extension_stats st')
  = add_keys (map ext_of files) (map fst (extension_stats st)) /\
  map fst (author_stats st')
  = add_keys (flat_map (fun file => map fst (snd file)) files)
             (map fst (author_stats st)) /\
  map fst (author_ext_stats st')
  = add_keys (flat_map (fun file => map fst (snd file)) files)
             (map fst (author_ext_stats st)) /\
  map fst (author_exts a st')
  = add_keys (map ext_of (filter (has_author a) files)) (map fst (author_exts a st)).
Proof.
  induction files as [|[q r] files IH]; intros st; [repeat split|].
  rewrite collect_from_cons. specialize (IH (collect_file st (q, r))).
  cbv zeta in IH. destruct IH as (I1 & I2 & I2' & I3). cbv zeta.
  rewrite I1, I2, I2', I3.
  destruct (count_authors_keys (Path.splitext_ext q) a r
              (author_stats st, author_ext_stats st)) as (J1 & J1' & J2).
  cbn [fst snd] in J1, J1', J2. unfold author_exts.
  cbn [collect_file extension_stats author_stats author_ext_stats
       map flat_map filter]. rewrite keys_upd, J1, J1', J2, !add_keys_app.
  change (has_author a (q, r)) with (existsb (named a) r).
  repeat split. destruct (existsb (named a) r); reflexivity.
Qed.

Lemma walk_keys (dirs : list string) (file_lines : Z) (subdirs : dict dir_node) :
  map fst (walk dirs file_lines subdirs) = add_keys (firstn 1 dirs) (map fst subdirs).
Proof. destruct dirs as [|part rest]; [reflexivity|]. cbn [walk]. apply keys_upd. Qed.

Lemma children_at_walk (path dirs : list string) (file_lines : Z)
    (subdirs : dict dir_node) :
  map fst (children_at path (walk dirs file_lines subdirs))
  = add_keys (next_segment path dirs) (map fst (children_at path subdirs)).
Proof.
  unfold next_segment. destruct path as [|name rest].
  - cbn [children_at leads_to List.length skipn]. apply walk_keys.
  - unfold children_at. rewrite node_at_walk. cbn [on_path].
    destruct (leads_to (name :: rest) dirs); [|reflexivity].
    cbv zeta. cbn [dir_subdirs]. rewrite walk_keys.
    destruct (node_at (name :: rest) subdirs); reflexivity.
Qed.

Lemma children_at_plant (path : list string) (files : list (string * dict Z)) :
  forall tree : root,
  map fst (children_at path (root_subdirs (plant tree files)))
  = add_keys (flat_map (fun file => next_segment path (dirs_of file)) files)
             (map fst (children_at path (root_subdirs tree))).
Proof.
  induction files as [|file files IH]; intros tree; [reflexivity|].
  rewrite plant_cons, IH, root_subdirs_add, children_at_walk.
  cbn [flat_map]. rewrite add_keys_app. reflexivity.
Qed.

Lemma first_seen_nodup (l : list string) : NoDup (first_seen l).
Proof.
  induction l as [|k l IH]; cbn [first_seen]; constructor.
  - intros Hin. apply filter_In in Hin. destruct Hin as [_ Hk].
    rewrite String.eqb_refl in Hk. discriminate.
  - apply NoDup_filter, IH.
Qed.

(** Every table has one entry per key. *)
Lemma tables_keys_distinct (files : list (string * dict Z)) :
  NoDup (map fst (extension_stats (collect files))) /\
  NoDup (map fst (author_stats (collect files))) /\
  NoDup (map fst (author_ext_stats (collect files))).
Proof.
  destruct (collect_from_keys EmptyString files no_stats) as (H1 & H2 & H3 & _).
  unfold collect. rewrite H1, H2, H3.
  change (map fst (extension_stats no_stats)) with (@nil string).
  change (map fst (author_stats no_stats)) with (@nil string).
  change (map fst (author_ext_stats no_stats)) with (@nil string).
  rewrite !add_keys_first_seen. repeat split; apply first_seen_nodup.
Qed.

(** ** The extension of a path *)

Lemma mem_append (c : ascii) (s1 s2 : string) :
  Str.mem c (String.append s1 s2) = Str.mem c s1 || Str.mem c s2.
Proof.
  induction s1 as [|a s1 IH]; [reflexivity|].
  cbn [String.append Str.mem]. rewrite IH. apply orb_assoc.
Qed.

Lemma length_append (s1 s2 : string) :
  String.length (String.append s1 s2) = (String.length s1 + String.length s2)%nat.
Proof. induction s1 as [|a s1 IH]; cbn; [reflexivity | rewrite IH; reflexivity]. Qed.

Lemma append_assoc (s1 s2 s3 : string) :
  String.append (String.append s1 s2) s3 = String.append s1 (String.append s2 s3).
Proof. induction s1 as [|a s1 IH]; cbn; [reflexivity | rewrite IH; reflexivity]. Qed.

(** The last occurrence of a character splits the string. *)
Lemma rfind_spec (c : ascii) (s : string) :
  (Path.rfind c s = -1 /\ Str.mem c s = false) \/
  (exists s1 s2, s = String.append s1 (String c s2) /\ Str.mem c s2 = false /\
                 Path.rfind c s = Z.of_nat (String.length s1)).
Proof.
  induction s as [|a s IH].
  - left. split; reflexivity.
  - cbn [Path.rfind Str.mem].
    destruct IH as [[Hr Hm]|(s1 & s2 & -> & Hm & Hr)].
    + rewrite Hr, Hm. cbn [Z.leb Z.compare].
      destruct (Ascii.eqb_spec a c) as [->|]; cbn [orb].
      * right. exists EmptyString, s. repeat split. exact Hm.
      * left. split; reflexivity.
    + right. exists (String a s1), s2. rewrite Hr.
      destruct (Z.leb_spec 0 (Z.of_nat (String.length s1))); [|lia].
      repeat split; [exact Hm|]. cbn [String.length]. lia.
Qed.

Lemma final_segment_whole (s : string) :
  Str.mem Path.SLASH s = false -> final_segment s = s.
Proof.
  destruct s as [|a s]; [reflexivity|]. cbn [Str.mem final_segment]. intros H.
  apply orb_false_iff in H. destruct H as [Ha Hs]. rewrite Hs, Ha. reflexivity.
Qed.

Lemma final_segment_after (s1 s2 : string) :
  Str.mem Path.SLASH s2 = false ->
  final_segment (String.append s1 (String Path.SLASH s2)) = s2.
Proof.
  intros H. induction s1 as [|a s1 IH]; cbn [String.append final_segment].
  - rewrite H, Ascii.eqb_refl. reflexivity.
  - rewrite mem_append. cbn [Str.mem]. rewrite Ascii.eqb_refl, orb_true_r. exact IH.
Qed.

Lemma from_last_dot_none (s : string) :
  Str.mem Path.DOT s = false -> from_last_dot s = EmptyString.
Proof.
  destruct s as [|a s]; [reflexivity|]. cbn [Str.mem from_last_dot]. intros H.
  apply orb_false_iff in H. destruct H as [Ha Hs]. rewrite Hs, Ha. reflexivity.
Qed.

Lemma from_last_dot_at (s1 s2 : string) :
  Str.mem Path.DOT s2 = false ->
  from_last_dot (String.append s1 (String Path.DOT s2)) = String Path.DOT s2.
Proof.
  intros H. induction s1 as [|a s1 IH]; cbn [String.append from_last_dot].
  - rewrite H, Ascii.eqb_refl. reflexivity.
  - rewrite mem_append. cbn [Str.mem]. rewrite Ascii.eqb_refl, orb_true_r. exact IH.
Qed.

Lemma before_last_dot_at (s1 s2 : string) :
  Str.mem Path.DOT s2 = false ->
  before_last_dot (String.append s1 (String Path.DOT s2)) = s1.
Proof.
  intros H. induction s1 as [|a s1 IH]; cbn [String.append before_last_dot].
  - rewrite H. reflexivity.
  - rewrite mem_append. cbn [Str.mem]. rewrite Ascii.eqb_refl, orb_true_r.
    rewrite IH. reflexivity.
Qed.

Lemma has_other_none (s : string) :
  Str.mem Path.DOT s = false -> Path.has_other Path.DOT (before_last_dot s) = false.
Proof.
  destruct s as [|a s]; [reflexivity|]. cbn [Str.mem before_last_dot]. intros H.
  apply orb_false_iff in H. destruct H as [_ Hs]. rewrite Hs. reflexivity.
Qed.

Lemma substring_middle (s1 s2 s3 : string) :
  String.substring (String.length s1) (String.length s2)
                   (String.append s1 (String.append s2 s3)) = s2.
Proof.
  induction s1 as [|a s1 IH]; cbn [String.length String.append].
  - revert s3. induction s2 as [|b s2 IH2]; intros s3.
    + destruct s3; reflexivity.
    + cbn [String.length String.append String.substring]. rewrite IH2. reflexivity.
  - cbn [String.substring]. exact IH.
Qed.

(** Two ways to cut one string: the shorter head is a head of the longer. *)
Lemma append_align (s1 t1 s2 t2 : string) :
  String.append s1 t1 = String.append s2 t2 ->
  (String.length s1 <= String.length s2)%nat ->
  exists m, s2 = String.append s1 m /\ t1 = String.append m t2.
Proof.
  revert s2. induction s1 as [|a s1 IH]; intros s2 E Hlen.
  - exists s2. split; [reflexivity | exact E].
  - destruct s2 as [|b s2]; [cbn in Hlen; lia|].
    cbn [String.append] in E. inversion E as [[Hab E']].
    cbn [String.length] in Hlen.
    destruct (IH s2 E' ltac:(lia)) as (m & -> & ->).
    exists m. split; reflexivity.
Qed.

Lemma final_segment_mem (c : ascii) (p : string) :
  Str.mem c p = false -> Str.mem c (final_segment p) = false.
Proof.
  intros H. destruct (rfind_spec Path.SLASH p) as [[_ Hm]|(s1 & s2 & -> & Hm & _)].
  - rewrite (final_segment_whole _ Hm). exact H.
  - rewrite (final_segment_after _ _ Hm). rewrite mem_append in H.
    cbn [Str.mem] in H. apply orb_false_iff in H. destruct H as [_ H].
    apply orb_false_iff in H. apply H.
Qed.

Lemma rfind_lower (c : ascii) (s : string) : -1 <= Path.rfind c s.
Proof.
  destruct (rfind_spec c s) as [[-> _]|(s1 & s2 & _ & _ & ->)]; lia.
Qed.

(** ** The parts of a relative path *)

Lemma split_append (sep : ascii) (s rest : string) :
  Str.mem sep s = false ->
  Str.split sep (String.append s (String sep rest)) = s :: Str.split sep rest.
Proof.
  induction s as [|c s IH]; cbn [Str.mem String.append Str.split]; intros H.
  - rewrite Ascii.eqb_refl. reflexivity.
  - apply orb_false_iff in H. destruct H as [Hc Hs]. rewrite Hc, (IH Hs). reflexivity.
Qed.

Lemma split_whole (sep : ascii) (s : string) :
  Str.mem sep s = false -> Str.split sep s = [s].
Proof.
  induction s as [|c s IH]; cbn [Str.mem Str.split]; intros H; [reflexivity|].
  apply orb_false_iff in H. destruct H as [Hc Hs]. rewrite Hc, (IH Hs). reflexivity.
Qed.

Lemma split_concat (seg : string) (segs : list string) :
  Forall (fun s => Str.mem Path.SLASH s = false) (seg :: segs) ->
  Str.split Path.SLASH (String.concat "/" (seg :: segs)) = seg :: segs.
Proof.
  revert seg. induction segs as [|next segs IH]; intros seg H.
  - inversion H; subst. cbn [String.concat]. apply split_whole. assumption.
  - inversion H as [|? ? Hseg Hrest]; subst.
    change (String.concat "/" (seg :: next :: segs))
      with (String.append seg (String Path.SLASH (String.concat "/" (next :: segs)))).
    rewrite (split_append _ _ _ Hseg), (IH next Hrest). reflexivity.
Qed.

Lemma parts_joined (seg : string) (segs : list string) :
  Forall (fun s => proper_segment s = true) (seg :: segs) ->
  Path.parts (String.concat "/" (seg :: segs)) = seg :: segs.
Proof.
  intros H.
  assert (Hslash : Forall (fun s => Str.mem Path.SLASH s = false) (seg :: segs)).
  { eapply Forall_impl; [|exact H]. cbn. intros s Hs. unfold proper_segment in Hs.
    apply andb_true_iff in Hs. destruct Hs as [_ Hs]. apply negb_true_iff, Hs. }
  assert (Hsegs : filter Path.is_segment (seg :: segs) = seg :: segs).
  { apply forallb_filter_id. apply forallb_forall. intros s Hs.
    rewrite Forall_forall in H. specialize (H s Hs). unfold proper_segment in H.
    apply andb_true_iff in H. apply H. }
  unfold Path.parts. rewrite (split_concat _ _ Hslash), Hsegs.
  assert (Hroot : Path.root_of (String.concat "/" (seg :: segs)) = EmptyString).
  { inversion H as [|? ? Hseg _]; subst. inversion Hslash as [|? ? Hs _]; subst.
    unfold proper_segment, Path.is_segment in Hseg.
    destruct seg as [|c seg]; [discriminate|].
    cbn [Str.mem] in Hs. apply orb_false_iff in Hs. destruct Hs as [Hc _].
    assert (Hp : exists rest, String.concat "/" (String c seg :: segs) = String c rest).
    { destruct segs; cbn [String.concat String.append]; eexists; reflexivity. }
    destruct Hp as (rest & ->). unfold Path.root_of, Str.startswith.
    change "//"%string with (String Path.SLASH (String Path.SLASH EmptyString)).
    change "/"%string with (String Path.SLASH EmptyString).
    rewrite !prefix_cons. rewrite (Ascii.eqb_sym Path.SLASH c), Hc. reflexivity. }
  rewrite Hroot. reflexivity.
Qed.

Lemma dir_parts_joined (dirs : list string) (name : string) :
  Forall (fun seg => proper_segment seg = true) (dirs ++ [name]) ->
  Path.dir_parts (String.concat "/" (dirs ++ [name])) = dirs.
Proof.
  intros H. unfold Path.dir_parts.
  destruct (dirs ++ [name]) as [|seg segs] eqn:E; [destruct dirs; discriminate|].
  rewrite (parts_joined _ _ H), <- E. apply removelast_last.
Qed.

(** ** The lookups of build_directory_tree *)

Lemma build_from_lookup (bd : dict (dict Z)) (tracked : list string) :
  forall tree : root,
  build_from tree tracked bd =
  if forallb (fun p => in_dict p bd) tracked
  then Ok (plant tree (map (from_blame_data bd) tracked))
  else Raise KeyError.
Proof.
  induction tracked as [|p tracked IH]; intros tree; [reflexivity|].
  cbn [build_from forallb map]. unfold in_dict at 1.
  destruct (dict_get p bd) as [r|] eqn:E; cbn [andb]; [|reflexivity].
  rewrite IH, plant_cons. unfold from_blame_data at 2 3. rewrite E. reflexivity.
Qed.

Lemma last_record_present (p : string) (files : list (string * dict Z))
    (o : option (dict Z)) :
  In p (map fst files) -> last_record p files o <> None.
Proof.
  induction files as [|[q r] files IH] using rev_ind; intros Hin; [destruct Hin|].
  rewrite last_record_snoc. cbn [fst snd].
  destruct (String.eqb_spec q p) as [->|Hne]; [discriminate|].
  apply IH. rewrite map_app in Hin. apply in_app_or in Hin.
  destruct Hin as [Hin|[E|[]]]; [exact Hin | contradiction].
Qed.

Lemma blame_data_has_tracked (files : list (string * dict Z)) :
  forallb (fun p => in_dict p (blame_data (collect files))) (map fst files) = true.
Proof.
  apply forallb_forall. intros p Hin. unfold in_dict, collect.
  rewrite blame_data_collect.
  pose proof (last_record_present p files (dict_get p (blame_data no_stats)) Hin) as H.
  destruct (last_record p files (dict_get p (blame_data no_stats)));
    [reflexivity | contradiction].
Qed.

Lemma dirs_of_from_blame_data (bd : dict (dict Z)) (files : list (string * dict Z)) :
  map dirs_of (map (from_blame_data bd) (map fst files)) = map dirs_of files.
Proof. rewrite !map_map. apply map_ext. intros [p r]. reflexivity. Qed.

Lemma build_in_main (files : list (string * dict Z)) :
  build_directory_tree (map fst files) (blame_data (collect files))
  = Ok (plant None (map (from_blame_data (blame_data (collect files))) (map fst files))).
Proof.
  unfold build_directory_tree. rewrite build_from_lookup, blame_data_has_tracked.
  reflexivity.
Qed.

(** ** The report of main *)

Lemma main_report (files : list (string * dict Z)) (r : report) :
  main files = Ok (Printed r) ->
  exists rows,
    r = mkReport
          (total_lines (collect files))
          (Z.of_nat (List.length files))
          (extension_listing (collect files))
          (map (fun x => (fst x, snd x,
                          format_percentage (snd x) (total_lines (collect files))))
               (author_listing (collect files)))
          (map (fun x => (fst x, map (contributor_line (collect files) (snd x))
                                     (author_extensions (collect files) (fst x))))
               (author_listing (collect files)))
          rows.
Proof.
  unfold main. destruct files as [|file files]; [discriminate|].
  destruct (build_directory_tree _ _) as [tree|]; [|discriminate]. cbn [bind].
  destruct (print_directory_tree _ _ _ _) as [rows|]; [|discriminate]. cbn [bind].
  intros H. inversion H. exists rows. rewrite length_map. reflexivity.
Qed.

(** ** The walk of the renderer *)

Lemma print_items_renders (total_lines : Z) (is_last : bool) (items : dict dir_node) :
  Forall (fun item => forall prefix out,
            print_node (snd item) prefix is_last total_lines = Ok out ->
            renders total_lines is_last prefix
                    (sorted_desc (fun i => dir_lines (snd i)) (dir_subdirs (snd item)))
                    out) items ->
  forall prefix out,
    print_items (with_printers items) prefix is_last total_lines = Ok out ->
    renders total_lines is_last prefix items out.
Proof.
  induction 1 as [|[dir_name data] items Hdata _ IH]; intros prefix out.
  - cbn. intros H. inversion H. constructor.
  - change (with_printers ((dir_name, data) :: items))
      with ((dir_name, data, print_node data) :: with_printers items).
    cbn [print_items].
    destruct (above_threshold (dir_lines data) total_lines) as [above|] eqn:Ea;
      [|discriminate].
    cbn [bind]. specialize (IH prefix). cbn [snd] in Hdata.
    specialize (Hdata (next_prefix_of prefix is_last)).
    destruct above.
    + destruct (match dir_subdirs data with
                | [] => Ok []
                | _ :: _ => print_node data (next_prefix_of prefix is_last)
                                       is_last total_lines
                end) as [below|] eqn:Eb; [|discriminate]. cbn [bind].
      destruct (print_items (with_printers items) prefix is_last total_lines)
        as [others|]; [|discriminate]. cbn [bind].
      intros H. inversion H.
      apply (renders_printed total_lines is_last prefix dir_name data items
               (sorted_desc (fun i => dir_lines (snd i)) (dir_subdirs data))
               below others Ea).
      * apply sorted_desc_stable.
      * destruct (dir_subdirs data) eqn:Hsub; [|apply Hdata, Eb].
        inversion Eb. constructor.
      * apply IH. reflexivity.
    + cbn [bind].
      destruct (print_items (with_printers items) prefix is_last total_lines)
        as [others|]; [|discriminate]. cbn [bind app].
      intros H. inversion H. subst. apply renders_passed; [exact Ea|].
      apply IH. reflexivity.
Qed.

Lemma print_node_renders (total_lines : Z) (is_last : bool) (data : dir_node) :
  forall prefix out,
    print_node data prefix is_last total_lines = Ok out ->
    renders total_lines is_last prefix
            (sorted_desc (fun i => dir_lines (snd i)) (dir_subdirs data)) out.
Proof.
  induction data as [f l subdirs IH] using dir_node_children_ind.
  intros prefix out. rewrite print_node_unfold. cbn [dir_subdirs].
  apply print_items_renders.
  eapply Permutation_Forall; [apply sorted_desc_perm | exact IH].
Qed.

Lemma print_tree_renders (tree : root) (prefix : string) (is_last : bool)
    (total_lines : Z) (rows : list out_line) :
  print_directory_tree tree prefix is_last total_lines = Ok rows ->
  renders total_lines is_last prefix
          (sorted_desc (fun i => dir_lines (snd i)) (root_subdirs tree)) rows.
Proof.
  destruct tree as [subdirs|]; [|discriminate].
  rewrite print_directory_tree_unfold. cbn [root_subdirs or_default].
  apply print_items_renders.
  apply Forall_forall. intros item _. apply print_node_renders.
Qed.

(** What [main] has in hand when it prints. *)
Lemma main_parts (files : list (string * dict Z)) (r : report) :
  main files = Ok (Printed r) ->
  exists rows,
    print_directory_tree
      (plant None (map (from_blame_data (blame_data (collect files))) (map fst files)))
      EmptyString true (total_lines (collect files)) = Ok rows /\
    directory_rows r = rows.
Proof.
  intros Hmain. pose proof (build_in_main files) as Hbuild.
  unfold main in Hmain. destruct files as [|file files]; [discriminate|].
  rewrite Hbuild in Hmain. cbn [bind] in Hmain.
  destruct (print_directory_tree _ _ _ _) as [rows|] eqn:Ep; [|discriminate].
  cbn [bind] in Hmain. inversion Hmain. exists rows. split; reflexivity.
Qed.

Lemma children_keys_built (files : list (string * dict Z)) (path : list string) :
  map fst (children_at path
             (root_subdirs
                (plant None (map (from_blame_data (blame_data (collect files)))
                                 (map fst files)))))
  = first_seen (flat_map (fun file => next_segment path (dirs_of file)) files).
Proof.
  rewrite children_at_plant.
  replace (map fst (children_at path (root_subdirs None))) with (@nil string)
    by (destruct path; reflexivity).
  rewrite add_keys_first_seen. f_equal.
  generalize (blame_data (collect files)). intros bd.
  induction files as [|[p r] files IH]; [reflexivity|].
  cbn [map flat_map fst]. rewrite IH. reflexivity.
Qed.

(* ================================================================== *)
(** * Part III: the claims *)
(* ================================================================== *)

(** C1, as the code has it.  For files each with one mapping: the line counts
    of the extensions, the line counts of the authors, and the line counts
    of the first-level directories together with the lines of the files at
    the root, all sum to [total_lines]; the counts of an author over the
    extensions sum to the author's total; the counts of an extension over
    the authors sum to the extension's lines; and every table has one entry
    per key.  (The root stores no count of its own.) *)
Theorem tables_consistent (files : list (string * dict Z)) :
  one_record_per_path files ->
  let st := collect files in
  dict_sum ext_lines (extension_stats st) = total_lines st /\
  sum_values (author_stats st) = total_lines st /\
  (exists tree : root,
      build_directory_tree (map fst files) (blame_data st) = Ok tree /\
      dict_sum dir_lines (root_subdirs tree) + lines_where at_root files
      = total_lines st) /\
  (forall a, sum_values (author_exts a st) = count_of a (author_stats st)) /\
  (forall e, dict_sum (count_of e) (author_ext_stats st) = ext_lines (ext_entry e st)) /\
  NoDup (map fst (extension_stats st)) /\
  NoDup (map fst (author_stats st)) /\
  NoDup (map fst (author_ext_stats st)).
Proof.
  intros Hnd st. destruct (collect_consistent files) as (H1 & H2 & H3 & H4).
  destruct (tables_keys_distinct files) as (K1 & K2 & K3).
  repeat split; try assumption.
  exists (plant None files). split; [apply build_directory_tree_plant, Hnd|].
  rewrite top_level_plant. unfold st, collect. rewrite collect_from_total.
  reflexivity.
Qed.

Lemma tables_consistent_witness :
  let st := collect demo_files in
  dict_sum ext_lines (extension_stats st) = total_lines st /\
  sum_values (author_stats st) = total_lines st /\
  (exists tree : root,
      build_directory_tree (map fst demo_files) (blame_data st) = Ok tree /\
      dict_sum dir_lines (root_subdirs tree) + lines_where at_root demo_files
      = total_lines st) /\
  (forall a, sum_values (author_exts a st) = count_of a (author_stats st)) /\
  (forall e, dict_sum (count_of e) (author_ext_stats st) = ext_lines (ext_entry e st)) /\
  NoDup (map fst (extension_stats st)) /\
  NoDup (map fst (author_stats st)) /\
  NoDup (map fst (author_ext_stats st)).
Proof.
  apply (tables_consistent demo_files).
  apply distinct_paths_one_record.
  repeat constructor; simpl; intuition discriminate.
Defined.

(** C1, as the claim has it, fails: the root of the tree holds no line
    count; what it yields under ['lines'] is the dictionary of the factory,
    never [total_lines]. *)
Lemma root_line_count_counterexample :
  exists tree : root,
    build_directory_tree (map fst demo_files) (blame_data (collect demo_files)) = Ok tree /\
    total_lines (collect demo_files) = 15 /\
    root_keys tree = ["subdirs"%string] /\
    root_getitem tree "lines" = FactoryDict new_dir /\
    dict_sum dir_lines (root_subdirs tree) = 5.
Proof.
  eexists. split; [vm_compute; reflexivity|].
  split; [reflexivity|]. split; [reflexivity|]. split; reflexivity.
Qed.

(** C2.  A file whose path joins the directories [dirs] and a file name
    counts once, with its lines, in the directory of every prefix of
    [dirs] that is not empty, and in no other: not under its own name, and
    nowhere when [dirs] is empty.  One more file counts in every directory
    on its way and in no other; a file without a directory segment leaves
    the tree as it is; and in the tree built for files each with one
    mapping every directory counts the files beneath it, so that its lines
    are those of its children and of the files directly in it; at the
    root, whose grand total is [total_lines], they are those of the
    first-level directories and of the files at the root. *)
Theorem tree_counts_every_level (files : list (string * dict Z)) :
  one_record_per_path files ->
  (forall (dirs : list string) (name : string) (blame_info : dict Z),
      Forall (fun seg => proper_segment seg = true) (dirs ++ [name]) ->
      let file_path := String.concat "/" (dirs ++ [name]) in
      Path.dir_parts file_path = dirs /\
      (forall path,
          beneath path (file_path, blame_info) = on_path path dirs /\
          directly_in path (file_path, blame_info) = same_path path dirs) /\
      exists tree : root,
        build_directory_tree [file_path] [(file_path, blame_info)] = Ok tree /\
        forall path,
          counts_at path (root_subdirs tree)
          = if on_path path dirs then (1, sum_values blame_info) else (0, 0)) /\
  (forall (tree : root) (dirs : list string) (file_lines : Z) (path : list string),
      counts_at path (root_subdirs (add_to_tree tree dirs file_lines)) =
      if on_path path dirs
      then (fst (counts_at path (root_subdirs tree)) + 1,
            snd (counts_at path (root_subdirs tree)) + file_lines)
      else counts_at path (root_subdirs tree)) /\
  (forall (tree : root) (file_lines : Z), add_to_tree tree [] file_lines = tree) /\
  exists tree : root,
    build_directory_tree (map fst files) (blame_data (collect files)) = Ok tree /\
    (forall path,
        counts_at path (root_subdirs tree)
        = (files_where (beneath path) files, lines_where (beneath path) files)) /\
    (forall path n,
        node_at path (root_subdirs tree) = Some n ->
        dir_lines n = dict_sum dir_lines (dir_subdirs n)
                      + lines_where (directly_in path) files /\
        dir_files n = dict_sum dir_files (dir_subdirs n)
                      + files_where (directly_in path) files) /\
    total_lines (collect files)
    = dict_sum dir_lines (root_subdirs tree) + lines_where (directly_in []) files.
Proof.
  intros Hnd. split; [|split; [|split]].
  - intros dirs name blame_info Hproper file_path.
    pose proof (dir_parts_joined dirs name Hproper) as Hdirs.
    fold file_path in Hdirs.
    split; [exact Hdirs|]. split.
    + intros path. unfold beneath, directly_in, dirs_of. cbn [fst].
      rewrite Hdirs. split; reflexivity.
    + exists (add_to_tree None dirs (sum_values blame_info)). split.
      * unfold build_directory_tree. cbn [build_from dict_get].
        rewrite String.eqb_refl, Hdirs. reflexivity.
      * intros path. rewrite root_subdirs_add, counts_at_walk.
        unfold counts_at. cbn [root_subdirs or_default]. rewrite node_at_nil.
        cbn [fst snd]. destruct (on_path path dirs); reflexivity.
  - intros tree dirs L path. rewrite root_subdirs_add. apply counts_at_walk.
  - reflexivity.
  - exists (plant None files). split; [apply build_directory_tree_plant, Hnd|].
    split; [|split].
    + intros path. rewrite counts_at_plant.
      unfold counts_at. cbn [root_subdirs or_default]. rewrite node_at_nil.
      reflexivity.
    + apply rollup_plant.
    + unfold collect. rewrite collect_from_total.
      pose proof (top_level_plant files None) as H.
      change (dict_sum dir_lines (root_subdirs None)) with 0 in H.
      unfold lines_where in *.
      change (total_lines no_stats) with 0.
      rewrite (total_where_ext (directly_in []) at_root); [lia|].
      intros file. unfold directly_in, at_root. destruct (dirs_of file); reflexivity.
Qed.

Lemma tree_counts_every_level_witness :
  Path.dir_parts "src/util/io.py" = ["src"; "util"]%string /\
  exists tree : root,
    build_directory_tree (map fst demo_files) (blame_data (collect demo_files)) = Ok tree /\
    counts_at ["sub"%string] (root_subdirs tree) = (1, 5) /\
    counts_at ["sub"; "b.py"]%string (root_subdirs tree) = (0, 0) /\
    counts_at ["a.py"%string] (root_subdirs tree) = (0, 0) /\
    forall path n,
      node_at path (root_subdirs tree) = Some n ->
      dir_lines n = dict_sum dir_lines (dir_subdirs n)
                    + lines_where (directly_in path) demo_files.
Proof.
  assert (Hone : one_record_per_path demo_files).
  { apply distinct_paths_one_record.
    repeat constructor; simpl; intuition discriminate. }
  destruct (tree_counts_every_level demo_files Hone)
    as (Hfile & _ & _ & tree & Hb & Hc & Hr & _).
  split.
  - apply (Hfile ["src"; "util"]%string "io.py"%string []). repeat constructor.
  - exists tree. split; [exact Hb|]. rewrite !Hc.
    split; [reflexivity|]. split; [reflexivity|]. split; [reflexivity|].
    intros path n Hn. apply (Hr path n Hn).
Defined.

(** C3.  For a grand total within the range where integers are binary64
    numbers, the renderer raises nothing and prints what [shows] describes
    and nothing else: at every depth the children come by descending line
    count, a child is printed, and entered, exactly when one hundred times
    its lines exceed the grand total (one hundredth exactly is left out,
    101 of 10000 is printed), and the grand total reaches every depth
    unchanged. *)
Theorem tree_rendering (total_lines : Z) (is_last : bool) :
  0 < total_lines < 2 ^ 53 ->
  (forall lines, above_threshold lines total_lines = Ok (total_lines <? 100 * lines)) /\
  (forall subdirs prefix, exists out,
      print_directory_tree (Some subdirs) prefix is_last total_lines = Ok out /\
      shows total_lines is_last prefix
            (sorted_desc (fun i => dir_lines (snd i)) subdirs) out /\
      forall out',
        shows total_lines is_last prefix
              (sorted_desc (fun i => dir_lines (snd i)) subdirs) out' -> out' = out) /\
  (forall data prefix, exists out,
      print_node data prefix is_last total_lines = Ok out /\
      shows total_lines is_last prefix
            (sorted_desc (fun i => dir_lines (snd i)) (dir_subdirs data)) out) /\
  (forall subdirs : dict dir_node,
      stable_descending (fun i => dir_lines (snd i)) subdirs
                        (sorted_desc (fun i => dir_lines (snd i)) subdirs)) /\
  above_threshold 1 100 = Ok false /\
  above_threshold 101 10000 = Ok true.
Proof.
  intros Hrange. split; [|split; [|split; [|split; [|split]]]].
  - intros lines. apply above_threshold_exact, Hrange.
  - intros subdirs prefix. rewrite print_directory_tree_unfold.
    destruct (print_items_shows total_lines is_last
                (sorted_desc (fun i => dir_lines (snd i)) subdirs) Hrange)
      with (prefix := prefix) as (out & E & S).
    + apply Forall_forall. intros item _ pre. apply print_node_shows, Hrange.
    + exists out. split; [exact E|]. split; [exact S|].
      apply shows_functional, S.
  - intros data prefix. apply print_node_shows, Hrange.
  - intros subdirs. apply sorted_desc_stable.
  - reflexivity.
  - reflexivity.
Qed.

Lemma tree_rendering_witness :
  exists out,
    print_directory_tree
      (Some [("small"%string, mkDir 1 1 []);
             ("big"%string, mkDir 3 99 [("in"%string, mkDir 1 2 [])])])
      EmptyString true 100 = Ok out /\
    shows 100 true EmptyString
          (sorted_desc (fun i => dir_lines (snd i))
             [("small"%string, mkDir 1 1 []);
              ("big"%string, mkDir 3 99 [("in"%string, mkDir 1 2 [])])]) out.
Proof.
  assert (Hrange : 0 < 100 < 2 ^ 53) by (split; reflexivity).
  destruct (tree_rendering 100 true Hrange) as (_ & Hroot & _).
  destruct (Hroot [("small"%string, mkDir 1 1 []);
                   ("big"%string, mkDir 3 99 [("in"%string, mkDir 1 2 [])])]
                  EmptyString) as (out & E & S & _).
  exists out. split; [exact E | exact S].
Defined.

(** C4, as the code has it.  A tracked file whose mapping is empty adds no
    line anywhere and leaves the two author tables as they are without it,
    but it is a file of its extension and of every directory on its way:
    their file counts are one more, and the entries are made if need be.
    A report that is printed gives the lines of the other files and counts
    the file among the files analysed. *)
Theorem empty_mapping_counts_file (before after : list (string * dict Z)) (p : string) :
  one_record_per_path (before ++ (p, []) :: after) ->
  let files := before ++ (p, []) :: after in
  let others := before ++ after in
  (forall git, subprocess_run git = Raise CalledProcessError ->
               get_git_blame_info git = Ok []) /\
  total_lines (collect files) = total_lines (collect others) /\
  author_stats (collect files) = author_stats (collect others) /\
  author_ext_stats (collect files) = author_ext_stats (collect others) /\
  (forall e,
      ext_lines (ext_entry e (collect files)) = ext_lines (ext_entry e (collect others)) /\
      ext_files (ext_entry e (collect files))
      = ext_files (ext_entry e (collect others))
        + (if String.eqb (Path.splitext_ext p) e then 1 else 0)) /\
  in_dict (Path.splitext_ext p) (extension_stats (collect files)) = true /\
  (exists tree tree0 : root,
      build_directory_tree (map fst files) (blame_data (collect files)) = Ok tree /\
      build_directory_tree (map fst others) (blame_data (collect others)) = Ok tree0 /\
      forall path,
        counts_at path (root_subdirs tree)
        = (fst (counts_at path (root_subdirs tree0))
           + (if on_path path (Path.dir_parts p) then 1 else 0),
           snd (counts_at path (root_subdirs tree0))) /\
        (on_path path (Path.dir_parts p) = true ->
         has_dir path (root_subdirs tree) = true)) /\
  (forall r, main files = Ok (Printed r) ->
             files_analyzed r = Z.of_nat (List.length others) + 1 /\
             shown_total_lines r = total_lines (collect others)).
Proof.
  intros Hnd files others.
  assert (Hnd0 : one_record_per_path others)
    by (apply (one_record_without _ _ _ Hnd)).
  assert (Htotal : total_lines (collect files) = total_lines (collect others)).
  { unfold collect. rewrite !collect_from_total. unfold files, others, lines_where.
    rewrite !total_where_app, total_where_cons. cbn. lia. }
  destruct (author_tables_skip before after p) as [Ha Hae].
  split; [apply get_git_blame_info_failed|]. split; [exact Htotal|].
  split; [exact Ha|]. split; [exact Hae|].
  split; [|split; [|split]].
  - intros e.
    destruct (collect_from_where e e files no_stats) as (I1 & I2 & _).
    destruct (collect_from_where e e others no_stats) as (J1 & J2 & _).
    unfold collect. rewrite I1, I2, J1, J2.
    unfold files, others, files_where, lines_where.
    rewrite !total_where_app, !total_where_cons.
    change (has_ext e (p, [])) with (String.eqb (Path.splitext_ext p) e).
    change (file_lines (p, [])) with 0.
    destruct (String.eqb (Path.splitext_ext p) e); split; lia.
  - destruct (collect_from_where p (Path.splitext_ext p) files no_stats)
      as (_ & _ & I3 & _).
    unfold collect. rewrite I3. unfold files. rewrite existsb_app. cbn [existsb].
    change (has_ext (Path.splitext_ext p) (p, []))
      with (String.eqb (Path.splitext_ext p) (Path.splitext_ext p)).
    rewrite String.eqb_refl, !orb_true_r. reflexivity.
  - exists (plant None files), (plant None others).
    split; [apply build_directory_tree_plant, Hnd|].
    split; [apply build_directory_tree_plant, Hnd0|].
    intros path. rewrite !counts_at_plant, has_dir_plant.
    unfold files, others, files_where, lines_where.
    rewrite !total_where_app, !total_where_cons, existsb_app. cbn [existsb].
    change (beneath path (p, [])) with (on_path path (Path.dir_parts p)).
    change (file_lines (p, [])) with 0.
    split.
    + destruct (on_path path (Path.dir_parts p)); cbn [fst snd]; f_equal; lia.
    + intros ->. rewrite !orb_true_r. reflexivity.
  - intros r Hr. destruct (main_printed files r Hr) as [Hf Ht].
    rewrite Hf, Ht, Htotal. split; [|reflexivity].
    unfold files, others. rewrite !length_app. cbn [List.length]. lia.
Qed.

Lemma empty_mapping_counts_file_witness :
  ext_files (ext_entry ".py" (collect (demo_files ++ [("lib/c.py"%string, [])])))
  = ext_files (ext_entry ".py" (collect demo_files)) + 1 /\
  total_lines (collect (demo_files ++ [("lib/c.py"%string, [])]))
  = total_lines (collect demo_files).
Proof.
  assert (Hnd : one_record_per_path (demo_files ++ ("lib/c.py"%string, []) :: [])).
  { apply distinct_paths_one_record.
    repeat constructor; simpl; intuition discriminate. }
  pose proof (empty_mapping_counts_file demo_files [] "lib/c.py" Hnd) as H.
  cbv zeta in H. rewrite app_nil_r in H.
  destruct H as (_ & Ht & _ & _ & He & _).
  split; [apply (He ".py"%string) | exact Ht].
Defined.

(** C4, as the claim has it, fails: the file is counted among the files of
    its extension and of its directories. *)
Lemma empty_mapping_counterexample :
  ext_entry ".py" (collect [("a.py"%string, [("Alice"%string, 10)]);
                            ("lib/c.py"%string, [])]) = mkExt 2 10 /\
  ext_entry ".py" (collect [("a.py"%string, [("Alice"%string, 10)])]) = mkExt 1 10 /\
  build_directory_tree ["a.py"; "lib/c.py"]%string
    (blame_data (collect [("a.py"%string, [("Alice"%string, 10)]);
                          ("lib/c.py"%string, [])]))
  = Ok (Some [("lib"%string, mkDir 1 0 [])]) /\
  build_directory_tree ["a.py"%string]
    (blame_data (collect [("a.py"%string, [("Alice"%string, 10)])]))
  = Ok None /\
  ~ (forall (before after : list (string * dict Z)) (p e : string),
        ext_files (ext_entry e (collect (before ++ (p, []) :: after)))
        = ext_files (ext_entry e (collect (before ++ after)))).
Proof.
  repeat split; try (vm_compute; reflexivity).
  intros H. specialize (H [] [] "c.py"%string ".py"%string).
  vm_compute in H. discriminate.
Qed.

(** C5 fails on the code.  A tracked file in a directory whose mapping is
    empty (an empty file, or a file for which [git blame] failed) makes the
    grand total zero, and the renderer divides by it; tracked files that
    are all at the root of the repository leave the root of the tree
    without ['subdirs'], and the renderer subscripts an integer.  The guard
    against a zero whole is in [format_percentage] only, and no tracked
    file at all never reaches the renderer. *)
Theorem renderer_raises :
  run [("pkg/__init__.py"%string, Exited 0 "" "")] = Raise ZeroDivisionError /\
  run [("sub/b.py"%string, Exited 128 "" "fatal: no such path")]
  = Raise ZeroDivisionError /\
  main [("sub/b.py"%string, [])] = Raise ZeroDivisionError /\
  main [("a.py"%string, [("Alice"%string, 10)])] = Raise TypeError /\
  (forall item subdirs prefix is_last,
      print_directory_tree (Some (item :: subdirs)) prefix is_last 0
      = Raise ZeroDivisionError) /\
  (forall prefix is_last total_lines,
      print_directory_tree None prefix is_last total_lines = Raise TypeError) /\
  (forall part, format_percentage part 0 = ZeroPercent) /\
  main [] = Ok NoTrackedFiles.
Proof.
  repeat split; try (vm_compute; reflexivity).
  intros. apply print_zero_total.
Qed.

(** C6, as the code has it.  The extension is what goes from the last dot
    of the final segment to the end of the path when some character other
    than a dot comes before that dot in the segment; in any other case (no
    dot in the final segment, or dots only before the last one, as in
    [.gitignore]) it is the empty string. *)
Theorem splitext_extension (p : string) :
  Path.splitext_ext p =
  if Path.has_other Path.DOT (before_last_dot (final_segment p))
  then from_last_dot (final_segment p)
  else EmptyString.
Proof.
  unfold Path.splitext_ext.
  destruct (rfind_spec Path.DOT p) as [[Hd Hm]|(a & b & Ep & Hb & Hd)].
  - rewrite Hd. pose proof (rfind_lower Path.SLASH p) as Hlow.
    destruct (Z.ltb_spec (Path.rfind Path.SLASH p) (-1)) as [|_]; [lia|].
    rewrite (has_other_none _ (final_segment_mem _ _ Hm)). reflexivity.
  - destruct (rfind_spec Path.SLASH p) as [[Hs Hms]|(a' & seg & Ep' & Hseg & Hs)].
    + rewrite Hs, Hd.
      destruct (Z.ltb_spec (-1) (Z.of_nat (String.length a))) as [_|]; [|lia].
      replace (Z.to_nat (-1 + 1)) with (String.length EmptyString) by reflexivity.
      replace (Z.to_nat (Z.of_nat (String.length a) - (-1 + 1)))
        with (String.length a) by lia.
      rewrite Nat2Z.id, (final_segment_whole _ Hms). subst p.
      change (String.append a (String Path.DOT b))
        with (String.append EmptyString (String.append a (String Path.DOT b))) at 1.
      rewrite (substring_middle EmptyString a), drop_append.
      rewrite (before_last_dot_at _ _ Hb), (from_last_dot_at _ _ Hb). reflexivity.
    + rewrite Hs, Hd.
      assert (Hfinal : final_segment p = seg)
        by (rewrite Ep'; apply final_segment_after, Hseg).
      rewrite Hfinal.
      destruct (Nat.lt_trichotomy (String.length a') (String.length a))
        as [Hlt|[Heq|Hgt]].
      * destruct (append_align a' (String Path.SLASH seg) a (String Path.DOT b))
          as (m & Ea & Em); [congruence | lia |].
        destruct m as [|c m'].
        { cbn [String.append] in Em. inversion Em. }
        cbn [String.append] in Em. inversion Em as [[Hc Eseg]]. subst c a.
        rewrite length_append. cbn [String.length].
        destruct (Z.ltb_spec (Z.of_nat (String.length a'))
                             (Z.of_nat (String.length a' + S (String.length m'))))
          as [_|]; [|lia].
        replace (Z.to_nat (Z.of_nat (String.length a') + 1))
          with (String.length (String.append a' (String Path.SLASH EmptyString)))
          by (rewrite length_append; cbn [String.length]; lia).
        replace (Z.to_nat (Z.of_nat (String.length a' + S (String.length m'))
                           - (Z.of_nat (String.length a') + 1)))
          with (String.length m') by lia.
        rewrite Nat2Z.id.
        assert (Ep1 : p = String.append (String.append a' (String Path.SLASH EmptyString))
                                        (String.append m' (String Path.DOT b))).
        { rewrite Ep', Eseg, append_assoc. reflexivity. }
        assert (Ep2 : p = String.append (String.append a' (String Path.SLASH m'))
                                        (String Path.DOT b)).
        { rewrite Ep', Eseg, append_assoc. reflexivity. }
        rewrite Ep1 at 1. rewrite substring_middle.
        replace (String.length a' + S (String.length m'))%nat
          with (String.length (String.append a' (String Path.SLASH m')))
          by (rewrite length_append; reflexivity).
        rewrite Ep2, drop_append.
        rewrite (before_last_dot_at _ _ Hb), (from_last_dot_at _ _ Hb). reflexivity.
      * destruct (append_align a' (String Path.SLASH seg) a (String Path.DOT b))
          as (m & Ea & Em); [congruence | lia |].
        assert (m = EmptyString).
        { destruct m; [reflexivity|]. subst a. rewrite length_append in Heq.
          cbn [String.length] in Heq. lia. }
        subst m. cbn [String.append] in Em. inversion Em.
      * destruct (append_align a (String Path.DOT b) a' (String Path.SLASH seg))
          as (m & Ea & Em); [congruence | lia |].
        destruct m as [|c m'].
        { cbn [String.append] in Em. inversion Em. }
        cbn [String.append] in Em. inversion Em as [[Hc Eb]]. subst c.
        rewrite Eb, mem_append in Hb. cbn [Str.mem] in Hb.
        apply orb_false_iff in Hb. destruct Hb as [_ Hb].
        apply orb_false_iff in Hb. destruct Hb as [_ Hb].
        destruct (Z.ltb_spec (Z.of_nat (String.length a'))
                             (Z.of_nat (String.length a))) as [|_]; [lia|].
        rewrite (has_other_none _ Hb). reflexivity.
Qed.

(** C6, as the claim has it, fails on a final segment that starts with its
    only dot: the claim takes the whole name for the extension, the code
    takes none. *)
Lemma leading_dot_counterexample :
  Path.splitext_ext ".gitignore" = EmptyString /\
  from_last_dot (final_segment ".gitignore") = ".gitignore"%string /\
  Path.splitext_ext "pkg/.py" = EmptyString /\
  from_last_dot (final_segment "pkg/.py") = ".py"%string /\
  ~ (forall p, Path.splitext_ext p = from_last_dot (final_segment p)).
Proof.
  repeat split; try reflexivity.
  intros H. specialize (H ".gitignore"%string). vm_compute in H. discriminate.
Qed.

(** C7, as the code has it.  The scan raises on no text, and a failed
    [git blame] gives the empty mapping; the scan of
    the metadata block of a content line leaves the state as it is on every
    line that matches no pattern, and the counters grow by at most the
    number of author lines of the block, each counter by at most the number
    of lines that name its author: by at most one, and for the right
    author, when the block has at most one author line. *)
Theorem blame_block_bounded (block : list string) (content : string)
    (st : blame_state) :
  (forall stdout, exists counts : dict Z,
      parse_blame stdout = Ok counts /\
      forall git, subprocess_run git = Ok stdout ->
                  get_git_blame_info git = Ok counts) /\
  (forall git, subprocess_run git = Raise CalledProcessError ->
               get_git_blame_info git = Ok []) /\
  exists st' : blame_state,
    blame_lines (block ++ [content]) st = Ok st' /\
    sum_values (fst st) <= sum_values (fst st')
      <= sum_values (fst st) + count_lines is_author_line (block ++ [content]) /\
    (forall author,
        count_of author (fst st) <= count_of author (fst st')
          <= count_of author (fst st)
             + count_lines (names_author author) (block ++ [content])) /\
    (forall line, In line (block ++ [content]) -> unrecognised line = true ->
                  forall s, blame_line s line = Ok s).
Proof.
  split.
  { intros stdout. destruct (parse_blame_total stdout) as (counts & E).
    exists counts. split; [exact E|]. intros git Hgit.
    rewrite (get_git_blame_info_text _ _ Hgit). exact E. }
  split; [apply get_git_blame_info_failed|].
  destruct st as [counts cur].
  destruct (blame_lines_bounded (block ++ [content]) counts cur)
    as (c' & cur' & E & S & A).
  exists (c', cur'). repeat split; try apply S; try apply A; auto.
  intros line _ Hu s. apply unrecognised_ignored, Hu.
Qed.

(** C7, as the claim has it, fails: a block with two author lines counts
    its content line twice. *)
Lemma double_count_counterexample :
  ~ (forall (block : list string) (content : string) (st st' : blame_state),
        Forall (fun l => is_content_line l = false) block ->
        is_content_line content = true ->
        blame_lines (block ++ [content]) st = Ok st' ->
        sum_values (fst st') <= sum_values (fst st) + 1).
Proof.
  intros H.
  specialize (H two_author_block (String TAB "x") ([], None)
                ([("Alice"%string, 1); ("Bob"%string, 1)],
                 Some sha_a)).
  assert (Hblock : Forall (fun l => is_content_line l = false) two_author_block)
    by (repeat constructor).
  specialize (H Hblock eq_refl eq_refl). vm_compute in H. apply H. reflexivity.
Qed.




(** C9.  In every report that [main] prints, the rows of the extensions,
    of the authors and of the extensions of every author are the entries
    of their tables by descending line count, the entries with equal
    counts in the order of the table, and the order of the table is the
    order in which its keys first came up; the contributor blocks come in
    the order of the author rows; and the directory lines are those of the
    walk that takes the children of every directory by descending line
    count, ties in the order in which the directories first came up.
    Alice 100, Bob 100 and Carol 50, met in that order, are printed in that
    order; met as Carol, Alice, Bob they are printed Alice, Bob, Carol;
    and directories [c] 50, [a] 100 and [b] 100 are printed [a], [b],
    [c]. *)
Theorem listings_stable :
  (forall (files : list (string * dict Z)) (r : report),
      main files = Ok (Printed r) ->
      let st := collect files in
      (stable_descending (fun x => ext_lines (snd x))
                         (extension_stats st) (extension_rows r) /\
       map fst (extension_stats st) = first_seen (map ext_of files)) /\
      (stable_descending (fun x => snd x) (author_stats st) (map fst (author_rows r)) /\
       map fst (author_stats st)
       = first_seen (flat_map (fun file => map fst (snd file)) files)) /\
      (map fst (contributor_rows r) = map (fun row => fst (fst row)) (author_rows r) /\
       Forall (fun block =>
                 stable_descending (fun x => snd x) (author_exts (fst block) st)
                                   (map (fun line => fst (fst line)) (snd block)) /\
                 map fst (author_exts (fst block) st)
                 = first_seen (map ext_of (filter (has_author (fst block)) files)))
              (contributor_rows r)) /\
      exists (tree : root) (listing : dict dir_node),
        build_directory_tree (map fst files) (blame_data st) = Ok tree /\
        (forall path,
            map fst (children_at path (root_subdirs tree))
            = first_seen (flat_map (fun file => next_segment path (dirs_of file)) files)) /\
        stable_descending (fun i => dir_lines (snd i)) (root_subdirs tree) listing /\
        renders (total_lines st) true EmptyString listing (directory_rows r)) /\
  (exists r : report,
      main tied_authors = Ok (Printed r) /\
      map fst (author_rows r)
      = [("Alice"%string, 100); ("Bob"%string, 100); ("Carol"%string, 50)]) /\
  (exists r : report,
      main tied_authors_late = Ok (Printed r) /\
      map fst (author_rows r)
      = [("Alice"%string, 100); ("Bob"%string, 100); ("Carol"%string, 50)]) /\
  (exists r : report,
      main tied_directories = Ok (Printed r) /\
      directory_rows r
      = [ DirName "└── a/"; DirTotals "    " 100 (PercentOf 100 250) 1;
          DirName "└── b/"; DirTotals "    " 100 (PercentOf 100 250) 1;
          DirName "└── c/"; DirTotals "    " 50 (PercentOf 50 250) 1 ]).
Proof.
  split; [|split; [|split]].
  - intros files r Hmain st.
    destruct (main_report _ _ Hmain) as (rows0 & Hr).
    destruct (main_parts _ _ Hmain) as (rows & Hprint & Hrows).
    destruct (collect_from_keys EmptyString files no_stats) as (K1 & K2 & _).
    split; [|split; [|split]].
    + split.
      * rewrite Hr. cbn [extension_rows]. apply sorted_desc_stable.
      * unfold st, collect. rewrite K1. apply add_keys_first_seen.
    + split.
      * rewrite Hr. cbn [author_rows]. rewrite map_map. cbn [fst].
        rewrite (map_ext _ (fun x => x)) by (intros [a n]; reflexivity).
        rewrite map_id. apply sorted_desc_stable.
      * unfold st, collect. rewrite K2. apply add_keys_first_seen.
    + split.
      * rewrite Hr. cbn [contributor_rows author_rows]. rewrite !map_map.
        reflexivity.
      * rewrite Hr. cbn [contributor_rows]. apply Forall_forall. intros block Hin.
        apply in_map_iff in Hin. destruct Hin as ([a n] & <- & _). cbn [fst snd].
        split.
        -- rewrite map_map.
           rewrite (map_ext _ (fun x => x)) by (intros [e l]; reflexivity).
           rewrite map_id. apply sorted_desc_stable.
        -- destruct (collect_from_keys a files no_stats) as (_ & _ & _ & K4).
           unfold st, collect. rewrite K4. apply add_keys_first_seen.
    + exists (plant None (map (from_blame_data (blame_data (collect files)))
                              (map fst files))),
             (sorted_desc (fun i => dir_lines (snd i))
                (root_subdirs
                   (plant None (map (from_blame_data (blame_data (collect files)))
                                    (map fst files))))).
      split; [apply build_in_main|].
      split; [intros path; apply children_keys_built|].
      split; [apply sorted_desc_stable|].
      rewrite Hrows. apply print_tree_renders, Hprint.
  - eexists. split; [vm_compute; reflexivity | reflexivity].
  - eexists. split; [vm_compute; reflexivity | reflexivity].
  - eexists. split; [vm_compute; reflexivity | reflexivity].
Qed.

Lemma listings_stable_witness :
  exists r : report,
    main demo_files = Ok (Printed r) /\
    stable_descending (fun x : string * Z => snd x)
                      (author_stats (collect demo_files)) (map fst (author_rows r)).
Proof.
  eexists. split; [vm_compute; reflexivity|].
  destruct listings_stable as [H _].
  match goal with
  | |- stable_descending _ _ (map fst (author_rows ?r)) =>
      destruct (H demo_files r ltac:(vm_compute; reflexivity)) as (_ & [Ha _] & _)
  end.
  exact Ha.
Defined.

(** C10.  The order of the files does not matter: for files each with one
    mapping, in any two orders, [total_lines] is the same, each of the four
    tables holds the same value under every key, and the two trees have the
    same directories with the same [file_count] and [line_count]. *)
Theorem aggregation_order_independent (files files' : list (string * dict Z)) :
  Permutation files files' ->
  one_record_per_path files ->
  let st := collect files in
  let st' := collect files' in
  total_lines st = total_lines st' /\
  (forall e, dict_get e (extension_stats st) = dict_get e (extension_stats st')) /\
  (forall a, dict_get a (author_stats st) = dict_get a (author_stats st')) /\
  (forall a, in_dict a (author_ext_stats st) = in_dict a (author_ext_stats st')) /\
  (forall a e, dict_get e (author_exts a st) = dict_get e (author_exts a st')) /\
  exists tree tree' : root,
    build_directory_tree (map fst files) (blame_data st) = Ok tree /\
    build_directory_tree (map fst files') (blame_data st') = Ok tree' /\
    has_subdirs tree = has_subdirs tree' /\
    forall path,
      has_dir path (root_subdirs tree) = has_dir path (root_subdirs tree') /\
      counts_at path (root_subdirs tree) = counts_at path (root_subdirs tree').
Proof.
  intros Hperm Hnd st st'.
  assert (Hnd' : one_record_per_path files')
    by (apply (one_record_perm _ _ Hperm Hnd)).
  assert (Hwhere : forall a e,
             ext_entry e st = ext_entry e st' /\
             in_dict e (extension_stats st) = in_dict e (extension_stats st') /\
             count_of a (author_stats st) = count_of a (author_stats st') /\
             in_dict a (author_stats st) = in_dict a (author_stats st') /\
             count_of e (author_exts a st) = count_of e (author_exts a st') /\
             in_dict a (author_ext_stats st) = in_dict a (author_ext_stats st') /\
             in_dict e (author_exts a st) = in_dict e (author_exts a st')).
  { intros a e.
    destruct (collect_from_where a e files no_stats)
      as (I1 & I2 & I3 & I4 & I5 & I6 & I7 & I8).
    destruct (collect_from_where a e files' no_stats)
      as (J1 & J2 & J3 & J4 & J5 & J6 & J7 & J8).
    unfold st, st', collect, files_where, lines_where in *.
    rewrite (total_where_perm _ _ _ _ Hperm) in I1.
    rewrite (total_where_perm _ _ _ _ Hperm) in I2.
    rewrite (total_where_perm _ _ _ _ Hperm) in I4.
    rewrite (total_where_perm _ _ _ _ Hperm) in I6.
    rewrite (existsb_perm _ _ _ Hperm) in I3.
    rewrite (existsb_perm _ _ _ Hperm) in I5.
    rewrite (existsb_perm _ _ _ Hperm) in I7.
    rewrite (existsb_perm _ _ _ Hperm) in I8.
    repeat split; try congruence.
    apply ext_stat_eq; congruence. }
  split; [|split; [|split; [|split; [|split]]]].
  - unfold st, st', collect. rewrite !collect_from_total.
    unfold lines_where. rewrite (total_where_perm _ _ _ _ Hperm). reflexivity.
  - intros e. destruct (Hwhere e e) as (H1 & H2 & _).
    rewrite !dict_get_ext_entry, H1, H2. reflexivity.
  - intros a. destruct (Hwhere a a) as (_ & _ & H3 & H4 & _).
    rewrite !dict_get_in_count, H3, H4. reflexivity.
  - intros a. apply (Hwhere a a).
  - intros a e. destruct (Hwhere a e) as (_ & _ & _ & _ & H5 & _ & H7).
    rewrite !dict_get_in_count, H5, H7. reflexivity.
  - exists (plant None files), (plant None files').
    split; [apply build_directory_tree_plant, Hnd|].
    split; [apply build_directory_tree_plant, Hnd'|].
    split.
    + rewrite !has_subdirs_plant, (existsb_perm _ _ _ Hperm). reflexivity.
    + intros path. rewrite !has_dir_plant, !counts_at_plant.
      unfold files_where, lines_where.
      rewrite (existsb_perm _ _ _ Hperm), !(total_where_perm _ _ _ _ Hperm).
      split; reflexivity.
Qed.

Lemma aggregation_order_independent_witness :
  total_lines (collect demo_files) = total_lines (collect (rev demo_files)) /\
  forall e, dict_get e (extension_stats (collect demo_files))
            = dict_get e (extension_stats (collect (rev demo_files))).
Proof.
  assert (Hperm : Permutation demo_files (rev demo_files)) by apply perm_swap.
  assert (Hnd : one_record_per_path demo_files).
  { apply distinct_paths_one_record.
    repeat constructor; simpl; intuition discriminate. }
  destruct (aggregation_order_independent demo_files (rev demo_files) Hperm Hnd)
    as (H1 & H2 & _).
  split; [exact H1 | exact H2].
Defined.

(** ** Worked examples *)

(** The end-to-end scenario: [a.py] with ten lines by Alice and [sub/b.py]
    with five by Bob. *)
Example end_to_end :
  main demo_files =
  Ok (Printed
        (mkReport 15 2
           [(".py"%string, mkExt 2 15)]
           [("Alice"%string, 10, PercentOf 10 15); ("Bob"%string, 5, PercentOf 5 15)]
           [("Alice"%string, [(".py"%string, 10, PercentOf 10 10, PercentOf 10 15)]);
            ("Bob"%string, [(".py"%string, 5, PercentOf 5 5, PercentOf 5 15)])]
           [DirName "└── sub/"; DirTotals "    " 5 (PercentOf 5 15) 1])).
Proof. vm_compute. reflexivity. Qed.

Example parts_examples :
  map Path.parts ["a/b/c.py"; "//a/b"; "/a/./b/"; "///x"; ""; "."; "a//b"]%string
  = [ ["a"; "b"; "c.py"]; ["//"; "a"; "b"]; ["/"; "a"; "b"]; ["/"; "x"]; []; [];
      ["a"; "b"] ]%string.
Proof. vm_compute. reflexivity. Qed.

Example splitext_examples :
  map Path.splitext_ext
      ["a/b/c.py"; ".bashrc"; "a.b/c"; "a.tar.gz"; "..py"; "x..py"; "a."]%string
  = [".py"; ""; ""; ".gz"; ""; ".py"; "."]%string.
Proof. vm_compute. reflexivity. Qed.

(** Beyond the range of [above_threshold_exact] the rounded quotient can
    miss a share just above one hundredth. *)
Example threshold_beyond_range :
  above_threshold (10 ^ 16 + 1) (10 ^ 18) = Ok false.
Proof. vm_compute. reflexivity. Qed.

Example two_line_blame_counts :
  get_git_blame_info (Exited 0 two_line_blame "") = Ok [("Alice"%string, 2)].
Proof. vm_compute. reflexivity. Qed.

(* ================================================================== *)
(** * Part IV: further properties of the program *)
(* ================================================================== *)

(** ** The parser, line by line *)

Lemma author_names_cons (line : string) (lines : list string) :
  author_names (line :: lines) =
  (if is_author_line line && Str.truthy (Str.drop 7 line)
   then [Str.drop 7 line] else []) ++ author_names lines.
Proof.
  unfold author_names. cbn [filter]. destruct (is_author_line line); cbn [map filter andb].
  - destruct (Str.truthy (Str.drop 7 line)); reflexivity.
  - reflexivity.
Qed.

(** Once a commit line is seen, every author line with a name counts. *)
Lemma scan_after_commit (lines : list string) :
  forall (counts : dict Z) (cur : option string),
  commit_seen cur = true ->
  exists cur', blame_lines lines (counts, cur) = Ok (tally (author_names lines) counts, cur').
Proof.
  induction lines as [|line lines IH]; intros counts cur Hseen.
  - exists cur. reflexivity.
  - cbn [blame_lines]. rewrite author_names_cons.
    destruct (is_author_line line) eqn:Ha; cbn [andb].
    + assert (Heff : blame_line (counts, cur) line
                     = Ok (if Str.truthy (Str.drop 7 line)
                           then dict_incr (Str.drop 7 line) 1 counts else counts, cur)).
      { unfold blame_line. unfold is_author_line in Ha. rewrite Ha.
        unfold Str.startswith in Ha. rewrite (replace_first_prefix _ _ _ Ha).
        change (String.append "" (Str.drop (String.length "author ") line))
          with (Str.drop 7 line).
        rewrite Hseen. cbn [andb]. destruct (Str.truthy (Str.drop 7 line)); reflexivity. }
      rewrite Heff. cbn [bind].
      destruct (Str.truthy (Str.drop 7 line)); apply IH, Hseen.
    + destruct (blame_line_effect counts cur line)
        as (c1 & cur1 & E1 & Hseen1 & [[_ ->]|[Hau _]]); [|congruence].
      rewrite E1. cbn [bind app]. apply IH, Hseen1, Hseen.
Qed.

(** Before the first commit line nothing counts. *)
Lemma scan_before_commit (lines : list string) :
  forall (counts : dict Z) (cur : option string),
  commit_seen cur = false ->
  exists cur',
    blame_lines lines (counts, cur)
    = Ok (tally (author_names (after_first_commit lines)) counts, cur').
Proof.
  induction lines as [|line lines IH]; intros counts cur Hseen.
  - exists cur. reflexivity.
  - cbn [blame_lines after_first_commit]. unfold is_commit_line.
    destruct (is_author_line line) eqn:Ha; cbn [negb andb].
    + assert (E : blame_line (counts, cur) line = Ok (counts, cur)).
      { unfold blame_line. unfold is_author_line in Ha. rewrite Ha, Hseen. reflexivity. }
      rewrite E. cbn [bind]. apply IH, Hseen.
    + destruct (Str.match_hex 40 line) eqn:Hh.
      * destruct (hex_first_field _ _ Hh) as (commit & Ef & Ht).
        assert (E : blame_line (counts, cur) line = Ok (counts, Some commit)).
        { unfold blame_line. unfold is_author_line in Ha. rewrite Ha, Hh, Ef. reflexivity. }
        rewrite E. cbn [bind]. apply scan_after_commit. exact Ht.
      * assert (E : blame_line (counts, cur) line = Ok (counts, cur)).
        { unfold blame_line. unfold is_author_line in Ha. rewrite Ha, Hh. reflexivity. }
        rewrite E. cbn [bind]. apply IH, Hseen.
Qed.

Lemma tally_counts (a : string) (names : list string) :
  forall counts : dict Z,
  count_of a (tally names counts) = count_of a counts + occurrences a names /\
  map fst (tally names counts) = add_keys names (map fst counts).
Proof.
  unfold tally, occurrences, add_keys.
  induction names as [|name names IH]; intros counts.
  - cbn. split; [lia | reflexivity].
  - cbn [fold_left count_occ]. destruct (IH (dict_incr name 1 counts)) as [I1 I2].
    rewrite I1, I2, count_of_incr. unfold dict_incr. rewrite keys_upd.
    split; [|reflexivity].
    destruct (string_dec name a) as [->|Hne].
    + rewrite String.eqb_refl. lia.
    + apply String.eqb_neq in Hne. rewrite Hne. lia.
Qed.

Lemma parse_blame_tally (stdout : string) :
  parse_blame stdout = Ok (tally (counted_names stdout) []).
Proof.
  unfold parse_blame, counted_names.
  destruct (scan_before_commit (Str.split LF stdout) [] None eq_refl) as (cur' & E).
  assert (E' : blame_lines (Str.split LF stdout) ([], None)
               = Ok (tally (author_names (after_first_commit (Str.split LF stdout))) [],
                     cur')) by exact E.
  rewrite E'. reflexivity.
Qed.

(** [get_git_blame_info] by what the subprocess did. *)
Lemma get_git_blame_info_cases (git : process) :
  get_git_blame_info git =
  match subprocess_run git with
  | Ok stdout => Ok (tally (counted_names stdout) [])
  | Raise CalledProcessError => Ok []
  | Raise e => Raise e
  end.
Proof.
  unfold get_git_blame_info. destruct (subprocess_run git) as [stdout|e];
    [apply parse_blame_tally | reflexivity].
Qed.

Lemma first_seen_in (a : string) (l : list string) : In a (first_seen l) <-> In a l.
Proof.
  induction l as [|k l IH]; [reflexivity|]. cbn [first_seen In].
  rewrite filter_In, IH. split.
  - intros [H|[H _]]; auto.
  - intros [H|H]; [left; exact H|].
    destruct (String.eqb_spec a k) as [->|Hne]; [left; reflexivity|].
    right. split; [exact H | reflexivity].
Qed.

Lemma dict_get_in {V : Type} (k : string) (v : V) (d : dict V) :
  NoDup (map fst d) -> In (k, v) d -> dict_get k d = Some v.
Proof.
  induction d as [|[k' v'] d IH]; intros Hnd Hin; [destruct Hin|].
  cbn [map fst] in Hnd. inversion Hnd as [|? ? Hk Hnd']; subst.
  cbn [dict_get]. destruct Hin as [E|Hin].
  - inversion E; subst. rewrite String.eqb_refl. reflexivity.
  - destruct (String.eqb_spec k' k) as [->|_]; [|apply IH; assumption].
    exfalso. apply Hk. apply (in_map fst _ _ Hin).
Qed.

Lemma tally_from_empty (names : list string) :
  (forall a, count_of a (tally names []) = occurrences a names) /\
  map fst (tally names []) = first_seen names.
Proof.
  split.
  - intros a. destruct (tally_counts a names []) as [H _]. rewrite H. reflexivity.
  - destruct (tally_counts EmptyString names []) as [_ H]. rewrite H.
    apply add_keys_first_seen.
Qed.

Lemma author_names_truthy (lines : list string) :
  Forall (fun name => Str.truthy name = true) (author_names lines).
Proof.
  unfold author_names. apply Forall_forall. intros name Hin.
  apply filter_In in Hin. apply Hin.
Qed.

Lemma occurrences_in (a : string) (names : list string) :
  In a names -> 1 <= occurrences a names.
Proof.
  intros Hin. unfold occurrences.
  apply (count_occ_In string_dec) in Hin. lia.
Qed.

Lemma tally_shape (names : list string) :
  Forall (fun name => Str.truthy name = true) names ->
  NoDup (map fst (tally names [])) /\
  Forall (fun item => fst item <> EmptyString /\ 1 <= snd item) (tally names []).
Proof.
  intros Ht. destruct (tally_from_empty names) as (Hc & Hk).
  assert (Hnd : NoDup (map fst (tally names []))) by (rewrite Hk; apply first_seen_nodup).
  split; [exact Hnd|].
  apply Forall_forall. intros [a c] Hin. cbn [fst snd].
  assert (Ha : In a names).
  { apply first_seen_in. rewrite <- Hk. apply (in_map fst _ _ Hin). }
  split.
  - rewrite Forall_forall in Ht. specialize (Ht a Ha). intros ->. discriminate.
  - pose proof (Hc a) as Hca. unfold count_of in Hca.
    rewrite (dict_get_in a c _ Hnd Hin) in Hca. cbn [or_default] in Hca.
    rewrite Hca. apply occurrences_in, Ha.
Qed.

(** X1.  What [get_git_blame_info] does, by what [git blame] did.  When
    the process ends with status 0 and its output and error output are
    UTF-8, the mapping holds, for every name, the number of author lines
    with that name that come after the first commit line of the decoded
    text, in which every CR LF and every other CR has become a line feed,
    and it holds the names in the order in which they first come.  A
    status that is not 0 gives the empty mapping.  Output that is not
    UTF-8 raises UnicodeDecodeError and a [git] that cannot be started
    raises OSError; neither is caught. *)
Theorem blame_counts_author_lines (git : process) :
  match git with
  | NotStarted => get_git_blame_info git = Raise OSError
  | Exited returncode stdout stderr =>
      if utf8_valid stdout && utf8_valid stderr then
        if returncode =? 0 then
          exists counts : dict Z,
            get_git_blame_info git = Ok counts /\
            (forall a, count_of a counts
                       = occurrences a (counted_names (universal_newlines stdout))) /\
            map fst counts = first_seen (counted_names (universal_newlines stdout))
        else get_git_blame_info git = Ok []
      else get_git_blame_info git = Raise UnicodeDecodeError
  end.
Proof.
  rewrite get_git_blame_info_cases. destruct git as [returncode stdout stderr|];
    [|reflexivity].
  cbn [subprocess_run].
  destruct (utf8_valid stdout && utf8_valid stderr); [|reflexivity].
  destruct (returncode =? 0); [|reflexivity].
  eexists. split; [reflexivity|]. apply tally_from_empty.
Qed.

(** X2.  What every mapping that [get_git_blame_info] returns is like,
    also the one of a failed [git blame]: the names are distinct and not
    empty, and every count is at least one; and a mapping is returned
    whenever line 35 gives a text or raises CalledProcessError. *)
Theorem blame_mapping_shape (git : process) :
  (forall counts : dict Z,
      get_git_blame_info git = Ok counts ->
      NoDup (map fst counts) /\
      Forall (fun item => fst item <> EmptyString /\ 1 <= snd item) counts) /\
  (forall stdout, subprocess_run git = Ok stdout ->
                  exists counts : dict Z, get_git_blame_info git = Ok counts) /\
  (subprocess_run git = Raise CalledProcessError -> get_git_blame_info git = Ok []).
Proof.
  split; [|split].
  - intros counts. rewrite get_git_blame_info_cases.
    destruct (subprocess_run git) as [stdout|e].
    + intros H. inversion H. apply tally_shape, author_names_truthy.
    + destruct e; try discriminate. intros H. inversion H. split; constructor.
  - intros stdout H. rewrite get_git_blame_info_cases, H. eexists. reflexivity.
  - apply get_git_blame_info_failed.
Qed.

(** X3.  Without a commit line nothing is counted: a text in which no line
    starts with forty hexadecimal digits gives the empty mapping, whatever
    author lines it has. *)
Theorem blame_needs_commit_line (git : process) (stdout : string) :
  subprocess_run git = Ok stdout ->
  Forall (fun line => is_commit_line line = false) (Str.split LF stdout) ->
  get_git_blame_info git = Ok [].
Proof.
  intros Hgit H. rewrite get_git_blame_info_cases, Hgit. unfold counted_names.
  replace (after_first_commit (Str.split LF stdout)) with (@nil string); [reflexivity|].
  induction H as [|line lines Hl _ IH]; [reflexivity|].
  cbn [after_first_commit]. rewrite Hl. exact IH.
Qed.

Lemma blame_needs_commit_line_witness :
  get_git_blame_info
    (Exited 0 (text_of_lines ["author Alice"%string; String TAB "line one"]) "")
  = Ok [].
Proof.
  apply (blame_needs_commit_line _
           (text_of_lines ["author Alice"%string; String TAB "line one"]));
    [reflexivity | repeat constructor].
Defined.

(** ** build_directory_tree and its lookups *)

(** X4.  [build_directory_tree] succeeds exactly when [blame_data] has
    every tracked path; otherwise it raises KeyError, and nothing else.
    When it succeeds the tree is the one that the tracked paths grow, each
    with the mapping that [blame_data] holds for it. *)
Theorem build_directory_tree_lookup (tracked : list string) (bd : dict (dict Z)) :
  build_directory_tree tracked bd =
  if forallb (fun p => in_dict p bd) tracked
  then Ok (plant None (map (from_blame_data bd) tracked))
  else Raise KeyError.
Proof. apply build_from_lookup. Qed.

Lemma some_in_directory_dirs (files files' : list (string * dict Z)) :
  map dirs_of files = map dirs_of files' ->
  some_in_directory files = some_in_directory files'.
Proof.
  unfold some_in_directory. revert files'.
  induction files as [|file files IH]; intros [|file' files'] H;
    try discriminate; [reflexivity|].
  cbn [map] in H. inversion H as [[Hd Hrest]]. cbn [existsb].
  rewrite (IH files' Hrest). unfold at_root. rewrite Hd. reflexivity.
Qed.

Lemma main_cases (files : list (string * dict Z)) :
  match main files with
  | Ok _ =>
      files = [] \/
      (some_in_directory files = true /\ total_lines (collect files) <> 0)
  | Raise e =>
      files <> [] /\
      ((some_in_directory files = false /\ e = TypeError) \/
       (some_in_directory files = true /\
        total_lines (collect files) = 0 /\ e = ZeroDivisionError))
  end.
Proof.
  pose proof (build_in_main files) as Hbuild.
  unfold main. destruct files as [|file files]; [left; reflexivity|].
  rewrite Hbuild. cbn [bind].
  set (files' := map (from_blame_data (blame_data (collect (file :: files))))
                     (map fst (file :: files))).
  pose proof (has_subdirs_plant files' None) as Hsub.
  pose proof (plant_subdirs_nonempty files' None ltac:(discriminate)) as Hne.
  cbn [has_subdirs orb] in Hsub.
  fold (some_in_directory files') in Hsub.
  rewrite (some_in_directory_dirs files' (file :: files)
             (dirs_of_from_blame_data _ _)) in Hsub.
  destruct (plant None files') as [subdirs|].
  - cbn [has_subdirs] in Hsub.
    destruct (Z.eq_dec (total_lines (collect (file :: files))) 0) as [Hz|Hnz].
    + destruct subdirs as [|item subdirs]; [congruence|].
      rewrite Hz, print_zero_total. cbn [bind].
      split; [discriminate|]. right. auto.
    + rewrite print_directory_tree_unfold.
      destruct (print_items_ok (total_lines (collect (file :: files))) true
                  (sorted_desc (fun i => dir_lines (snd i)) subdirs) Hnz)
        with (prefix := EmptyString) as (out & ->).
      * apply Forall_forall. intros item _ prefix. apply print_node_ok, Hnz.
      * cbn [bind]. right. auto.
  - cbn [has_subdirs] in Hsub.
    change (print_directory_tree None "" true (total_lines (collect (file :: files))))
      with (@Raise (list out_line) TypeError).
    cbn [bind]. split; [discriminate|]. left. auto.
Qed.

(** X5.  [main] ends without an exception exactly when no file is tracked,
    or some tracked file lies in a directory and the grand total is not
    zero.  It raises TypeError exactly when files are tracked and all of
    them lie at the root of the repository, ZeroDivisionError exactly when
    some tracked file lies in a directory and the grand total is zero, and
    never another exception: the lookups of [build_directory_tree] never
    fail in [main]. *)
Theorem main_raises_exactly (files : list (string * dict Z)) :
  (exists tree, build_directory_tree (map fst files) (blame_data (collect files)) = Ok tree) /\
  match main files with
  | Ok _ =>
      files = [] \/
      (some_in_directory files = true /\ total_lines (collect files) <> 0)
  | Raise e =>
      files <> [] /\
      ((some_in_directory files = false /\ e = TypeError) \/
       (some_in_directory files = true /\
        total_lines (collect files) = 0 /\ e = ZeroDivisionError))
  end.
Proof.
  split; [eexists; apply build_in_main | apply main_cases].
Qed.

(** ** What the directories of the tree count *)

Lemma total_where_bounds {X : Type} (f : X -> bool) (l : list X) :
  0 <= total_where f (fun _ => 1) l <= Z.of_nat (List.length l) /\
  (existsb f l = true -> 1 <= total_where f (fun _ => 1) l).
Proof.
  induction l as [|x l [IH1 IH2]]; [cbn; split; [lia | discriminate]|].
  rewrite total_where_cons. cbn [existsb List.length].
  destruct (f x); cbn [orb]; split; try lia; intros; try lia.
  specialize (IH2 H). lia.
Qed.

Lemma total_where_mono {X : Type} (f g : X -> bool) (m : X -> Z) (l : list X) :
  (forall x, f x = true -> g x = true) ->
  Forall (fun x => 0 <= m x) l ->
  0 <= total_where f m l <= total_where g m l.
Proof.
  intros Hfg. induction 1 as [|x l Hx _ IH]; [cbn; lia|].
  rewrite !total_where_cons. destruct (f x) eqn:Hf.
  - rewrite (Hfg x Hf). lia.
  - destruct (g x); lia.
Qed.

Lemma leads_to_shorter (path : list string) (name : string) (dirs : list string) :
  leads_to (path ++ [name]) dirs = true -> leads_to path dirs = true.
Proof.
  revert dirs. induction path as [|a path IH]; intros dirs H; [reflexivity|].
  destruct dirs as [|b dirs]; [discriminate|].
  cbn [app leads_to] in *. apply andb_true_iff in H. destruct H as [-> H].
  apply IH, H.
Qed.

Lemma beneath_shorter (path : list string) (name : string) (file : string * dict Z) :
  path <> [] -> beneath (path ++ [name]) file = true -> beneath path file = true.
Proof.
  unfold beneath, on_path. intros Hne H.
  destruct path as [|a path]; [contradiction|].
  cbn [app] in H. apply (leads_to_shorter (a :: path) name), H.
Qed.

Lemma node_at_counts (path : list string) (n : dir_node) (files : list (string * dict Z)) :
  node_at path (root_subdirs (plant None files)) = Some n ->
  path <> [] /\
  existsb (beneath path) files = true /\
  dir_files n = files_where (beneath path) files /\
  dir_lines n = lines_where (beneath path) files.
Proof.
  intros Hn. split; [intros ->; discriminate Hn|].
  pose proof (has_dir_plant path files None) as Hd.
  pose proof (counts_at_plant path files None) as Hc.
  unfold has_dir, counts_at in Hd, Hc. rewrite Hn in Hd, Hc.
  cbn [root_subdirs or_default] in Hd, Hc. rewrite node_at_nil in Hd, Hc.
  cbn [orb fst snd] in Hd, Hc. inversion Hc as [[Hf Hl]].
  split; [symmetry; exact Hd|]. split; reflexivity.
Qed.

(** X6.  In the tree that [build_directory_tree] returns every directory
    holds at least one file and at most all the tracked files, and a
    directory never holds more files than the directory it lies in. *)
Theorem tree_file_counts (tracked : list string) (bd : dict (dict Z)) (tree : root) :
  build_directory_tree tracked bd = Ok tree ->
  forall path n,
    node_at path (root_subdirs tree) = Some n ->
    1 <= dir_files n <= Z.of_nat (List.length tracked) /\
    forall name child,
      node_at (path ++ [name]) (root_subdirs tree) = Some child ->
      dir_files child <= dir_files n.
Proof.
  intros Hbuild path n Hn. unfold build_directory_tree in Hbuild.
  rewrite build_from_lookup in Hbuild.
  destruct (forallb _ tracked); [|discriminate]. inversion Hbuild as [Htree].
  rewrite <- Htree in *. clear Hbuild Htree.
  destruct (node_at_counts _ _ _ Hn) as (Hne & Hex & Hf & _).
  rewrite Hf. unfold files_where.
  destruct (total_where_bounds (beneath path) (map (from_blame_data bd) tracked))
    as [Hb1 Hb2].
  rewrite length_map in Hb1. split; [specialize (Hb2 Hex); lia|].
  intros name child Hc.
  destruct (node_at_counts _ _ _ Hc) as (_ & _ & Hfc & _).
  rewrite Hfc. unfold files_where.
  apply total_where_mono.
  - intros file. apply beneath_shorter, Hne.
  - apply Forall_forall. intros; lia.
Qed.

Lemma tree_file_counts_witness :
  1 <= dir_files (mkDir 1 5 []) <= 2.
Proof.
  apply (tree_file_counts ["a.py"; "sub/b.py"]%string
           [("a.py"%string, [("Alice"%string, 10)]);
            ("sub/b.py"%string, [("Bob"%string, 5)])]
           (Some [("sub"%string, mkDir 1 5 [])]) eq_refl
           ["sub"%string] (mkDir 1 5 []) eq_refl).
Defined.

Lemma file_lines_not_negative (files : list (string * dict Z)) :
  counts_not_negative files -> Forall (fun file => 0 <= file_lines file) files.
Proof.
  induction 1 as [|[p r] files Hr _ IH]; constructor; [|exact IH].
  unfold file_lines, sum_values. cbn [snd] in *.
  induction Hr as [|item r Hi _ IHr]; [cbn; lia|].
  cbn [dict_sum fold_right]. fold (dict_sum (fun v : Z => v) r). lia.
Qed.

(** X7.  When no count is negative and every path has one mapping, the
    lines of every directory of the tree lie between zero and the grand
    total, and a directory never has more lines than the directory it lies
    in: the quotient that the renderer compares with 0.01 lies between 0
    and 1. *)
Theorem tree_line_counts (files : list (string * dict Z)) :
  one_record_per_path files ->
  counts_not_negative files ->
  exists tree : root,
    build_directory_tree (map fst files) (blame_data (collect files)) = Ok tree /\
    0 <= total_lines (collect files) /\
    forall path n,
      node_at path (root_subdirs tree) = Some n ->
      0 <= dir_lines n <= total_lines (collect files) /\
      forall name child,
        node_at (path ++ [name]) (root_subdirs tree) = Some child ->
        dir_lines child <= dir_lines n.
Proof.
  intros Hone Hpos. apply file_lines_not_negative in Hpos.
  exists (plant None files). split; [apply build_directory_tree_plant, Hone|].
  unfold collect. rewrite collect_from_total.
  change (total_lines no_stats) with 0. unfold lines_where.
  pose proof (total_where_mono (fun _ => true) (fun _ => true) file_lines files
                (fun _ H => H) Hpos) as Htotal.
  split; [lia|]. intros path n Hn.
  destruct (node_at_counts _ _ _ Hn) as (Hne & _ & _ & Hl).
  rewrite Hl. unfold lines_where.
  pose proof (total_where_mono (beneath path) (fun _ => true) file_lines files
                (fun _ _ => eq_refl) Hpos) as H1.
  split; [lia|]. intros name child Hc.
  destruct (node_at_counts _ _ _ Hc) as (_ & _ & _ & Hlc).
  rewrite Hlc. unfold lines_where.
  apply total_where_mono; [|exact Hpos].
  intros file. apply beneath_shorter, Hne.
Qed.

Lemma tree_line_counts_witness :
  exists tree : root,
    build_directory_tree (map fst demo_files) (blame_data (collect demo_files)) = Ok tree /\
    0 <= total_lines (collect demo_files).
Proof.
  assert (Hone : one_record_per_path demo_files).
  { apply distinct_paths_one_record.
    repeat constructor; simpl; intuition discriminate. }
  assert (Hpos : counts_not_negative demo_files).
  { repeat constructor; simpl; lia. }
  destruct (tree_line_counts demo_files Hone Hpos) as (tree & Hb & Ht & _).
  exists tree. split; [exact Hb | exact Ht].
Defined.

Lemma node_at_snoc (name : string) (path : list string) :
  forall subdirs : dict dir_node,
  node_at (path ++ [name]) subdirs = dict_get name (children_at path subdirs).
Proof.
  induction path as [|a rest IH]; intros subdirs.
  - cbn [app node_at children_at]. destruct (dict_get name subdirs); reflexivity.
  - change ((a :: rest) ++ [name]) with (a :: (rest ++ [name])).
    rewrite node_at_cons. unfold children_at at 1. rewrite node_at_cons.
    destruct (dict_get a subdirs) as [n|]; [|reflexivity].
    destruct rest as [|b rest'].
    + cbn [app]. rewrite node_at_cons. destruct (dict_get name (dir_subdirs n)); reflexivity.
    + change ((b :: rest') ++ [name]) with (b :: (rest' ++ [name])) in *.
      rewrite (IH (dir_subdirs n)). reflexivity.
Qed.

Lemma printed_children_weigh (total : Z) (children : dict dir_node) :
  Forall (fun item => 0 <= dir_lines (snd item)) children ->
  (total + 1) * Z.of_nat (List.length (printed_children total children))
  <= 100 * dict_sum dir_lines children.
Proof.
  unfold printed_children.
  induction 1 as [|item children Hitem _ IH]; [cbn; lia|].
  cbn [filter dict_sum fold_right]. fold (dict_sum dir_lines children).
  destruct (Z.ltb_spec total (100 * dir_lines (snd item))); cbn [List.length]; lia.
Qed.

(** X8.  When no count is negative and every path has one mapping, fewer
    than one hundred children of any directory, and of the root, have more
    than one hundredth of the grand total: no level of the printed tree has
    a hundred directories. *)
Theorem printed_children_below_100 (files : list (string * dict Z)) :
  one_record_per_path files ->
  counts_not_negative files ->
  exists tree : root,
    build_directory_tree (map fst files) (blame_data (collect files)) = Ok tree /\
    forall path,
      (List.length (printed_children (total_lines (collect files))
                      (children_at path (root_subdirs tree))) < 100)%nat.
Proof.
  intros Hone Hpos. apply file_lines_not_negative in Hpos.
  exists (plant None files). split; [apply build_directory_tree_plant, Hone|].
  intros path.
  set (children := children_at path (root_subdirs (plant None files))).
  assert (Htotal : total_lines (collect files) = lines_where (fun _ => true) files).
  { unfold collect. rewrite collect_from_total. reflexivity. }
  assert (Hnonneg : forall f, 0 <= lines_where f files).
  { intros f. unfold lines_where.
    apply (total_where_mono f (fun _ => true) file_lines files (fun _ _ => eq_refl) Hpos). }
  assert (Hkeys : NoDup (map fst children)).
  { unfold children. rewrite children_at_plant.
    replace (map fst (children_at path (root_subdirs None))) with (@nil string)
      by (destruct path; reflexivity).
    rewrite add_keys_first_seen. apply first_seen_nodup. }
  assert (Heach : Forall (fun item => 0 <= dir_lines (snd item)) children).
  { apply Forall_forall. intros [name child] Hin. cbn [snd].
    pose proof (dict_get_in name child children Hkeys Hin) as Hget.
    unfold children in Hget. rewrite <- node_at_snoc in Hget.
    destruct (node_at_counts _ _ _ Hget) as (_ & _ & _ & ->). apply Hnonneg. }
  assert (Hsum : dict_sum dir_lines children <= total_lines (collect files)).
  { rewrite Htotal. unfold children. destruct path as [|a rest].
    - cbn [children_at]. pose proof (top_level_plant files None) as H.
      change (dict_sum dir_lines (root_subdirs None)) with 0 in H.
      pose proof (Hnonneg at_root). lia.
    - unfold children_at.
      destruct (node_at (a :: rest) (root_subdirs (plant None files))) as [n|] eqn:Hn.
      + destruct (rollup_plant files _ _ Hn) as [Hroll _].
        destruct (node_at_counts _ _ _ Hn) as (_ & _ & _ & Hl).
        pose proof (Hnonneg (directly_in (a :: rest))).
        assert (lines_where (beneath (a :: rest)) files
                <= lines_where (fun _ => true) files).
        { unfold lines_where.
          apply (total_where_mono _ (fun _ => true) file_lines files
                   (fun _ _ => eq_refl) Hpos). }
        lia.
      + cbn. apply Hnonneg. }
  pose proof (printed_children_weigh (total_lines (collect files)) children Heach) as Hw.
  pose proof (Hnonneg (fun _ => true)) as Ht. rewrite <- Htotal in Ht.
  nia.
Qed.

Lemma printed_children_below_100_witness :
  exists tree : root,
    build_directory_tree (map fst demo_files) (blame_data (collect demo_files)) = Ok tree /\
    (List.length (printed_children (total_lines (collect demo_files))
                    (children_at [] (root_subdirs tree))) < 100)%nat.
Proof.
  assert (Hone : one_record_per_path demo_files).
  { apply distinct_paths_one_record.
    repeat constructor; simpl; intuition discriminate. }
  assert (Hpos : counts_not_negative demo_files).
  { repeat constructor; simpl; lia. }
  destruct (printed_children_below_100 demo_files Hone Hpos) as (tree & Hb & H).
  exists tree. split; [exact Hb | apply (H [])].
Defined.

(** ** Merging two runs *)

Lemma one_record_app (files1 files2 : list (string * dict Z)) :
  one_record_per_path (files1 ++ files2) ->
  one_record_per_path files1 /\ one_record_per_path files2.
Proof.
  intros H. split; intros p r r' H1 H2; apply (H p); apply in_or_app; auto.
Qed.

(** X9.  Aggregation is additive over a split of the files: the grand
    total, the file and line counts of every extension, the lines of every
    author and of every author in every extension, and the counts of every
    directory for the whole list are the sums of those for the two parts,
    and a key is in a table for the whole list (of the extensions, of the
    authors, of the authors by extension and of the extensions of an
    author) exactly when it is in the table of one part. *)
Theorem collect_adds_up (files1 files2 : list (string * dict Z)) :
  one_record_per_path (files1 ++ files2) ->
  let st := collect (files1 ++ files2) in
  let st1 := collect files1 in
  let st2 := collect files2 in
  total_lines st = total_lines st1 + total_lines st2 /\
  (forall e,
      ext_files (ext_entry e st) = ext_files (ext_entry e st1) + ext_files (ext_entry e st2) /\
      ext_lines (ext_entry e st) = ext_lines (ext_entry e st1) + ext_lines (ext_entry e st2) /\
      in_dict e (extension_stats st)
      = in_dict e (extension_stats st1) || in_dict e (extension_stats st2)) /\
  (forall a,
      count_of a (author_stats st) = count_of a (author_stats st1) + count_of a (author_stats st2) /\
      in_dict a (author_stats st)
      = in_dict a (author_stats st1) || in_dict a (author_stats st2)) /\
  (forall a e,
      count_of e (author_exts a st) = count_of e (author_exts a st1) + count_of e (author_exts a st2) /\
      in_dict a (author_ext_stats st)
      = in_dict a (author_ext_stats st1) || in_dict a (author_ext_stats st2) /\
      in_dict e (author_exts a st)
      = in_dict e (author_exts a st1) || in_dict e (author_exts a st2)) /\
  exists tree tree1 tree2 : root,
    build_directory_tree (map fst (files1 ++ files2)) (blame_data st) = Ok tree /\
    build_directory_tree (map fst files1) (blame_data st1) = Ok tree1 /\
    build_directory_tree (map fst files2) (blame_data st2) = Ok tree2 /\
    forall path,
      counts_at path (root_subdirs tree)
      = (fst (counts_at path (root_subdirs tree1)) + fst (counts_at path (root_subdirs tree2)),
         snd (counts_at path (root_subdirs tree1)) + snd (counts_at path (root_subdirs tree2))).
Proof.
  intros Hone st st1 st2. destruct (one_record_app _ _ Hone) as [Hone1 Hone2].
  assert (Hwhere : forall a e,
    ext_files (ext_entry e st) = ext_files (ext_entry e st1) + ext_files (ext_entry e st2) /\
    ext_lines (ext_entry e st) = ext_lines (ext_entry e st1) + ext_lines (ext_entry e st2) /\
    in_dict e (extension_stats st)
    = in_dict e (extension_stats st1) || in_dict e (extension_stats st2) /\
    count_of a (author_stats st) = count_of a (author_stats st1) + count_of a (author_stats st2) /\
    in_dict a (author_stats st)
    = in_dict a (author_stats st1) || in_dict a (author_stats st2) /\
    count_of e (author_exts a st) = count_of e (author_exts a st1) + count_of e (author_exts a st2) /\
    in_dict a (author_ext_stats st)
    = in_dict a (author_ext_stats st1) || in_dict a (author_ext_stats st2) /\
    in_dict e (author_exts a st)
    = in_dict e (author_exts a st1) || in_dict e (author_exts a st2)).
  { intros a e. unfold st, st1, st2, collect.
    destruct (collect_from_where a e (files1 ++ files2) no_stats)
      as (I1 & I2 & I3 & I4 & I5 & I6 & I7 & I8).
    destruct (collect_from_where a e files1 no_stats)
      as (J1 & J2 & J3 & J4 & J5 & J6 & J7 & J8).
    destruct (collect_from_where a e files2 no_stats)
      as (K1 & K2 & K3 & K4 & K5 & K6 & K7 & K8).
    rewrite I1, I2, I3, I4, I5, I6, I7, I8, J1, J2, J3, J4, J5, J6, J7, J8,
      K1, K2, K3, K4, K5, K6, K7, K8.
    unfold files_where, lines_where. rewrite !total_where_app, !existsb_app.
    change (ext_files (ext_entry e no_stats)) with 0.
    change (ext_lines (ext_entry e no_stats)) with 0.
    change (count_of a (author_stats no_stats)) with 0.
    change (count_of e (author_exts a no_stats)) with 0.
    change (in_dict e (extension_stats no_stats)) with false.
    change (in_dict a (author_stats no_stats)) with false.
    change (in_dict a (author_ext_stats no_stats)) with false.
    change (in_dict e (author_exts a no_stats)) with false.
    cbn [orb]. repeat split; lia. }
  split; [|split; [|split; [|split]]].
  - unfold st, st1, st2, collect. rewrite !collect_from_total. unfold lines_where.
    rewrite total_where_app. change (total_lines no_stats) with 0. lia.
  - intros e. destruct (Hwhere e e) as (H1 & H2 & H3 & _). auto.
  - intros a. destruct (Hwhere a a) as (_ & _ & _ & H4 & H5 & _). auto.
  - intros a e. destruct (Hwhere a e) as (_ & _ & _ & _ & _ & H6 & H7 & H8). auto.
  - exists (plant None (files1 ++ files2)), (plant None files1), (plant None files2).
    split; [apply build_directory_tree_plant, Hone|].
    split; [apply build_directory_tree_plant, Hone1|].
    split; [apply build_directory_tree_plant, Hone2|].
    intros path. rewrite !counts_at_plant. unfold files_where, lines_where.
    rewrite !total_where_app. unfold counts_at. cbn [root_subdirs or_default].
    rewrite node_at_nil. cbn [fst snd]. f_equal; lia.
Qed.

Lemma collect_adds_up_witness :
  total_lines (collect (demo_files ++ [("lib/c.js"%string, [("Alice"%string, 3)])]))
  = total_lines (collect demo_files)
    + total_lines (collect [("lib/c.js"%string, [("Alice"%string, 3)])]).
Proof.
  assert (Hone : one_record_per_path
                   (demo_files ++ [("lib/c.js"%string, [("Alice"%string, 3)])])).
  { apply distinct_paths_one_record.
    repeat constructor; simpl; intuition discriminate. }
  apply (collect_adds_up demo_files [("lib/c.js"%string, [("Alice"%string, 3)])] Hone).
Defined.

(** ** The listing is determined *)

Section SortedUnique.

Context {A : Type}.
Variable key : A -> Z.

Lemma filter_key_nil (l : list A) :
  (forall v, filter (fun x => key x =? v) l = []) -> l = [].
Proof.
  destruct l as [|y l]; [reflexivity|]. intros H. specialize (H (key y)).
  cbn [filter] in H. rewrite Z.eqb_refl in H. discriminate.
Qed.

Lemma descending_same_groups (l1 : list A) :
  forall l2 : list A,
  StronglySorted (fun a b => key b <= key a) l1 ->
  StronglySorted (fun a b => key b <= key a) l2 ->
  (forall v, filter (fun x => key x =? v) l1 = filter (fun x => key x =? v) l2) ->
  l1 = l2.
Proof.
  induction l1 as [|x l1 IH]; intros l2 S1 S2 H.
  - symmetry. apply filter_key_nil. intros v. symmetry. apply H.
  - destruct l2 as [|y l2].
    + apply filter_key_nil. intros v. apply H.
    + inversion S1 as [|? ? S1' F1]; subst. inversion S2 as [|? ? S2' F2]; subst.
      assert (Hkey : key x = key y).
      { destruct (Z.eq_dec (key x) (key y)) as [E|NE]; [exact E|].
        pose proof (H (key x)) as Hx. pose proof (H (key y)) as Hy.
        cbn [filter] in Hx, Hy. rewrite Z.eqb_refl in Hx, Hy.
        destruct (Z.eqb_spec (key y) (key x)) as [E|_]; [congruence|].
        destruct (Z.eqb_spec (key x) (key y)) as [E|_]; [congruence|].
        assert (In x l2).
        { assert (Hin : In x (filter (fun z => key z =? key x) l2))
            by (rewrite <- Hx; left; reflexivity).
          apply filter_In in Hin. apply Hin. }
        assert (In y l1).
        { assert (Hin : In y (filter (fun z => key z =? key y) l1))
            by (rewrite Hy; left; reflexivity).
          apply filter_In in Hin. apply Hin. }
        rewrite Forall_forall in F1, F2.
        pose proof (F1 y ltac:(assumption)). pose proof (F2 x ltac:(assumption)). lia. }
      assert (Hxy : x = y).
      { pose proof (H (key x)) as Hx. cbn [filter] in Hx.
        rewrite <- Hkey, Z.eqb_refl in Hx. inversion Hx. reflexivity. }
      subst y. f_equal. apply IH; [assumption | assumption |].
      intros v. specialize (H v). cbn [filter] in H.
      destruct (key x =? v); [inversion H; reflexivity | exact H].
Qed.

(** X10.  The listing is determined by what [sorted] promises: any
    arrangement of the table that is descending by key and keeps entries
    with equal keys in the order of the table is the listing that the
    program prints. *)
Theorem stable_descending_unique (table listing : list A) :
  stable_descending key table listing -> listing = sorted_desc key table.
Proof.
  intros (_ & Hsorted & Hstable).
  apply descending_same_groups; [exact Hsorted | apply sorted_desc_sorted|].
  intros v. rewrite Hstable, sorted_desc_filter. reflexivity.
Qed.

End SortedUnique.

Lemma stable_descending_unique_witness :
  [("Alice"%string, 100); ("Bob"%string, 100); ("Carol"%string, 50)]
  = sorted_desc (fun x : string * Z => snd x)
      [("Carol"%string, 50); ("Alice"%string, 100); ("Bob"%string, 100)].
Proof.
  apply (stable_descending_unique (fun x : string * Z => snd x)).
  split; [|split].
  - apply (Permutation_cons_append [("Alice"%string, 100); ("Bob"%string, 100)]
             ("Carol"%string, 50)).
  - repeat constructor; simpl; lia.
  - intros v. cbn [filter snd].
    destruct (50 =? v) eqn:E1, (100 =? v) eqn:E2; try reflexivity.
    apply Z.eqb_eq in E1, E2. lia.
Defined.

(** ** A run of the script *)

Lemma escapes_which (git : process) (e : exn) :
  escapes git = Some e -> e = UnicodeDecodeError \/ e = OSError.
Proof.
  unfold escapes, subprocess_run. destruct git as [returncode stdout stderr|].
  - destruct (utf8_valid stdout && utf8_valid stderr).
    + destruct (returncode =? 0); discriminate.
    + intros H. inversion H. left. reflexivity.
  - intros H. inversion H. right. reflexivity.
Qed.

Lemma blame_info_of_parse (git : process) :
  get_git_blame_info git =
  match escapes git with
  | Some e => Raise e
  | None => Ok (blame_info_of git)
  end.
Proof.
  rewrite get_git_blame_info_cases. unfold escapes, blame_info_of.
  destruct (subprocess_run git) as [stdout|e]; [reflexivity|].
  destruct e; reflexivity.
Qed.

Lemma blame_all_cases (blame : string -> process) (tracked : list string) :
  blame_all (map (fun p => (p, blame p)) tracked) =
  match first_escape blame tracked with
  | Some e => Raise e
  | None => Ok (blamed blame tracked)
  end.
Proof.
  induction tracked as [|p tracked IH]; [reflexivity|].
  cbn [map blame_all first_escape]. rewrite blame_info_of_parse.
  destruct (escapes (blame p)) as [e|]; [reflexivity|]. cbn [bind]. rewrite IH.
  destruct (first_escape blame tracked); reflexivity.
Qed.

Lemma first_escape_none (blame : string -> process) (tracked : list string) (p : string) :
  first_escape blame tracked = None -> In p tracked ->
  get_git_blame_info (blame p) = Ok (blame_info_of (blame p)).
Proof.
  induction tracked as [|q tracked IH]; intros H Hin; [destruct Hin|].
  cbn [first_escape] in H. destruct (escapes (blame q)) eqn:E; [discriminate|].
  destruct Hin as [->|Hin]; [|apply IH; assumption].
  rewrite blame_info_of_parse, E. reflexivity.
Qed.

Lemma first_escape_some (blame : string -> process) (tracked : list string) (e : exn) :
  first_escape blame tracked = Some e ->
  tracked <> [] /\ (e = UnicodeDecodeError \/ e = OSError).
Proof.
  induction tracked as [|q tracked IH]; [discriminate|]. cbn [first_escape].
  intros H. split; [discriminate|].
  destruct (escapes (blame q)) as [e'|] eqn:E.
  - inversion H. subst e'. apply (escapes_which _ _ E).
  - apply IH, H.
Qed.

Lemma blame_info_positive (git : process) :
  Forall (fun item => 1 <= snd item) (blame_info_of git).
Proof.
  unfold blame_info_of. destruct (subprocess_run git) as [stdout|e]; [|constructor].
  destruct (tally_shape (counted_names stdout)
              (author_names_truthy (after_first_commit (Str.split LF stdout))))
    as [_ H].
  eapply Forall_impl; [|exact H]. cbn. intros item [_ Hi]. exact Hi.
Qed.

Lemma blamed_positive (blame : string -> process) (tracked : list string) :
  counts_positive (blamed blame tracked).
Proof.
  unfold counts_positive, blamed. apply Forall_forall. intros file Hin.
  apply in_map_iff in Hin. destruct Hin as (p & <- & _). cbn [snd].
  apply blame_info_positive.
Qed.

Lemma some_in_directory_blamed (blame : string -> process) (tracked : list string) :
  some_in_directory (blamed blame tracked) = existsb in_directory tracked.
Proof.
  unfold some_in_directory, blamed.
  induction tracked as [|p tracked IH]; [reflexivity|].
  cbn [map existsb]. rewrite IH. f_equal.
  unfold at_root, dirs_of, in_directory. cbn [fst].
  destruct (Path.dir_parts p); reflexivity.
Qed.

Lemma mapping_lines_positive (a : string) (d : dict Z) :
  Forall (fun item => 1 <= snd item) d ->
  0 <= sum_values d /\ (d <> [] -> 1 <= sum_values d) /\
  0 <= total_where (named a) snd d /\
  (existsb (named a) d = true -> 1 <= total_where (named a) snd d).
Proof.
  induction 1 as [|item d Hi _ (I1 & I2 & I3 & I4)].
  - cbn. repeat split; try lia; try congruence; try discriminate.
  - unfold sum_values in *. cbn [dict_sum fold_right].
    fold (dict_sum (fun v : Z => v) d).
    rewrite total_where_cons. cbn [existsb].
    repeat split; try lia.
    + destruct (named a item); lia.
    + destruct (named a item); cbn [orb]; intros H; [lia | specialize (I4 H); lia].
Qed.

Lemma total_where_positive {X : Type} (f : X -> bool) (m : X -> Z) (l : list X) :
  Forall (fun x => 0 <= m x) l ->
  existsb (fun x => f x && (1 <=? m x)) l = true ->
  1 <= total_where f m l.
Proof.
  induction 1 as [|x l Hx Hl IH]; [discriminate|].
  cbn [existsb]. rewrite total_where_cons. intros H.
  assert (H0 : 0 <= total_where f m l).
  { clear - Hl. induction Hl as [|y l Hy _ IH]; [cbn; lia|].
    rewrite total_where_cons. destruct (f y); lia. }
  apply orb_true_iff in H. destruct H as [H|H].
  - apply andb_true_iff in H. destruct H as [-> H]. apply Z.leb_le in H. lia.
  - specialize (IH H). destruct (f x); lia.
Qed.

Lemma file_lines_positive (files : list (string * dict Z)) :
  counts_positive files -> Forall (fun file => 0 <= file_lines file) files.
Proof.
  intros Hpos. eapply Forall_impl; [|exact Hpos]. cbn. intros file H.
  apply (mapping_lines_positive EmptyString _ H).
Qed.

Lemma in_dict_In {V : Type} (k : string) (v : V) (d : dict V) :
  In (k, v) d -> in_dict k d = true.
Proof.
  unfold in_dict. induction d as [|[k' v'] d IH]; intros Hin; [destruct Hin|].
  cbn [dict_get]. destruct (String.eqb_spec k' k) as [_|Hne]; [reflexivity|].
  destruct Hin as [E|Hin]; [inversion E; subst; contradiction | apply IH, Hin].
Qed.

Lemma author_total_positive (files : list (string * dict Z)) (a : string) (n : Z) :
  counts_positive files -> In (a, n) (author_stats (collect files)) -> 1 <= n.
Proof.
  intros Hpos Hin.
  destruct (tables_keys_distinct files) as (_ & Hnd & _).
  pose proof (dict_get_in a n _ Hnd Hin) as Hget. unfold collect in Hget.
  destruct (collect_from_where a EmptyString files no_stats)
    as (_ & _ & _ & Hc & Hd & _).
  unfold count_of at 1 in Hc. unfold in_dict at 1 in Hd.
  rewrite Hget in Hc, Hd. cbn [or_default] in Hc.
  change (count_of a (author_stats no_stats)) with 0 in Hc.
  change (in_dict a (author_stats no_stats)) with false in Hd. cbn [orb] in Hd.
  rewrite Hc, Z.add_0_l. unfold counts_positive in Hpos. rewrite Forall_forall in Hpos.
  apply total_where_positive.
  - apply Forall_forall. intros file Hf.
    apply (mapping_lines_positive a _ (Hpos file Hf)).
  - symmetry in Hd. apply existsb_exists in Hd. destruct Hd as (file & Hf & Ha).
    apply existsb_exists. exists file. split; [exact Hf|]. cbn [andb].
    apply Z.leb_le. apply (mapping_lines_positive a _ (Hpos file Hf)). exact Ha.
Qed.

Lemma ext_total_positive (files : list (string * dict Z)) (a e : string) (l : Z) :
  counts_positive files -> In (e, l) (author_exts a (collect files)) ->
  1 <= ext_lines (ext_entry e (collect files)).
Proof.
  intros Hpos Hin. apply in_dict_In in Hin. unfold collect in *.
  destruct (collect_from_where a e files no_stats)
    as (_ & He & _ & _ & _ & _ & _ & Hd).
  rewrite He. rewrite Hd in Hin.
  change (ext_lines (ext_entry e no_stats)) with 0.
  change (in_dict e (author_exts a no_stats)) with false in Hin. cbn [orb] in Hin.
  rewrite Z.add_0_l. unfold lines_where.
  apply total_where_positive; [apply file_lines_positive, Hpos|].
  apply existsb_exists in Hin. destruct Hin as (file & Hf & Hea).
  apply andb_true_iff in Hea. destruct Hea as [He' Ha].
  apply existsb_exists. exists file. split; [exact Hf|]. rewrite He'. cbn [andb].
  apply Z.leb_le. unfold counts_positive in Hpos. rewrite Forall_forall in Hpos.
  apply (mapping_lines_positive a _ (Hpos file Hf)).
  intros E. unfold has_author in Ha. rewrite E in Ha. discriminate.
Qed.

Lemma format_percentage_computed (part whole : Z) :
  0 < whole -> computed (format_percentage part whole).
Proof.
  intros H. unfold format_percentage.
  destruct (Z.eqb_spec whole 0); [lia | exact H].
Qed.

Lemma print_items_computed (total_lines : Z) (is_last : bool) (items : dict dir_node) :
  0 < total_lines ->
  Forall (fun item => forall prefix out,
            print_node (snd item) prefix is_last total_lines = Ok out ->
            Forall computed (flat_map shares out)) items ->
  forall prefix out,
    print_items (with_printers items) prefix is_last total_lines = Ok out ->
    Forall computed (flat_map shares out).
Proof.
  intros Hpos. induction 1 as [|[dir_name data] items Hdata _ IH]; intros prefix out.
  - cbn. intros H. inversion H. constructor.
  - change (with_printers ((dir_name, data) :: items))
      with ((dir_name, data, print_node data) :: with_printers items).
    cbn [print_items].
    destruct (above_threshold (dir_lines data) total_lines) as [above|]; [|discriminate].
    cbn [bind]. specialize (IH prefix). cbn [snd] in Hdata.
    specialize (Hdata (next_prefix_of prefix is_last)).
    destruct above.
    + destruct (match dir_subdirs data with
                | [] => Ok []
                | _ :: _ => print_node data (next_prefix_of prefix is_last)
                                       is_last total_lines
                end) as [below|] eqn:Eb; [|discriminate]. cbn [bind].
      destruct (print_items (with_printers items) prefix is_last total_lines)
        as [others|]; [|discriminate]. cbn [bind].
      intros H. inversion H. cbn [flat_map shares app].
      constructor; [apply format_percentage_computed, Hpos|].
      rewrite flat_map_app. apply Forall_app. split; [|apply IH; reflexivity].
      destruct (dir_subdirs data); [|apply Hdata, Eb].
      inversion Eb. constructor.
    + cbn [bind].
      destruct (print_items (with_printers items) prefix is_last total_lines)
        as [others|]; [|discriminate]. cbn [bind app].
      intros H. inversion H. subst. apply IH. reflexivity.
Qed.

Lemma print_node_computed (total_lines : Z) (is_last : bool) (data : dir_node) :
  0 < total_lines ->
  forall prefix out,
    print_node data prefix is_last total_lines = Ok out ->
    Forall computed (flat_map shares out).
Proof.
  intros Hpos. induction data as [f l subdirs IH] using dir_node_children_ind.
  intros prefix out. rewrite print_node_unfold. cbn [dir_subdirs].
  apply print_items_computed; [exact Hpos|].
  eapply Permutation_Forall; [apply sorted_desc_perm | exact IH].
Qed.

Lemma print_tree_computed (tree : root) (prefix : string) (is_last : bool)
    (total_lines : Z) (rows : list out_line) :
  0 < total_lines ->
  print_directory_tree tree prefix is_last total_lines = Ok rows ->
  Forall computed (flat_map shares rows).
Proof.
  intros Hpos. destruct tree as [subdirs|]; [|discriminate].
  rewrite print_directory_tree_unfold. apply print_items_computed; [exact Hpos|].
  apply Forall_forall. intros item _. apply print_node_computed, Hpos.
Qed.

Lemma main_no_files (files : list (string * dict Z)) :
  main files = Ok NoTrackedFiles -> files = [].
Proof.
  unfold main. destruct files as [|file files]; [reflexivity|].
  destruct (build_directory_tree _ _) as [tree|]; [|discriminate]. cbn [bind].
  destruct (print_directory_tree _ _ _ _) as [rows|]; discriminate.
Qed.

Lemma main_percentages_computed (files : list (string * dict Z)) (r : report) :
  counts_positive files -> main files = Ok (Printed r) ->
  0 < total_lines (collect files) /\ Forall computed (percentages r).
Proof.
  intros Hpos Hmain.
  assert (Htotal : 0 < total_lines (collect files)).
  { pose proof (main_cases files) as Hc. rewrite Hmain in Hc.
    destruct Hc as [->|[_ Hnz]]; [discriminate Hmain|].
    unfold collect in *. rewrite collect_from_total in *.
    change (total_lines no_stats) with 0 in *.
    destruct (total_where_mono (fun _ => true) (fun _ => true) file_lines files
                (fun _ H => H) (file_lines_positive files Hpos)) as [H0 _].
    unfold lines_where in *. lia. }
  split; [exact Htotal|].
  pose proof (build_in_main files) as Hbuild.
  unfold main in Hmain. destruct files as [|file files]; [discriminate|].
  rewrite Hbuild in Hmain. cbn [bind] in Hmain.
  set (fs := file :: files) in *.
  destruct (print_directory_tree _ _ _ _) as [rows|] eqn:Ep; [|discriminate].
  cbn [bind] in Hmain. inversion Hmain as [Hr]. clear Hmain Hr.
  unfold percentages. cbn [author_rows contributor_rows directory_rows].
  apply Forall_app. split; [|apply Forall_app; split].
  - rewrite map_map. apply Forall_forall. intros pc Hin.
    apply in_map_iff in Hin. destruct Hin as (x & <- & _). cbn [snd].
    apply format_percentage_computed, Htotal.
  - apply Forall_forall. intros pc Hin.
    apply in_flat_map in Hin. destruct Hin as (c & Hc & Hin).
    apply in_map_iff in Hc. destruct Hc as ([a n] & <- & Hx). cbn [fst snd] in Hin.
    apply in_flat_map in Hin. destruct Hin as (line & Hline & Hin).
    apply in_map_iff in Hline. destruct Hline as ([e l] & <- & Hel).
    apply (Permutation_in _ (Permutation_sym (sorted_desc_perm _ _))) in Hx.
    apply (Permutation_in _ (Permutation_sym (sorted_desc_perm _ _))) in Hel.
    pose proof (author_total_positive fs a n Hpos Hx) as Hn.
    pose proof (ext_total_positive fs a e l Hpos Hel) as He.
    cbn [contributor_line fst snd] in Hin.
    destruct Hin as [<-|[<-|[]]]; apply format_percentage_computed.
    + lia.
    + unfold ext_entry in He. lia.
  - apply (print_tree_computed _ _ _ _ _ Htotal Ep).
Qed.

Lemma blamed_lines (blame : string -> process) (tracked : list string) :
  0 <= lines_where (fun _ => true) (blamed blame tracked) /\
  (lines_where (fun _ => true) (blamed blame tracked) = 0 ->
   Forall (fun p => blame_info_of (blame p) = []) tracked) /\
  (lines_where (fun _ => true) (blamed blame tracked) <> 0 ->
   Exists (fun p => blame_info_of (blame p) <> []) tracked).
Proof.
  induction tracked as [|p tracked (I1 & I2 & I3)].
  - cbn. repeat split; [lia | constructor | congruence].
  - change (blamed blame (p :: tracked))
      with ((p, blame_info_of (blame p)) :: blamed blame tracked).
    rewrite lines_where_cons. unfold file_lines at 1 2 3. cbn [snd].
    destruct (mapping_lines_positive EmptyString _ (blame_info_positive (blame p)))
      as (M1 & M2 & _).
    destruct (blame_info_of (blame p)) as [|item d] eqn:E.
    + change (sum_values []) with 0. rewrite Z.add_0_l.
      repeat split; [exact I1 | |].
      * intros H. constructor; [exact E | apply I2, H].
      * intros H. apply Exists_cons_tl, I3, H.
    + specialize (M2 ltac:(discriminate)).
      repeat split; [lia | intros H; lia |].
      intros _. apply Exists_cons_hd. rewrite E. discriminate.
Qed.

Lemma tracked_files_tracked (cwd directory : string) (enter back : bool)
    (ls : ls_files) (extensions : list string) (p : string) :
  In p (fst (get_git_tracked_files cwd directory enter back ls extensions)) ->
  tracked_by extensions p = true.
Proof.
  unfold get_git_tracked_files.
  destruct enter, ls as [stdout| |], back; cbn [fst]; try (intros []).
  intros H. apply filter_In in H. apply H.
Qed.

(** X11.  Where a run ends.  Without the directory the process stays where
    it is.  When an exception escapes [get_git_blame_info] for a tracked
    file, the run ends with the first such exception, in the directory of
    the repository: line 162 is not reached.  When the process could enter
    the directory and then [git ls-files] failed or the way back did, the
    run reports no tracked files and also leaves the process in the
    directory of the repository.  In every other case the process ends in
    the working directory in which it started, also when the renderer
    raises. *)
Theorem script_working_directory (env : run_env) (cwd directory : string)
    (extensions : list string) :
  let tracked := fst (get_git_tracked_files cwd directory (can_enter env)
                        (can_return env) (git_ls_files env) extensions) in
  if directory_exists env then
    match first_escape (git_blame env) tracked with
    | Some e => script env cwd directory extensions = (Raise e, directory)
    | None =>
        if can_enter env && negb (can_return env && listed (git_ls_files env))
        then script env cwd directory extensions
             = (Ok (Ended NoTrackedFiles), directory)
        else snd (script env cwd directory extensions) = cwd
    end
  else script env cwd directory extensions = (Ok DirectoryMissing, cwd).
Proof.
  cbv zeta. unfold script, get_git_tracked_files.
  destruct (directory_exists env); [|reflexivity].
  destruct (can_enter env), (git_ls_files env) as [stdout| |], (can_return env);
    cbn [andb negb listed fst snd first_escape]; try reflexivity.
  destruct (filter (tracked_by extensions) (Text.splitlines stdout))
    as [|p0 tracked0]; [reflexivity|].
  set (tracked := p0 :: tracked0).
  rewrite (blame_all_cases (git_blame env) tracked).
  destruct (first_escape (git_blame env) tracked) as [e|]; [reflexivity|].
  rewrite build_in_main. reflexivity.
Qed.

(** X12.  The ways a run of the script ends, each with what makes it so.
    With the files that [get_git_tracked_files] returns: no report when
    there are none; UnicodeDecodeError or OSError, the first that escapes
    [get_git_blame_info] for a tracked file, when one does; when none
    does, TypeError when no tracked file lies in a directory and
    ZeroDivisionError when one does and [git blame] gives no counted line
    for any of them; and otherwise the report, for as many files as are
    tracked, with a grand total of at least one, in which every percentage
    is computed from a whole that is positive, so that the zero guard of
    [format_percentage] is never taken.  KeyError and IndexError never come
    up. *)
Theorem script_cases (env : run_env) (cwd directory : string)
    (extensions : list string) :
  let tracked := fst (get_git_tracked_files cwd directory (can_enter env)
                        (can_return env) (git_ls_files env) extensions) in
  match fst (script env cwd directory extensions) with
  | Ok DirectoryMissing => directory_exists env = false
  | Ok (Ended NoTrackedFiles) => directory_exists env = true /\ tracked = []
  | Ok (Ended (Printed r)) =>
      directory_exists env = true /\
      first_escape (git_blame env) tracked = None /\
      existsb in_directory tracked = true /\
      Exists (fun p => get_git_blame_info (git_blame env p) <> Ok []) tracked /\
      files_analyzed r = Z.of_nat (List.length tracked) /\
      1 <= shown_total_lines r /\
      Forall computed (percentages r)
  | Raise e =>
      directory_exists env = true /\
      tracked <> [] /\
      ((first_escape (git_blame env) tracked = Some e /\
        (e = UnicodeDecodeError \/ e = OSError)) \/
       (first_escape (git_blame env) tracked = None /\
        ((e = TypeError /\ existsb in_directory tracked = false) \/
         (e = ZeroDivisionError /\ existsb in_directory tracked = true /\
          Forall (fun p => get_git_blame_info (git_blame env p) = Ok []) tracked))))
  end.
Proof.
  cbv zeta. unfold script. destruct (directory_exists env); [|reflexivity].
  destruct (get_git_tracked_files cwd directory (can_enter env) (can_return env)
              (git_ls_files env) extensions) as [tracked cwd'].
  cbn [fst]. destruct tracked as [|p0 tracked0]; [split; reflexivity|].
  set (tracked := p0 :: tracked0).
  rewrite (blame_all_cases (git_blame env) tracked).
  destruct (first_escape (git_blame env) tracked) as [e|] eqn:Hesc.
  { cbn [fst]. split; [reflexivity|]. split; [discriminate|]. left.
    split; [reflexivity|]. apply (first_escape_some _ _ _ Hesc). }
  rewrite build_in_main. cbn [fst].
  pose proof (main_cases (blamed (git_blame env) tracked)) as Hc.
  pose proof (blamed_positive (git_blame env) tracked) as Hpos.
  destruct (blamed_lines (git_blame env) tracked) as (_ & Hzero & Hsome).
  rewrite some_in_directory_blamed in Hc.
  unfold collect in Hc. rewrite collect_from_total in Hc.
  change (total_lines no_stats) with 0 in Hc. rewrite Z.add_0_l in Hc.
  destruct (main (blamed (git_blame env) tracked)) as [[|r]|e] eqn:Em; cbn [bind].
  - apply main_no_files in Em. discriminate Em.
  - destruct Hc as [Hc|[Hdir Hnz]]; [discriminate Hc|].
    destruct (main_printed _ _ Em) as [Hfiles Hshown].
    destruct (main_percentages_computed _ _ Hpos Em) as [Htotal Hperc].
    split; [reflexivity|]. split; [reflexivity|]. split; [exact Hdir|]. split.
    { specialize (Hsome Hnz). apply Exists_exists in Hsome.
      destruct Hsome as (p & Hin & Hp). apply Exists_exists. exists p.
      split; [exact Hin|]. rewrite (first_escape_none _ _ _ Hesc Hin).
      intros H. inversion H. contradiction. }
    split; [|split; [lia | exact Hperc]].
    rewrite Hfiles. unfold blamed. rewrite length_map. reflexivity.
  - split; [reflexivity|]. split; [discriminate|]. right. split; [reflexivity|].
    destruct Hc as [_ [[Hdir ->]|(Hdir & Hz & ->)]].
    + left. split; [reflexivity | exact Hdir].
    + right. split; [reflexivity|]. split; [exact Hdir|].
      specialize (Hzero Hz). apply Forall_forall. intros p Hin.
      rewrite Forall_forall in Hzero.
      rewrite (first_escape_none _ _ _ Hesc Hin), (Hzero p Hin). reflexivity.
Qed.

(** ** The extensions of the tracked files *)

Lemma endswith_append (s suffix : string) :
  Text.endswith s suffix = true -> exists pre, s = String.append pre suffix.
Proof.
  induction s as [|c s IH]; cbn [Text.endswith]; intros H.
  - rewrite orb_false_r in H. apply String.eqb_eq in H.
    exists EmptyString. exact H.
  - apply orb_true_iff in H. destruct H as [H|H].
    + apply String.eqb_eq in H. exists EmptyString. exact H.
    + destruct (IH H) as (pre & ->). exists (String c pre). reflexivity.
Qed.

Lemma last_dot_unique (a b s e : string) :
  String.append a (String Path.DOT b) = String.append s (String Path.DOT e) ->
  Str.mem Path.DOT b = false -> Str.mem Path.DOT e = false -> b = e.
Proof.
  assert (Hone : forall a b s e,
    String.append a (String Path.DOT b) = String.append s (String Path.DOT e) ->
    Str.mem Path.DOT b = false ->
    (String.length a <= String.length s)%nat -> b = e).
  { clear. intros a b s e E Hb Hle.
    destruct (append_align a (String Path.DOT b) s (String Path.DOT e) E Hle)
      as (m & _ & Em).
    destruct m as [|c m]; cbn [String.append] in Em.
    - inversion Em. reflexivity.
    - inversion Em as [[Hc Eb]]. rewrite Eb, mem_append in Hb.
      cbn [Str.mem] in Hb. rewrite Ascii.eqb_refl in Hb. cbn [orb] in Hb.
      rewrite orb_true_r in Hb. discriminate. }
  intros E Hb He.
  destruct (Nat.le_ge_cases (String.length a) (String.length s)) as [Hle|Hge].
  - apply (Hone a b s e E Hb Hle).
  - symmetry. apply (Hone s e a b (eq_sym E) He Hge).
Qed.

Lemma splitext_shape (p : string) :
  Path.splitext_ext p = EmptyString \/
  exists a b, p = String.append a (String Path.DOT b) /\
              Str.mem Path.DOT b = false /\ Str.mem Path.SLASH b = false /\
              Path.splitext_ext p = String Path.DOT b.
Proof.
  unfold Path.splitext_ext.
  destruct (rfind_spec Path.DOT p) as [[Hd _]|(a & b & Ep & Hb & Hd)].
  - rewrite Hd. pose proof (rfind_lower Path.SLASH p).
    destruct (Z.ltb_spec (Path.rfind Path.SLASH p) (-1)); [lia|]. left. reflexivity.
  - rewrite Hd.
    destruct (Z.ltb_spec (Path.rfind Path.SLASH p) (Z.of_nat (String.length a)))
      as [Hlt|]; [|left; reflexivity].
    destruct (Path.has_other _ _); [|left; reflexivity].
    right. exists a, b. split; [exact Ep|]. split; [exact Hb|].
    split.
    + destruct (rfind_spec Path.SLASH p) as [[_ Hm]|(a' & seg & Ep' & Hseg & Hs)].
      * rewrite Ep, mem_append in Hm. cbn [Str.mem] in Hm.
        apply orb_false_iff in Hm. destruct Hm as [_ Hm].
        apply orb_false_iff in Hm. apply Hm.
      * rewrite Hs in Hlt.
        destruct (append_align a' (String Path.SLASH seg) a (String Path.DOT b))
          as (m & _ & Em); [congruence | lia |].
        destruct m as [|c m]; cbn [String.append] in Em; [inversion Em|].
        inversion Em as [[Hc Eseg]]. rewrite Eseg, mem_append in Hseg.
        cbn [Str.mem] in Hseg. apply orb_false_iff in Hseg. destruct Hseg as [_ H].
        apply orb_false_iff in H. apply H.
    + rewrite Nat2Z.id, Ep. apply drop_append.
Qed.

Lemma tracked_bucket (extensions : list string) (f : string) :
  forallb plain_extension extensions = true ->
  tracked_by extensions f = true ->
  Path.splitext_ext f = EmptyString \/ In (Path.splitext_ext f) extensions.
Proof.
  intros Hplain Ht. unfold tracked_by in Ht. apply existsb_exists in Ht.
  destruct Ht as (ext & Hin & Hend).
  rewrite forallb_forall in Hplain. specialize (Hplain ext Hin).
  destruct ext as [|c e]; [discriminate|]. cbn [plain_extension] in Hplain.
  apply andb_true_iff in Hplain. destruct Hplain as [Hp _].
  apply andb_true_iff in Hp. destruct Hp as [Hc Hd].
  apply Ascii.eqb_eq in Hc. subst c. apply negb_true_iff in Hd.
  destruct (endswith_append _ _ Hend) as (pre & Ef).
  destruct (splitext_shape f) as [H|(a & b & Ea & Hb & _ & Hext)]; [left; exact H|].
  right. rewrite Hext.
  rewrite (last_dot_unique a b pre e); [exact Hin | congruence | exact Hb | exact Hd].
Qed.

(** X13.  The rows of the extension table.  When every requested extension
    is a dot followed by characters that are neither dots nor slashes, as
    the default ones are, every key of [extension_stats] in a run is one of
    the requested extensions or the empty extension (that of a file whose
    name is nothing but dots before the extension, such as [.py]). *)
Theorem extension_rows_requested (env : run_env) (cwd directory : string)
    (extensions : list string) (e : string) :
  forallb plain_extension extensions = true ->
  in_dict e (extension_stats
               (collect (blamed (git_blame env)
                          (fst (get_git_tracked_files cwd directory (can_enter env)
                                  (can_return env) (git_ls_files env) extensions)))))
  = true ->
  e = EmptyString \/ In e extensions.
Proof.
  intros Hplain Hin. unfold collect in Hin.
  destruct (collect_from_where EmptyString e
              (blamed (git_blame env)
                 (fst (get_git_tracked_files cwd directory (can_enter env)
                         (can_return env) (git_ls_files env) extensions)))
              no_stats) as (_ & _ & He & _).
  rewrite He in Hin. change (in_dict e (extension_stats no_stats)) with false in Hin.
  cbn [orb] in Hin. apply existsb_exists in Hin. destruct Hin as (file & Hf & Hext).
  unfold blamed in Hf. apply in_map_iff in Hf. destruct Hf as (p & <- & Hp).
  apply tracked_files_tracked in Hp.
  unfold has_ext, ext_of in Hext. cbn [fst] in Hext. apply String.eqb_eq in Hext.
  rewrite <- Hext. apply tracked_bucket; assumption.
Qed.

Lemma extension_rows_requested_witness :
  ".py"%string = EmptyString \/ In ".py"%string default_extensions.
Proof.
  apply (extension_rows_requested
           (mkEnv true true true
                  (LsOutput (text_of_lines ["a.py"; "README.md"; "sub/b.rs"]%string))
                  (fun _ => Exited 0 two_line_blame ""))
           "/home"%string "/repo"%string default_extensions ".py"%string).
  - vm_compute. reflexivity.
  - vm_compute. reflexivity.
Defined.

(** ** The rows of the tables *)

Lemma len_append (s1 s2 : string) :
  Text.len (String.append s1 s2) = (Text.len s1 + Text.len s2)%nat.
Proof.
  induction s1 as [|c s1 IH]; [reflexivity|].
  cbn [String.append Text.len]. rewrite IH. lia.
Qed.

Lemma len_spaces (n : nat) : Text.len (Text.spaces n) = n.
Proof.
  induction n as [|n IH]; [reflexivity|].
  cbn [Text.spaces Text.len]. rewrite IH. reflexivity.
Qed.

Lemma len_ljust (width : nat) (s : string) :
  Text.len (Text.ljust width s) = Nat.max width (Text.len s).
Proof. unfold Text.ljust. rewrite len_append, len_spaces. lia. Qed.

Lemma len_rjust (width : nat) (s : string) :
  Text.len (Text.rjust width s) = Nat.max width (Text.len s).
Proof. unfold Text.rjust. rewrite len_append, len_spaces. lia. Qed.

(** X14.  A row of a table is aligned when every value fits its column: with
    as many widths and separators as values, and no value longer than its
    width, the row has the widths and the separators for its length,
    whatever the values are. *)
Theorem print_table_row_aligned (values : list string) (widths : list nat)
    (separators : list string) :
  Forall2 (fun value width => (Text.len value <= width)%nat) values widths ->
  List.length separators = List.length values ->
  Text.len (print_table_row values widths separators)
  = (list_sum widths + list_sum (map Text.len separators))%nat.
Proof.
  intros Hfit. revert separators.
  induction Hfit as [|value width values widths Hv _ IH]; intros separators Hlen.
  - destruct separators; [reflexivity | discriminate].
  - destruct separators as [|sep separators]; [discriminate|].
    cbn [print_table_row map list_sum fold_right].
    rewrite !len_append, len_ljust, IH by (cbn in Hlen; lia).
    fold (list_sum widths). fold (list_sum (map Text.len separators)). lia.
Qed.

Lemma print_table_row_aligned_witness :
  Text.len (print_table_row [".py"; "    15 lines in"; "   2 files"]%string
                            [8; 17; 10]%nat [":"; ""; ""]%string)
  = (list_sum [8; 17; 10] + list_sum (map Text.len [":"; ""; ""]%string))%nat.
Proof.
  apply print_table_row_aligned.
  - repeat constructor; vm_compute; lia.
  - reflexivity.
Defined.

Lemma extension_row_len (ext : string) (st : ext_stat) :
  Text.len (extension_row (ext, st)) = 36%nat <->
  (Text.len ext <= 8)%nat /\
  (Text.len (decimal (ext_lines st)) <= 8)%nat /\
  (Text.len (decimal (ext_files st)) <= 4)%nat.
Proof.
  unfold extension_row, format_d. cbn [fst snd print_table_row].
  rewrite !len_append, !len_ljust, !len_append, !len_rjust.
  change (Text.len " lines in") with 9%nat.
  change (Text.len " files") with 6%nat.
  change (Text.len ":") with 1%nat.
  change (Text.len "") with 0%nat.
  lia.
Qed.

(** The digits of a number: [acc] stands for the digits read so far. *)
Lemma of_uint_acc_bounds (l : Decimal.uint) :
  forall acc : positive,
  Z.pos acc * 10 ^ Z.of_nat (Decimal.nb_digits l)
  <= Z.pos (Pos.of_uint_acc l acc)
  < (Z.pos acc + 1) * 10 ^ Z.of_nat (Decimal.nb_digits l).
Proof.
  induction l as [|l IH|l IH|l IH|l IH|l IH|l IH|l IH|l IH|l IH|l IH]; intros acc;
    cbn [Pos.of_uint_acc Decimal.nb_digits];
    [change (10 ^ Z.of_nat 0) with 1; lia | ..];
    rewrite Nat2Z.inj_succ, Z.pow_succ_r by lia;
    match goal with
    | |- context [Pos.of_uint_acc l ?a] => specialize (IH a)
    end;
    assert (0 < 10 ^ Z.of_nat (Decimal.nb_digits l)) by (apply Z.pow_pos_nonneg; lia);
    nia.
Qed.

(** The numeral of a positive number does not start with a zero. *)
Lemma to_uint_head (p : positive) :
  match Pos.to_uint p with
  | Decimal.Nil | Decimal.D0 _ => False
  | _ => True
  end.
Proof.
  pose proof (DecimalPos.Unsigned.to_of (Pos.to_uint p)) as H.
  rewrite DecimalPos.Unsigned.of_to in H.
  change (N.to_uint (N.pos p)) with (Pos.to_uint p) in H.
  pose proof (DecimalPos.Unsigned.to_uint_nonzero p) as Hz.
  pose proof (DecimalPos.Unsigned.to_uint_nonnil p) as Hn.
  destruct (Pos.to_uint p) as [|l| | | | | | | | |]; try exact I; [congruence|].
  unfold Decimal.unorm in H. cbn [Decimal.nzhead] in H.
  pose proof (DecimalFacts.nb_digits_nzhead l) as Hlen.
  destruct (Decimal.nzhead l) eqn:E;
    try (rewrite <- H in Hlen; cbn [Decimal.nb_digits] in Hlen; lia).
  apply Hz. exact H.
Qed.

Lemma to_uint_bounds (p : positive) :
  10 ^ (Z.of_nat (Decimal.nb_digits (Pos.to_uint p)) - 1) <= Z.pos p
  < 10 ^ Z.of_nat (Decimal.nb_digits (Pos.to_uint p)).
Proof.
  pose proof (DecimalPos.Unsigned.of_to p) as Hof.
  pose proof (to_uint_head p) as Hh.
  destruct (Pos.to_uint p) as [|l|l|l|l|l|l|l|l|l|l]; try contradiction;
    cbn [Pos.of_uint] in Hof; inversion Hof as [Hp];
    cbn [Decimal.nb_digits]; rewrite Nat2Z.inj_succ;
    replace (Z.succ (Z.of_nat (Decimal.nb_digits l)) - 1)
      with (Z.of_nat (Decimal.nb_digits l)) by lia;
    rewrite Z.pow_succ_r by lia;
    match goal with
    | |- context [Pos.of_uint_acc l ?a] => pose proof (of_uint_acc_bounds l a) as Hb
    end;
    assert (0 < 10 ^ Z.of_nat (Decimal.nb_digits l)) by (apply Z.pow_pos_nonneg; lia);
    nia.
Qed.

Lemma len_digits (d : Decimal.uint) :
  Text.len (DecimalString.NilEmpty.string_of_uint d) = Decimal.nb_digits d.
Proof.
  induction d; cbn [DecimalString.NilEmpty.string_of_uint Text.len Decimal.nb_digits];
    [reflexivity | ..]; rewrite IHd; reflexivity.
Qed.

(** [str(n)] has at most [k] characters exactly when [n] is below [10^k]. *)
Lemma decimal_len (n : Z) (k : nat) :
  0 <= n -> (1 <= k)%nat ->
  ((Text.len (decimal n) <= k)%nat <-> n < 10 ^ Z.of_nat k).
Proof.
  intros Hn Hk. destruct n as [|p|p]; [| |lia].
  - change (Text.len (decimal 0)) with 1%nat.
    split; intros _; [apply Z.pow_pos_nonneg; lia | exact Hk].
  - assert (E : decimal (Z.pos p)
                = DecimalString.NilEmpty.string_of_uint (Pos.to_uint p)).
    { unfold decimal. cbn [Z.to_int DecimalString.NilZero.string_of_int].
      unfold DecimalString.NilZero.string_of_uint.
      pose proof (DecimalPos.Unsigned.to_uint_nonnil p) as Hnil.
      destruct (Pos.to_uint p); [contradiction | reflexivity ..]. }
    rewrite E, len_digits. pose proof (to_uint_bounds p) as Hb.
    set (L := Decimal.nb_digits (Pos.to_uint p)) in *. split.
    + intros HL. eapply Z.lt_le_trans; [apply Hb|]. apply Z.pow_le_mono_r; lia.
    + intros Hlt. destruct (Nat.le_gt_cases L k) as [Hle|Hgt]; [exact Hle|].
      exfalso.
      assert (10 ^ Z.of_nat k <= 10 ^ (Z.of_nat L - 1)) by (apply Z.pow_le_mono_r; lia).
      lia.
Qed.

(** X15.  A row of the extension table has its thirty-six characters exactly
    when the extension has at most eight, the lines are fewer than [10^8]
    and the files fewer than [10^4]: the column of the lines takes two
    digits more than the six it formats before the row grows. *)
Theorem extension_row_width (ext : string) (st : ext_stat) :
  0 <= ext_lines st -> 0 <= ext_files st ->
  (Text.len (extension_row (ext, st)) = 36%nat <->
   (Text.len ext <= 8)%nat /\ ext_lines st < 10 ^ 8 /\ ext_files st < 10 ^ 4).
Proof.
  intros Hl Hf. rewrite extension_row_len.
  rewrite (decimal_len (ext_lines st) 8 Hl) by lia.
  rewrite (decimal_len (ext_files st) 4 Hf) by lia.
  reflexivity.
Qed.

Lemma extension_row_width_witness :
  Text.len (extension_row (".py"%string, mkExt 2 15)) = 36%nat <->
  (Text.len ".py" <= 8)%nat /\ ext_lines (mkExt 2 15) < 10 ^ 8
  /\ ext_files (mkExt 2 15) < 10 ^ 4.
Proof.
  apply (extension_row_width ".py"%string (mkExt 2 15)); cbn [ext_lines ext_files]; lia.
Defined.

(** ** The listing of git ls-files *)

Lemma pieces_cons (c : ascii) (s1 : string) :
  Text.pieces (String c s1) =
  let grown := match Text.pieces s1 with
               | [] => [String c EmptyString]
               | w :: ws => String c w :: ws
               end in
  if Text.is_break c then
    match s1 with
    | String c2 s2 =>
        if Ascii.eqb c Text.CR && Ascii.eqb c2 LF then EmptyString :: Text.pieces s2
        else EmptyString :: Text.pieces s1
    | EmptyString => EmptyString :: Text.pieces s1
    end
  else if Ascii.eqb c (ascii_of_nat 194) then
    match s1 with
    | String c2 s2 =>
        if Ascii.eqb c2 (ascii_of_nat 133) then EmptyString :: Text.pieces s2
        else grown
    | EmptyString => grown
    end
  else if Ascii.eqb c (ascii_of_nat 226) then
    match s1 with
    | String c2 (String c3 s3) =>
        if Ascii.eqb c2 (ascii_of_nat 128)
           && (Ascii.eqb c3 (ascii_of_nat 168) || Ascii.eqb c3 (ascii_of_nat 169))
        then EmptyString :: Text.pieces s3
        else grown
    | _ => grown
    end
  else grown.
Proof. reflexivity. Qed.

Lemma pieces_line (l rest : string) :
  unbroken l = true ->
  Text.pieces (String.append l (String LF rest)) = l :: Text.pieces rest.
Proof.
  induction l as [|c l IH]; intros H.
  - cbn [String.append]. rewrite pieces_cons. cbv zeta.
    change (Text.is_break LF) with true. cbv iota.
    destruct rest as [|c2 s2]; [reflexivity|].
    change (Ascii.eqb LF Text.CR) with false. reflexivity.
  - cbn [unbroken] in H. apply andb_true_iff in H. destruct H as [H Hl].
    apply andb_true_iff in H. destruct H as [H H226].
    apply andb_true_iff in H. destruct H as [Hbreak H194].
    apply negb_true_iff in Hbreak, H194, H226.
    cbn [String.append]. rewrite pieces_cons, (IH Hl). cbv zeta. rewrite Hbreak.
    destruct (Ascii.eqb c (ascii_of_nat 194)) eqn:E194.
    + cbn [andb] in H194. destruct l as [|c2 l2]; cbn [String.append].
      * change (Ascii.eqb LF (ascii_of_nat 133)) with false. reflexivity.
      * rewrite H194. reflexivity.
    + destruct (Ascii.eqb c (ascii_of_nat 226)) eqn:E226; [|reflexivity].
      cbn [andb] in H226. destruct l as [|c2 [|c3 l3]]; cbn [String.append].
      * destruct rest; [reflexivity|].
        change (Ascii.eqb LF (ascii_of_nat 128)) with false. reflexivity.
      * change (Ascii.eqb LF (ascii_of_nat 168)) with false.
        change (Ascii.eqb LF (ascii_of_nat 169)) with false.
        rewrite andb_false_r. reflexivity.
      * rewrite H226. reflexivity.
Qed.

Lemma pieces_text_of_lines (ls : list string) :
  Forall (fun l => unbroken l = true) ls ->
  Text.pieces (text_of_lines ls) = ls ++ [EmptyString].
Proof.
  induction 1 as [|l ls Hl _ IH]; [reflexivity|].
  cbn [text_of_lines app]. rewrite (pieces_line _ _ Hl), IH. reflexivity.
Qed.

(** X16.  When [git ls-files] lists names in which [splitlines] finds no
    line boundary, each on a line of its own, and the process can go into
    the directory and back, [get_git_tracked_files] returns the names that
    end with one of the extensions, in the order of the listing, and the
    process is back where it was. *)
Theorem tracked_files_of_listing (cwd directory : string)
    (names extensions : list string) :
  Forall (fun name => unbroken name = true) names ->
  get_git_tracked_files cwd directory true true (LsOutput (text_of_lines names))
                        extensions
  = (filter (tracked_by extensions) names, cwd).
Proof.
  intros H. unfold get_git_tracked_files, Text.splitlines.
  rewrite (pieces_text_of_lines _ H), rev_app_distr. cbn [rev app].
  rewrite rev_involutive. reflexivity.
Qed.

Lemma tracked_files_of_listing_witness :
  get_git_tracked_files "/home" "/repo" true true
    (LsOutput (text_of_lines ["a.py"; "README.md"; "sub/b.rs"]%string))
    default_extensions
  = (filter (tracked_by default_extensions) ["a.py"; "README.md"; "sub/b.rs"]%string,
     "/home"%string).
Proof.
  apply tracked_files_of_listing. repeat constructor.
Defined.

(** ** The report adds up *)

Lemma dict_sum_perm {V : Type} (m : V -> Z) (d d' : dict V) :
  Permutation d d' -> dict_sum m d = dict_sum m d'.
Proof.
  unfold dict_sum. induction 1; cbn [fold_right]; lia.
Qed.

Lemma ext_files_total (files : list (string * dict Z)) :
  forall st : stats,
  dict_sum ext_files (extension_stats (collect_from st files))
  = dict_sum ext_files (extension_stats st) + Z.of_nat (List.length files).
Proof.
  induction files as [|[p r] files IH]; intros st; [cbn; lia|].
  rewrite collect_from_cons, IH. cbn [collect_file extension_stats List.length].
  rewrite dict_sum_upd. unfold count_file.
  destruct (dict_get (Path.splitext_ext p) (extension_stats st));
    cbn [or_default option_map ext_files]; lia.
Qed.

Lemma total_of_values (d : dict Z) : total_of (map snd d) = sum_values d.
Proof.
  unfold total_of, sum_values, dict_sum.
  induction d as [|item d IH]; [reflexivity|]. cbn [map fold_right]. rewrite IH.
  reflexivity.
Qed.

(** X17.  The report adds up: the file counts of the extension rows sum to
    the number of files analysed, and the line counts of the extension rows
    and of the author rows each sum to the grand total that the report
    shows. *)
Theorem report_adds_up (files : list (string * dict Z)) (r : report) :
  main files = Ok (Printed r) ->
  dict_sum ext_files (extension_rows r) = files_analyzed r /\
  dict_sum ext_lines (extension_rows r) = shown_total_lines r /\
  total_of (map (fun row => snd (fst row)) (author_rows r)) = shown_total_lines r.
Proof.
  intros Hmain. destruct (main_report _ _ Hmain) as (rows & ->).
  cbn [extension_rows files_analyzed shown_total_lines author_rows].
  destruct (collect_consistent files) as (C1 & C2 & _).
  unfold extension_listing, author_listing.
  rewrite <- !(dict_sum_perm _ _ _ (sorted_desc_perm _ _)).
  split; [|split].
  - unfold collect. rewrite ext_files_total. reflexivity.
  - exact C1.
  - rewrite map_map. rewrite (map_ext _ snd) by reflexivity.
    rewrite total_of_values. unfold sum_values.
    rewrite <- (dict_sum_perm _ _ _ (sorted_desc_perm _ _)). exact C2.
Qed.

Lemma report_adds_up_witness :
  dict_sum ext_files [(".py"%string, mkExt 2 15)] = 2 /\
  dict_sum ext_lines [(".py"%string, mkExt 2 15)] = 15 /\
  total_of (map (fun row : string * Z * percentage => snd (fst row))
                [("Alice"%string, 10, PercentOf 10 15); ("Bob"%string, 5, PercentOf 5 15)])
  = 15.
Proof.
  apply (report_adds_up demo_files
           (mkReport 15 2
              [(".py"%string, mkExt 2 15)]
              [("Alice"%string, 10, PercentOf 10 15); ("Bob"%string, 5, PercentOf 5 15)]
              [("Alice"%string, [(".py"%string, 10, PercentOf 10 10, PercentOf 10 15)]);
               ("Bob"%string, [(".py"%string, 5, PercentOf 5 5, PercentOf 5 15)])]
              [DirName "└── sub/"; DirTotals "    " 5 (PercentOf 5 15) 1])).
  vm_compute. reflexivity.
Defined.

Lemma Forall2_maps {A B C : Type} (P : B -> C -> Prop) (f : A -> B) (g : A -> C)
    (l : list A) :
  (forall x, In x l -> P (f x) (g x)) -> Forall2 P (map f l) (map g l).
Proof.
  induction l as [|x l IH]; intros H; [constructor|].
  cbn [map]. constructor; [apply H; left; reflexivity|].
  apply IH. intros y Hy. apply H. right. exact Hy.
Qed.

(** X18.  The breakdown for contributors covers every author, not three:
    it has one block for each row of the author table, in the same order,
    with every key of [author_stats] once; and the lines of the extensions
    in the block of an author sum to the lines of that author. *)
Theorem contributors_cover_authors (files : list (string * dict Z)) (r : report) :
  main files = Ok (Printed r) ->
  map fst (contributor_rows r) = map (fun row => fst (fst row)) (author_rows r) /\
  Permutation (map fst (author_stats (collect files))) (map fst (contributor_rows r)) /\
  Forall2 (fun block row =>
             total_of (map (fun line => snd (fst (fst line))) (snd block))
             = snd (fst row))
          (contributor_rows r) (author_rows r).
Proof.
  intros Hmain. destruct (main_report _ _ Hmain) as (rows & ->).
  cbn [contributor_rows author_rows].
  split; [|split].
  - rewrite !map_map. reflexivity.
  - rewrite map_map. cbn [fst]. apply (Permutation_map fst), sorted_desc_perm.
  - apply Forall2_maps. intros [a n] Hin. cbn [fst snd].
    apply (Permutation_in _ (Permutation_sym (sorted_desc_perm _ _))) in Hin.
    destruct (tables_keys_distinct files) as (_ & Hnd & _).
    pose proof (dict_get_in a n _ Hnd Hin) as Hget.
    destruct (collect_consistent files) as (_ & _ & C3 & _).
    specialize (C3 a). unfold count_of in C3. rewrite Hget in C3.
    cbn [or_default] in C3. rewrite <- C3.
    rewrite map_map.
    rewrite (map_ext _ snd) by (intros [e l]; reflexivity).
    rewrite total_of_values. unfold author_extensions, sum_values.
    rewrite <- (dict_sum_perm _ _ _ (sorted_desc_perm _ _)). reflexivity.
Qed.

Lemma contributors_cover_authors_witness :
  exists r : report,
    main demo_files = Ok (Printed r) /\
    map fst (contributor_rows r) = ["Alice"; "Bob"]%string.
Proof.
  eexists. split; [vm_compute; reflexivity|].
  match goal with
  | |- map fst (contributor_rows ?r) = _ =>
      destruct (contributors_cover_authors demo_files r ltac:(vm_compute; reflexivity))
        as (H & _)
  end.
  rewrite H. reflexivity.
Defined.

(** ** The directories of a relative path *)

(** X19.  The directories of a relative path: for segments that are not
    empty, are not a single dot and hold no slash, the path that joins them
    with slashes has these segments for its parts, and all but the last of
    them are the directories in which [build_directory_tree] counts the
    file. *)
Theorem dir_parts_of_relative (dirs : list string) (name : string) :
  Forall (fun seg => proper_segment seg = true) (dirs ++ [name]) ->
  Path.parts (String.concat "/" (dirs ++ [name])) = dirs ++ [name] /\
  Path.dir_parts (String.concat "/" (dirs ++ [name])) = dirs.
Proof.
  intros H. split; [|apply dir_parts_joined, H].
  destruct (dirs ++ [name]) as [|seg segs] eqn:E; [destruct dirs; discriminate|].
  apply parts_joined, H.
Qed.

Lemma dir_parts_of_relative_witness :
  Path.parts "src/util/io.py" = ["src"; "util"; "io.py"]%string /\
  Path.dir_parts "src/util/io.py" = ["src"; "util"]%string.
Proof.
  apply (dir_parts_of_relative ["src"; "util"]%string "io.py"%string).
  repeat constructor.
Defined.

(** ** What the grand total counts *)

Lemma sum_values_tally (names : list string) :
  forall counts : dict Z,
  sum_values (tally names counts) = sum_values counts + Z.of_nat (List.length names).
Proof.
  unfold tally. induction names as [|name names IH]; intros counts.
  - cbn [fold_left List.length]. change (Z.of_nat 0) with 0. rewrite Z.add_0_r.
    reflexivity.
  - cbn [fold_left List.length]. rewrite IH, sum_values_incr. lia.
Qed.

Lemma blamed_total (blame : string -> process) (tracked : list string) :
  total_lines (collect (blamed blame tracked))
  = total_of (map (fun p => counted_lines (blame p)) tracked).
Proof.
  unfold collect. rewrite collect_from_total. change (total_lines no_stats) with 0.
  rewrite Z.add_0_l. induction tracked as [|p tracked IH]; [reflexivity|].
  change (blamed blame (p :: tracked))
    with ((p, blame_info_of (blame p)) :: blamed blame tracked).
  rewrite lines_where_cons, IH. cbn [map total_of fold_right]. f_equal.
  unfold file_lines, blame_info_of, counted_lines. cbn [snd].
  destruct (subprocess_run (blame p)) as [stdout|e]; [|reflexivity].
  rewrite sum_values_tally. reflexivity.
Qed.

(** X20.  What the grand total of a run counts: the total that the report
    shows is the number of author lines with a name that come after the
    first commit line in [result.stdout], the decoded output of
    [git blame] in which every CR LF and every other CR has become a line
    feed, taken over the tracked files; a file whose [git blame] failed
    adds nothing.  (A carriage return in a line of a file so adds a line
    to the scan: what follows it is counted when it reads as an author
    line.) *)
Theorem script_total_counts_author_lines (env : run_env) (cwd directory : string)
    (extensions : list string) (r : report) :
  fst (script env cwd directory extensions) = Ok (Ended (Printed r)) ->
  shown_total_lines r
  = total_of (map (fun p => counted_lines (git_blame env p))
                  (fst (get_git_tracked_files cwd directory (can_enter env)
                          (can_return env) (git_ls_files env) extensions))).
Proof.
  unfold script. destruct (directory_exists env); [|discriminate].
  destruct (get_git_tracked_files cwd directory (can_enter env) (can_return env)
              (git_ls_files env) extensions) as [tracked cwd'].
  cbn [fst]. destruct tracked as [|p0 tracked0]; [discriminate|].
  set (tracked := p0 :: tracked0).
  rewrite (blame_all_cases (git_blame env) tracked).
  destruct (first_escape (git_blame env) tracked) as [e|]; [discriminate|].
  rewrite build_in_main. cbn [fst].
  destruct (main (blamed (git_blame env) tracked)) as [[|r']|e] eqn:Em;
    cbn [bind]; try discriminate.
  intros H. inversion H. subst r'.
  destruct (main_printed _ _ Em) as [_ ->]. apply blamed_total.
Qed.

Lemma script_total_counts_author_lines_witness :
  exists r : report,
    fst (script (mkEnv true true true
                       (LsOutput (text_of_lines ["sub/a.py"; "notes.txt"]%string))
                       (fun _ => Exited 0 carriage_return_blame ""))
                "/home" "/repo" default_extensions)
    = Ok (Ended (Printed r)) /\
    shown_total_lines r = 2.
Proof.
  eexists. split; [vm_compute; reflexivity|].
  match goal with
  | |- shown_total_lines ?r = _ =>
      rewrite (script_total_counts_author_lines
                 (mkEnv true true true
                        (LsOutput (text_of_lines ["sub/a.py"; "notes.txt"]%string))
                        (fun _ => Exited 0 carriage_return_blame ""))
                 "/home" "/repo" default_extensions r)
        by (vm_compute; reflexivity)
  end.
  vm_compute. reflexivity.
Defined.

(** ** The printed directories come first *)

Lemma filter_sorted_first {A : Type} (key : A -> Z) (f : A -> bool) (l : list A) :
  (forall x y, key y <= key x -> f y = true -> f x = true) ->
  StronglySorted (fun a b => key b <= key a) l ->
  filter f l = firstn (List.length (filter f l)) l.
Proof.
  intros Hup. induction 1 as [|x l _ IH Hx]; [reflexivity|].
  cbn [filter]. destruct (f x) eqn:Hfx.
  - cbn [List.length firstn]. rewrite <- IH. reflexivity.
  - assert (Hnone : filter f l = []).
    { clear IH. induction Hx as [|y l Hy _ IHl]; [reflexivity|].
      cbn [filter]. destruct (f y) eqn:Hfy; [|exact IHl].
      rewrite (Hup x y Hy Hfy) in Hfx. discriminate. }
    rewrite Hnone. reflexivity.
Qed.

Lemma filter_length_perm {A : Type} (f : A -> bool) (l l' : list A) :
  Permutation l l' -> List.length (filter f l) = List.length (filter f l').
Proof.
  induction 1 as [|x l l' _ IH|x y l|l l' l'' _ IH1 _ IH2].
  - reflexivity.
  - cbn [filter]. destruct (f x); cbn [List.length]; rewrite IH; reflexivity.
  - cbn [filter]. destruct (f x), (f y); reflexivity.
  - congruence.
Qed.

Lemma above_threshold_true (lines total_lines : Z) :
  0 < total_lines ->
  (above_threshold lines total_lines = Ok true <->
   (2 * one_percent_mantissa + 1) * total_lines <= lines * 2 ^ 60).
Proof.
  intros Hpos. unfold above_threshold.
  destruct (Z.eqb_spec total_lines 0) as [|_]; [lia|].
  destruct (Z.ltb_spec total_lines 0) as [|_]; [lia|].
  rewrite Z.abs_eq by lia. split.
  - intros H. inversion H as [Hb]. apply Z.leb_le in Hb. exact Hb.
  - intros H. apply Z.leb_le in H. rewrite H. reflexivity.
Qed.

Lemma threshold_sound_step (lines lines' total_lines : Z) :
  0 < total_lines ->
  above_threshold lines total_lines = Ok true ->
  lines <= lines' ->
  above_threshold lines' total_lines = Ok true /\ total_lines < 100 * lines.
Proof.
  intros Hpos H Hle. apply (above_threshold_true _ _ Hpos) in H.
  unfold one_percent_mantissa in H. change (2 ^ 60) with 1152921504606846976 in H.
  split; [|lia]. apply (above_threshold_true _ _ Hpos).
  unfold one_percent_mantissa. change (2 ^ 60) with 1152921504606846976. lia.
Qed.

(** X21.  Whatever the size of the grand total, as long as it is positive:
    a directory that passes the comparison with [0.01] has more than one
    hundredth of the grand total, and so does, and passes, every directory
    with at least as many lines. *)
Theorem threshold_sound (lines lines' total_lines : Z) :
  0 < total_lines ->
  above_threshold lines total_lines = Ok true ->
  total_lines < 100 * lines /\
  (lines <= lines' -> above_threshold lines' total_lines = Ok true).
Proof.
  intros Hpos H. split.
  - apply (threshold_sound_step lines lines total_lines Hpos H (Z.le_refl _)).
  - intros Hle. apply (threshold_sound_step lines lines' total_lines Hpos H Hle).
Qed.

Lemma threshold_sound_witness :
  15 < 100 * 5 /\ (5 <= 7 -> above_threshold 7 15 = Ok true).
Proof.
  apply (threshold_sound 5 7 15); [lia | reflexivity].
Defined.

(** X22.  Under a grand total that is not negative, the children that the
    renderer prints are the first ones of the sorted listing that it walks:
    after the first child that is left out, every child is left out. *)
Theorem printed_directories_first (total_lines : Z) (children : dict dir_node) :
  0 <= total_lines ->
  filter (printed total_lines)
         (sorted_desc (fun item => dir_lines (snd item)) children)
  = firstn (List.length (filter (printed total_lines) children))
           (sorted_desc (fun item => dir_lines (snd item)) children).
Proof.
  intros Hpos.
  rewrite (filter_length_perm _ _ _
             (sorted_desc_perm (fun item => dir_lines (snd item)) children)).
  apply (filter_sorted_first (fun item : string * dir_node => dir_lines (snd item))).
  - intros x y Hle. unfold printed.
    destruct (Z.eq_dec total_lines 0) as [->|Hnz]; [discriminate|].
    assert (Htotal : 0 < total_lines) by lia.
    destruct (above_threshold (dir_lines (snd y)) total_lines) as [[|]|] eqn:Ey;
      try discriminate.
    intros _. destruct (threshold_sound_step _ _ _ Htotal Ey Hle) as [-> _].
    reflexivity.
  - apply sorted_desc_sorted.
Qed.

Lemma printed_directories_first_witness :
  filter (printed 15)
         (sorted_desc (fun item : string * dir_node => dir_lines (snd item))
                      [("docs"%string, mkDir 1 0 []); ("sub"%string, mkDir 1 5 [])])
  = firstn (List.length (filter (printed 15)
                           [("docs"%string, mkDir 1 0 []); ("sub"%string, mkDir 1 5 [])]))
           (sorted_desc (fun item : string * dir_node => dir_lines (snd item))
                        [("docs"%string, mkDir 1 0 []); ("sub"%string, mkDir 1 5 [])]).
Proof.
  apply (printed_directories_first 15). lia.
Defined.

(** ** The numbers of the summary *)

Lemma without_commas_append (s1 s2 : string) :
  without_commas (String.append s1 s2)
  = String.append (without_commas s1) (without_commas s2).
Proof.
  induction s1 as [|c s1 IH]; [reflexivity|].
  cbn [String.append without_commas]. rewrite IH.
  destruct (Ascii.eqb c ","); reflexivity.
Qed.

Lemma without_commas_none (s : string) :
  Str.mem ","%char s = false -> without_commas s = s.
Proof.
  induction s as [|c s IH]; [reflexivity|]. cbn [Str.mem without_commas]. intros H.
  apply orb_false_iff in H. destruct H as [Hc Hs]. rewrite Hc, (IH Hs). reflexivity.
Qed.

Lemma with_commas_digits (digits : string) :
  Str.mem ","%char digits = false -> without_commas (with_commas digits) = digits.
Proof.
  induction digits as [|c rest IH]; [reflexivity|].
  cbn [Str.mem with_commas without_commas]. intros H.
  apply orb_false_iff in H. destruct H as [Hc Hs]. rewrite Hc.
  destruct ((0 <? String.length rest)%nat && (String.length rest mod 3 =? 0)%nat).
  - cbn [without_commas]. rewrite Ascii.eqb_refl, (IH Hs). reflexivity.
  - rewrite (IH Hs). reflexivity.
Qed.

Lemma uint_no_comma (d : Decimal.uint) :
  Str.mem ","%char (DecimalString.NilEmpty.string_of_uint d) = false.
Proof. induction d; cbn [DecimalString.NilEmpty.string_of_uint Str.mem]; auto. Qed.

Lemma decimal_no_comma (n : Z) : Str.mem ","%char (decimal n) = false.
Proof.
  unfold decimal, DecimalString.NilZero.string_of_int,
    DecimalString.NilZero.string_of_uint.
  destruct (Z.to_int n) as [d|d]; destruct d; cbn [Str.mem];
    try reflexivity; apply (uint_no_comma (_ d)) || apply uint_no_comma.
Qed.

Lemma format_comma_digits (n : Z) : without_commas (format_comma n) = decimal n.
Proof.
  unfold format_comma. destruct n as [|p|p].
  - reflexivity.
  - change (Z.pos p <? 0) with false. cbv iota.
    apply with_commas_digits, decimal_no_comma.
  - change (Z.neg p <? 0) with true. cbv iota. cbn [without_commas].
    change (Ascii.eqb "-" ",") with false. cbv iota.
    rewrite (with_commas_digits _ (decimal_no_comma _)).
    change (- Z.neg p) with (Z.pos p). reflexivity.
Qed.

(** X23.  The numbers of the summary: with the commas taken out, the two
    lines under the heading are their labels followed by the decimal
    numerals of the grand total and of the number of files, so that the
    grouping adds commas and changes no digit. *)
Theorem summary_numbers (total_lines n_files : Z) :
  map without_commas (summary total_lines n_files)
  = [ String LF "Repository Analysis";
      String.append "├── Total Lines: " (decimal total_lines);
      String.append "└── Files Analyzed: " (decimal n_files) ].
Proof.
  unfold summary. cbn [map]. rewrite !without_commas_append, !format_comma_digits.
  reflexivity.
Qed.

